(** * eznotes: the live session orchestration pipeline

    A shallow embedding of the audio WebSocket server
    (lib/websocket/audio-server.ts), of the bot service
    (services/bot-service.ts) and of the MeetingBaas events webhook
    (app/api/webhooks/meetingbaas/events/route.ts), with the properties of
    the specification stated and settled against it.

    Conventions of the embedding.
    - The Prisma tables are lists of rows in insertion order; the in-memory
      registries ([activeSessions], [sseClients], [botIds]) are finite maps.
    - JavaScript objects shared by reference (a [MeetingSession] is held both
      by the connection closure and by [activeSessions]) live in a store of
      sessions indexed by a reference.
    - Every handler is a computation in a state-and-exception monad over the
      process state [World]; a thrown error keeps the state changes made
      before it, as in JavaScript.
    - The outside world (clock, MeetingBaas, OpenAI, environment variables)
      is the record [Env] a handler runs against.
    - A handler runs to completion before the next one starts: interleaving
      of [async] handlers at their [await] points is not modelled. Work a
      handler starts without awaiting it (a timer, the final processing
      started by [stopBot]) is recorded when it is started and runs as a
      handler of its own.
    - JavaScript numbers are exact: timestamps in seconds are rationals, the
      exact values of the doubles of the code, and [Date.now()] is an integer
      number of milliseconds. The one operation of the code that rounds, the
      difference of two timestamps, is exact here; the properties that
      depend on it keep to the gaps on which both agree ([belowWindow]).
    - Strings are sequences of 8-bit characters, and [Js.trim] removes the
      ASCII white space; the properties that depend on what is trimmed are
      stated for ASCII texts ([isAscii]), on which it is the [trim] of
      JavaScript. *)

From Stdlib Require Import ZArith QArith Qround String Ascii List Lia.
From stdpp Require Import base option list gmap strings pretty.
Import ListNotations.

(** ** JavaScript values *)

Module Js.

(** White space removed by [String.prototype.trim], on the ASCII range. *)
Definition isWhiteSpace (c : ascii) : bool :=
  match nat_of_ascii c with
  | 9 | 10 | 11 | 12 | 13 | 32 => true
  | _ => false
  end.

Fixpoint trimStart (s : string) : string :=
  match s with
  | EmptyString => EmptyString
  | String c s' => if isWhiteSpace c then trimStart s' else s
  end.

Fixpoint trimEnd (s : string) : string :=
  match s with
  | EmptyString => EmptyString
  | String c s' =>
      match trimEnd s' with
      | EmptyString => if isWhiteSpace c then EmptyString else String c EmptyString
      | t => String c t
      end
  end.

(** [s.trim()] *)
Definition trim (s : string) : string := trimEnd (trimStart s).

(** Truthiness of a string: the empty string is falsy. *)
Definition truthy (s : string) : bool :=
  match s with
  | EmptyString => false
  | String _ _ => true
  end.

(** Truthiness of a possibly missing string ([undefined], [null] or a
    string). *)
Definition truthyOpt (o : option string) : bool :=
  match o with
  | Some s => truthy s
  | None => false
  end.

(** Truthiness of a number: zero is falsy. *)
Definition truthyNum (q : Q) : bool := negb (Qeq_bool q 0).

(** [a || b] on possibly missing strings. *)
Definition orElse (a b : option string) : option string :=
  if truthyOpt a then a else b.

(** [a || d] for a string [d]. *)
Definition orDefault (a : option string) (d : string) : string :=
  match a with
  | Some s => if truthy s then s else d
  | None => d
  end.

(** [a ?? b] *)
Definition nullish {A} (a b : option A) : option A :=
  match a with
  | Some _ => a
  | None => b
  end.

(** [xs.join(sep)] *)
Fixpoint join (sep : string) (xs : list string) : string :=
  match xs with
  | [] => ""
  | [x] => x
  | x :: rest => x +:+ sep +:+ join sep rest
  end.

End Js.

(** ** Data model *)

Inductive Status := scheduled | recording | processing | completed | failed.

#[global] Instance Status_eq_dec : EqDecision Status.
Proof. solve_decision. Defined.

(** Position of a status in the order scheduled < recording < processing <
    completed; [failed] is outside the order. *)
Definition rank (s : Status) : option nat :=
  match s with
  | scheduled => Some 0
  | recording => Some 1
  | processing => Some 2
  | completed => Some 3
  | failed => None
  end.

(** [StructuredSummary] of lib/openai/summary. *)
Record StructuredSummary := mkSummary {
  topics : list string;
  decisions : list string;
  actionItems : list string
}.

(** An entry of a meeting's summary history: [{ timestamp, ...summary }]. *)
Record SummaryEntry := mkEntry {
  entry_timestamp : Z;
  entry_summary : StructuredSummary
}.

Module Meeting.
(** A row of the [meeting] table. [summary] and [summaryHistory] are
    stored as JSON text by the code; the embedding keeps the values that
    text encodes. *)
Record t := mk {
  id : string;
  zoomJoinUrl : option string;
  status : Status;
  zoomMeetingId : option string;
  startedAt : option Z;
  endedAt : option Z;
  duration : option Z;
  summary : option StructuredSummary;
  summaryHistory : option (list SummaryEntry)
}.
End Meeting.

Module Transcript.
(** A row of the [transcript] table. *)
Record t := mk {
  id : nat;
  meetingId : string;
  text : string;
  speaker : option string;
  timestamp : Z;
  confidence : option Q
}.
End Transcript.

Module ActionItem.
(** A row of the [actionItem] table. *)
Record t := mk {
  id : nat;
  meetingId : string;
  title : string;
  status : string
}.
End ActionItem.

Module MeetingSession.
(** [interface MeetingSession]; [deepgramConnection] and
    [summaryInterval] are handles. The fields [eventEmitter] and
    [participantNames] are never read and are left out. *)
Record t := mk {
  botId : string;
  meetingId : string;
  deepgramConnection : nat;
  summaryInterval : option nat;
  lastSpeaker : option string;
  lastTranscript : option string;
  lastTimestamp : option Q
}.
End MeetingSession.

(** Events pushed to the viewers of a meeting. *)
Inductive SseEvent :=
| EvTranscript (text speaker : string) (timestamp : Q) (isFinal : bool)
| EvSummary (summary : StructuredSummary) (timestamp : Z) (isFinal : option bool)
| EvStatus (status : Status) (timestamp : Z).

(** Calls on the outside world, in the order they are made, and with
    them the background work the process starts without awaiting it. *)
Inductive Effect :=
| WsSendReady (conn : nat)
| WsClose (conn : nat)
| DgListenLive (dg : nat)
| DgSend (dg : nat) (payload : list Byte.byte)
| DgFinish (dg : nat)
| SetInterval (timer : nat)
| ClearInterval (timer : nat)
| SseSend (client : nat) (ev : SseEvent)
| BaasCreateBot (meeting_url : string)
| BaasStopBot (botId : string)
| StartProcessMeeting (meetingId : string).

Inductive Err :=
| Error (message : string)
| ProviderError (message : string)
| RecordNotFound.

Inductive Res (A : Type) :=
| Ok (a : A)
| Throw (e : Err).
Arguments Ok {A} a.
Arguments Throw {A} e.

(** The state of the process. *)
Record World := mkWorld {
  meetings : list Meeting.t;
  transcripts : list Transcript.t;
  actionItemRows : list ActionItem.t;
  nextId : nat;
  botIds : gmap string string;
  sessions : gmap nat MeetingSession.t;
  activeSessions : gmap string nat;
  currentSession : gmap nat nat;
  transcriptHandlers : gmap nat (nat * string);
  intervals : gmap nat string;
  sseClients : gmap string (list nat);
  trace : list Effect
}.

(** The outside world a handler runs against. *)
Record Env := mkEnv {
  now : Z;
  createBot : Res string;
  stopBotCall : Res unit;
  openai : string -> Res StructuredSummary;
  DEEPGRAM_API_KEY : option string;
  getReadyState : nat
}.

(** ** The monad of handlers *)

Definition M (A : Type) : Type := World -> Res A * World.

Definition ret {A} (a : A) : M A := fun w => (Ok a, w).

Definition bind {A B} (m : M A) (k : A -> M B) : M B :=
  fun w =>
    match m w with
    | (Ok a, w') => k a w'
    | (Throw e, w') => (Throw e, w')
    end.

Definition throw {A} (e : Err) : M A := fun w => (Throw e, w).

(** [try { m } catch (e) { h e }] *)
Definition tryCatch {A} (m : M A) (h : Err -> M A) : M A :=
  fun w =>
    match m w with
    | (Ok a, w') => (Ok a, w')
    | (Throw e, w') => h e w'
    end.

Definition get : M World := fun w => (Ok w, w).
Definition modify (f : World -> World) : M unit := fun w => (Ok tt, f w).

(** The monad is used through stdpp's notation: [x ← m; k] and [m;; k]. *)
#[global] Instance M_ret : MRet M := @ret.
#[global] Instance M_bind : MBind M := fun A B k m => bind m k.

(** [for (const x of xs) { body x }] *)
Fixpoint forOf {A} (xs : list A) (body : A -> M unit) : M unit :=
  match xs with
  | [] => ret tt
  | x :: rest => body x;; forOf rest body
  end.

(** Final state and result of a handler. *)
Definition exec {A} (m : M A) (w : World) : World := snd (m w).
Definition result {A} (m : M A) (w : World) : Res A := fst (m w).

(** *** Field updates of the process state *)

Definition setMeetings (f : list Meeting.t -> list Meeting.t) (w : World) : World :=
  mkWorld (f (meetings w)) (transcripts w) (actionItemRows w) (nextId w)
    (botIds w) (sessions w) (activeSessions w) (currentSession w)
    (transcriptHandlers w) (intervals w) (sseClients w) (trace w).

Definition setTranscripts (f : list Transcript.t -> list Transcript.t) (w : World) : World :=
  mkWorld (meetings w) (f (transcripts w)) (actionItemRows w) (nextId w)
    (botIds w) (sessions w) (activeSessions w) (currentSession w)
    (transcriptHandlers w) (intervals w) (sseClients w) (trace w).

Definition setActionItemRows (f : list ActionItem.t -> list ActionItem.t) (w : World) : World :=
  mkWorld (meetings w) (transcripts w) (f (actionItemRows w)) (nextId w)
    (botIds w) (sessions w) (activeSessions w) (currentSession w)
    (transcriptHandlers w) (intervals w) (sseClients w) (trace w).

Definition setNextId (f : nat -> nat) (w : World) : World :=
  mkWorld (meetings w) (transcripts w) (actionItemRows w) (f (nextId w))
    (botIds w) (sessions w) (activeSessions w) (currentSession w)
    (transcriptHandlers w) (intervals w) (sseClients w) (trace w).

Definition setBotIds (f : gmap string string -> gmap string string) (w : World) : World :=
  mkWorld (meetings w) (transcripts w) (actionItemRows w) (nextId w)
    (f (botIds w)) (sessions w) (activeSessions w) (currentSession w)
    (transcriptHandlers w) (intervals w) (sseClients w) (trace w).

Definition setSessions
    (f : gmap nat MeetingSession.t -> gmap nat MeetingSession.t) (w : World) : World :=
  mkWorld (meetings w) (transcripts w) (actionItemRows w) (nextId w)
    (botIds w) (f (sessions w)) (activeSessions w) (currentSession w)
    (transcriptHandlers w) (intervals w) (sseClients w) (trace w).

Definition setActiveSessions (f : gmap string nat -> gmap string nat) (w : World) : World :=
  mkWorld (meetings w) (transcripts w) (actionItemRows w) (nextId w)
    (botIds w) (sessions w) (f (activeSessions w)) (currentSession w)
    (transcriptHandlers w) (intervals w) (sseClients w) (trace w).

Definition setCurrentSession (f : gmap nat nat -> gmap nat nat) (w : World) : World :=
  mkWorld (meetings w) (transcripts w) (actionItemRows w) (nextId w)
    (botIds w) (sessions w) (activeSessions w) (f (currentSession w))
    (transcriptHandlers w) (intervals w) (sseClients w) (trace w).

Definition setTranscriptHandlers
    (f : gmap nat (nat * string) -> gmap nat (nat * string)) (w : World) : World :=
  mkWorld (meetings w) (transcripts w) (actionItemRows w) (nextId w)
    (botIds w) (sessions w) (activeSessions w) (currentSession w)
    (f (transcriptHandlers w)) (intervals w) (sseClients w) (trace w).

Definition setIntervals (f : gmap nat string -> gmap nat string) (w : World) : World :=
  mkWorld (meetings w) (transcripts w) (actionItemRows w) (nextId w)
    (botIds w) (sessions w) (activeSessions w) (currentSession w)
    (transcriptHandlers w) (f (intervals w)) (sseClients w) (trace w).

Definition setSseClients
    (f : gmap string (list nat) -> gmap string (list nat)) (w : World) : World :=
  mkWorld (meetings w) (transcripts w) (actionItemRows w) (nextId w)
    (botIds w) (sessions w) (activeSessions w) (currentSession w)
    (transcriptHandlers w) (intervals w) (f (sseClients w)) (trace w).

Definition setTrace (f : list Effect -> list Effect) (w : World) : World :=
  mkWorld (meetings w) (transcripts w) (actionItemRows w) (nextId w)
    (botIds w) (sessions w) (activeSessions w) (currentSession w)
    (transcriptHandlers w) (intervals w) (sseClients w) (f (trace w)).

(** An effect is appended to the trace when the call is made. *)
Definition emit (e : Effect) : M unit :=
  modify (setTrace (fun t => t ++ [e])).

(** A fresh identifier: a row id or a handle. *)
Definition fresh : M nat :=
  fun w => (Ok (nextId w), setNextId S w).

(** The process before anything happened, over a given [meeting] table. *)
Definition initialWorld (ms : list Meeting.t) : World :=
  mkWorld ms [] [] 0 ∅ ∅ ∅ ∅ ∅ ∅ ∅ [].

(** *** The [data] of an update of a meeting *)

Definition withStatus (st : Status) (m : Meeting.t) : Meeting.t :=
  Meeting.mk (Meeting.id m) (Meeting.zoomJoinUrl m) st (Meeting.zoomMeetingId m)
    (Meeting.startedAt m) (Meeting.endedAt m) (Meeting.duration m)
    (Meeting.summary m) (Meeting.summaryHistory m).

Definition withZoomMeetingId (b : option string) (m : Meeting.t) : Meeting.t :=
  Meeting.mk (Meeting.id m) (Meeting.zoomJoinUrl m) (Meeting.status m) b
    (Meeting.startedAt m) (Meeting.endedAt m) (Meeting.duration m)
    (Meeting.summary m) (Meeting.summaryHistory m).

Definition withStartedAt (d : option Z) (m : Meeting.t) : Meeting.t :=
  Meeting.mk (Meeting.id m) (Meeting.zoomJoinUrl m) (Meeting.status m)
    (Meeting.zoomMeetingId m) d (Meeting.endedAt m) (Meeting.duration m)
    (Meeting.summary m) (Meeting.summaryHistory m).

Definition withEndedAt (d : option Z) (m : Meeting.t) : Meeting.t :=
  Meeting.mk (Meeting.id m) (Meeting.zoomJoinUrl m) (Meeting.status m)
    (Meeting.zoomMeetingId m) (Meeting.startedAt m) d (Meeting.duration m)
    (Meeting.summary m) (Meeting.summaryHistory m).

Definition withDuration (d : option Z) (m : Meeting.t) : Meeting.t :=
  Meeting.mk (Meeting.id m) (Meeting.zoomJoinUrl m) (Meeting.status m)
    (Meeting.zoomMeetingId m) (Meeting.startedAt m) (Meeting.endedAt m) d
    (Meeting.summary m) (Meeting.summaryHistory m).

Definition withSummary (s : option StructuredSummary) (m : Meeting.t) : Meeting.t :=
  Meeting.mk (Meeting.id m) (Meeting.zoomJoinUrl m) (Meeting.status m)
    (Meeting.zoomMeetingId m) (Meeting.startedAt m) (Meeting.endedAt m)
    (Meeting.duration m) s (Meeting.summaryHistory m).

Definition withSummaryHistory (h : option (list SummaryEntry)) (m : Meeting.t) : Meeting.t :=
  Meeting.mk (Meeting.id m) (Meeting.zoomJoinUrl m) (Meeting.status m)
    (Meeting.zoomMeetingId m) (Meeting.startedAt m) (Meeting.endedAt m)
    (Meeting.duration m) (Meeting.summary m) h.

Definition withSummaryInterval (timer : nat) (s : MeetingSession.t) : MeetingSession.t :=
  MeetingSession.mk (MeetingSession.botId s) (MeetingSession.meetingId s)
    (MeetingSession.deepgramConnection s) (Some timer)
    (MeetingSession.lastSpeaker s) (MeetingSession.lastTranscript s)
    (MeetingSession.lastTimestamp s).

(** ** The Prisma tables *)

Module Prisma.

(** [prisma.meeting.findUnique({ where: { id } })] *)
Definition meeting_findUnique (id : string) : M (option Meeting.t) :=
  fun w => (Ok (head (filter (fun m => Meeting.id m = id) (meetings w))), w).

(** [prisma.meeting.findFirst({ where: { zoomMeetingId: botId } })] *)
Definition meeting_findFirst (botId : string) : M (option Meeting.t) :=
  fun w =>
    (Ok (head (filter (fun m => Meeting.zoomMeetingId m = Some botId) (meetings w))), w).

Definition updateWhere (id : string) (f : Meeting.t -> Meeting.t)
    (ms : list Meeting.t) : list Meeting.t :=
  map (fun m => if bool_decide (Meeting.id m = id) then f m else m) ms.

(** [prisma.meeting.update({ where: { id }, data })]: the data is the
    function [f] on the row; Prisma throws when no row has the id. *)
Definition meeting_update (id : string) (f : Meeting.t -> Meeting.t) : M unit :=
  fun w =>
    match head (filter (fun m => Meeting.id m = id) (meetings w)) with
    | Some _ => (Ok tt, setMeetings (updateWhere id f) w)
    | None => (Throw RecordNotFound, w)
    end.

(** [prisma.transcript.create({ data })]; the id is generated. *)
Definition transcript_create (meetingId text : string) (speaker : option string)
    (timestamp : Z) (confidence : option Q) : M unit :=
  i ← fresh;
  modify (setTranscripts
            (fun rows => rows ++ [Transcript.mk i meetingId text speaker timestamp confidence])).

(** The row with the greatest timestamp; among equal timestamps, the one
    inserted first. *)
Definition latest (rows : list Transcript.t) : option Transcript.t :=
  fold_left
    (fun acc r =>
       match acc with
       | None => Some r
       | Some a =>
           if (Transcript.timestamp a <? Transcript.timestamp r)%Z then Some r else Some a
       end)
    rows None.

(** [prisma.transcript.findFirst({ where: { meetingId, speaker },
    orderBy: { timestamp: 'desc' } })] *)
Definition transcript_findFirst (meetingId speaker : string) : M (option Transcript.t) :=
  fun w =>
    (Ok (latest (filter (fun r => Transcript.meetingId r = meetingId
                                  /\ Transcript.speaker r = Some speaker)
                   (transcripts w))), w).

Definition setText (text : string) (r : Transcript.t) : Transcript.t :=
  Transcript.mk (Transcript.id r) (Transcript.meetingId r) text
    (Transcript.speaker r) (Transcript.timestamp r) (Transcript.confidence r).

(** [prisma.transcript.update({ where: { id }, data: { text } })] *)
Definition transcript_update (id : nat) (text : string) : M unit :=
  fun w =>
    match head (filter (fun r => Transcript.id r = id) (transcripts w)) with
    | Some _ =>
        (Ok tt,
         setTranscripts
           (map (fun r => if bool_decide (Transcript.id r = id) then setText text r else r)) w)
    | None => (Throw RecordNotFound, w)
    end.

Fixpoint insertAsc (r : Transcript.t) (rows : list Transcript.t) : list Transcript.t :=
  match rows with
  | [] => [r]
  | x :: rest =>
      if (Transcript.timestamp r <? Transcript.timestamp x)%Z
      then r :: rows
      else x :: insertAsc r rest
  end.

(** Rows by non-decreasing timestamp, equal timestamps in insertion order. *)
Definition sortAsc (rows : list Transcript.t) : list Transcript.t :=
  fold_left (fun acc r => insertAsc r acc) rows [].

(** [prisma.transcript.findMany({ where: { meetingId },
    orderBy: { timestamp: 'asc' } })] *)
Definition transcript_findMany (meetingId : string) : M (list Transcript.t) :=
  fun w =>
    (Ok (sortAsc (filter (fun r => Transcript.meetingId r = meetingId) (transcripts w))), w).

(** [prisma.actionItem.findFirst({ where: { meetingId, title } })] *)
Definition actionItem_findFirst (meetingId title : string) : M (option ActionItem.t) :=
  fun w =>
    (Ok (head (filter (fun a => ActionItem.meetingId a = meetingId
                                /\ ActionItem.title a = title)
                 (actionItemRows w))), w).

(** [prisma.actionItem.create({ data: { meetingId, title, status } })] *)
Definition actionItem_create (meetingId title status : string) : M unit :=
  i ← fresh;
  modify (setActionItemRows
            (fun rows => rows ++ [ActionItem.mk i meetingId title status])).

End Prisma.

(** ** lib/openai/summary *)

Module OpenAI.

Definition newline : string := String (ascii_of_nat 10) EmptyString.

(** [generateLiveSummary(transcripts)]: each transcript is given by its
    speaker and its text. The prompt is a function of the conversation, so
    the model's answer, parsed and with missing fields replaced by empty
    lists, is [openai env conversation]. *)
Definition generateLiveSummary (env : Env) (transcripts : list (string * string))
    : M StructuredSummary :=
  match transcripts with
  | [] => mret (mkSummary [] [] [])
  | _ =>
      let conversation :=
        Js.join newline (map (fun t => fst t +:+ ": " +:+ snd t) transcripts) in
      match openai env conversation with
      | Ok summary => mret summary
      | Throw e => throw e
      end
  end.

End OpenAI.

(** ** lib/websocket/audio-server *)

Module AudioServer.

(** [registerSSEClient(meetingId, client)]; a [Set] keeps insertion order
    and no duplicates. *)
Definition registerSSEClient (meetingId : string) (client : nat) : M unit :=
  modify (setSseClients (fun m =>
    let clients := default [] (m !! meetingId) in
    <[meetingId := if bool_decide (client ∈ clients) then clients
                   else clients ++ [client]]> m)).

(** The function [registerSSEClient] returns. *)
Definition unregisterSSEClient (meetingId : string) (client : nat) : M unit :=
  modify (setSseClients (fun m =>
    match m !! meetingId with
    | Some clients =>
        match filter (fun c => c ≠ client) clients with
        | [] => delete meetingId m
        | rest => <[meetingId := rest]> m
        end
    | None => m
    end)).

(** [broadcastTranscript(meetingId, transcript)] *)
Definition broadcastTranscript (meetingId : string) (ev : SseEvent) : M unit :=
  w ← get;
  match sseClients w !! meetingId with
  | Some clients => forOf clients (fun client => emit (SseSend client ev))
  | None => mret tt
  end.

(** [broadcastToMeeting(meetingId, data)] *)
Definition broadcastToMeeting (meetingId : string) (data : SseEvent) : M unit :=
  broadcastTranscript meetingId data.

(** *** Deepgram transcript events *)

Record Word := mkWord {
  start : option Q;
  word_speaker : option nat
}.

Record Alternative := mkAlternative {
  transcript : string;
  words : option (list Word)
}.

Record Channel := mkChannel {
  alternatives : option (list Alternative);
  channel_speaker : option nat
}.

Record DeepgramData := mkData {
  channel : option Channel;
  data_speaker : option nat;
  is_final : option bool
}.

(** The normalised event: [transcriptData] of the handler. *)
Record TranscriptData := mkTranscriptData {
  text : string;
  speaker : string;
  timestamp : Q;
  isFinal : bool
}.

(** [data.channel?.alternatives?.[0]] *)
Definition firstAlternative (data : DeepgramData) : option Alternative :=
  c ← channel data; alts ← alternatives c; head alts.

(** [Date.now() / 1000] *)
Definition nowSeconds (env : Env) : Q := (inject_Z (now env) / 1000)%Q.

(** Lines 145-157: speaker label and timestamp of an event. *)
Definition transcriptData (env : Env) (data : DeepgramData) (alt : Alternative)
    : TranscriptData :=
  let words0 := head (default [] (words alt)) in
  let speakerId :=
    Js.nullish (words0 ≫= word_speaker)
      (Js.nullish (channel data ≫= channel_speaker) (data_speaker data)) in
  let speaker :=
    match speakerId with
    | Some n => "Speaker " +:+ pretty n
    | None => "Unknown"
    end in
  mkTranscriptData
    (transcript alt)
    speaker
    (match words0 ≫= start with
     | Some s => if Js.truthyNum s then s else nowSeconds env
     | None => nowSeconds env
     end)
    (default false (is_final data)).

(** [a < b] on numbers. *)
Definition Qlt_bool (a b : Q) : bool := negb (Qle_bool b a).

(** The closure variable [currentSession] of a connection, dereferenced. *)
Definition readCurrentSession (conn : nat) : M (option (nat * MeetingSession.t)) :=
  fun w =>
    (Ok (ref ← currentSession w !! conn; s ← sessions w !! ref; Some (ref, s)), w).

Definition setCursor (td : TranscriptData) (s : MeetingSession.t) : MeetingSession.t :=
  MeetingSession.mk (MeetingSession.botId s) (MeetingSession.meetingId s)
    (MeetingSession.deepgramConnection s) (MeetingSession.summaryInterval s)
    (Some (speaker td)) (Some (text td)) (Some (timestamp td)).

(** The merge decision of lines 163-170; [None] stands for [Infinity].
    The difference of the two timestamps is the exact one; the code rounds
    it to the nearest double (see [belowWindow]). *)
Definition timeSinceLastSegment (cs : option MeetingSession.t) (td : TranscriptData)
    : option Q :=
  match cs ≫= MeetingSession.lastTimestamp with
  | Some last => if Js.truthyNum last then Some (timestamp td - last)%Q else None
  | None => None
  end.

Definition sameSpeaker (cs : option MeetingSession.t) (td : TranscriptData) : bool :=
  bool_decide (cs ≫= MeetingSession.lastSpeaker = Some (speaker td)).

Definition withinMergeWindow (cs : option MeetingSession.t) (td : TranscriptData) : bool :=
  match timeSinceLastSegment cs td with
  | Some d => Qlt_bool d 5
  | None => false
  end.

Definition shouldMerge (cs : option MeetingSession.t) (td : TranscriptData) : bool :=
  sameSpeaker cs td && withinMergeWindow cs td
  && Js.truthyOpt (cs ≫= MeetingSession.lastTranscript).

(** Lines 163-205: the body of the [try] block that persists a final
    event; [meetingId] is [meeting.id] of the enclosing closure. *)
Definition saveFinal (conn : nat) (meetingId : string) (td : TranscriptData) : M unit :=
  cs ← readCurrentSession conn;
  (if shouldMerge (snd <$> cs) td then
     lastTranscript ← Prisma.transcript_findFirst meetingId (speaker td);
     match lastTranscript with
     | Some r =>
         Prisma.transcript_update (Transcript.id r)
           (Transcript.text r +:+ " " +:+ Js.trim (text td))
     | None => mret tt
     end
   else
     Prisma.transcript_create meetingId (Js.trim (text td)) (Some (speaker td))
       (Qfloor (timestamp td)) (Some 1%Q));;
  match cs with
  | Some (ref, _) => modify (setSessions (alter (setCursor td) ref))
  | None => mret tt
  end.

(** Lines 159-217: what the handler does with the normalised event: a
    final event with text left after trimming is persisted, and every event
    is broadcast. *)
Definition handleTranscriptData (conn : nat) (meetingId : string) (td : TranscriptData)
    : M unit :=
  (if isFinal td && Js.truthy (Js.trim (text td))
   then tryCatch (saveFinal conn meetingId td) (fun _ => mret tt)
   else mret tt);;
  broadcastTranscript meetingId
    (EvTranscript (text td) (speaker td) (timestamp td) (isFinal td)).

(** Lines 141-219: [dgConnection.on(LiveTranscriptionEvents.Transcript, ...)]
    of the Deepgram connection [dg]. The closure holds the connection it was
    created on and the meeting found then. *)
Definition onTranscript (env : Env) (dg : nat) (data : DeepgramData) : M unit :=
  w ← get;
  match transcriptHandlers w !! dg with
  | None => mret tt
  | Some (conn, meetingId) =>
      match firstAlternative data with
      | Some alt =>
          if Js.truthy (transcript alt)
          then handleTranscriptData conn meetingId (transcriptData env data alt)
          else mret tt
      | None => mret tt
      end
  end.

(** *** The summary job started with the session *)

(** Lines 283-310: the action items of a summary are saved one by one. *)
Definition saveActionItems (meetingId : string) (items : list string) : M unit :=
  forOf items (fun item =>
    tryCatch
      (existingItem ← Prisma.actionItem_findFirst meetingId item;
       match existingItem with
       | None => Prisma.actionItem_create meetingId item "pending"
       | Some _ => mret tt
       end)
      (fun _ => mret tt)).

(** Lines 253-351: the callback given to [setInterval]; [meetingId] is
    [meeting.id] of the enclosing closure. A speaker that is [null] in the
    table is printed as [null] by the template string of
    [generateLiveSummary]. *)
Definition summaryJob (env : Env) (meetingId : string) : M unit :=
  tryCatch
    (transcripts ← Prisma.transcript_findMany meetingId;
     match transcripts with
     | [] => mret tt
     | _ =>
         summary ← OpenAI.generateLiveSummary env
           (map (fun r => (default "null" (Transcript.speaker r), Transcript.text r))
              transcripts);
         match actionItems summary with
         | [] => mret tt
         | items => saveActionItems meetingId items
         end;;
         broadcastTranscript meetingId (EvSummary summary (now env) None);;
         currentMeeting ← Prisma.meeting_findUnique meetingId;
         let summaryHistory := default [] (currentMeeting ≫= Meeting.summaryHistory) in
         Prisma.meeting_update meetingId
           (fun m =>
              withSummaryHistory (Some (summaryHistory ++ [mkEntry (now env) summary]))
                (withSummary (Some summary) m))
     end)
    (fun _ => mret tt).

(** The timer [timer] fires; a cleared timer no longer does. *)
Definition onInterval (env : Env) (timer : nat) : M unit :=
  w ← get;
  match intervals w !! timer with
  | Some meetingId => summaryJob env meetingId
  | None => mret tt
  end.

(** *** The connection of the meeting-bot provider *)

(** A message of the duplex channel, after the test of lines 85-94: a JSON
    document, of which the handler reads [bot_id], or binary audio. *)
Inductive WsMessage :=
| Metadata (bot_id : option string)
| Audio (payload : list Byte.byte).

(** Lines 80-382: [ws.on('message', ...)] of the connection [conn]. *)
Definition onMessage (env : Env) (conn : nat) (msg : WsMessage) : M unit :=
  tryCatch
    (match msg with
     | Metadata bot_id =>
         emit (WsSendReady conn);;
         match bot_id with
         | Some botId =>
             if Js.truthy botId then
               meeting ← Prisma.meeting_findFirst botId;
               match meeting with
               | None => emit (WsClose conn)
               | Some meeting =>
                   if Js.truthyOpt (DEEPGRAM_API_KEY env) then
                     dg ← fresh;
                     emit (DgListenLive dg);;
                     modify (setTranscriptHandlers <[dg := (conn, Meeting.id meeting)]>);;
                     ref ← fresh;
                     modify (setSessions
                               <[ref := MeetingSession.mk botId (Meeting.id meeting) dg
                                          None None None None]>);;
                     modify (setCurrentSession <[conn := ref]>);;
                     modify (setActiveSessions <[botId := ref]>);;
                     timer ← fresh;
                     emit (SetInterval timer);;
                     modify (setIntervals <[timer := Meeting.id meeting]>);;
                     modify (setSessions (alter (withSummaryInterval timer) ref))
                   else emit (WsClose conn)
               end
             else mret tt
         | None => mret tt
         end
     | Audio payload =>
         cs ← readCurrentSession conn;
         match cs with
         | Some (_, s) =>
             if bool_decide (getReadyState env = 1)
             then emit (DgSend (MeetingSession.deepgramConnection s) payload)
             else mret tt
         | None => mret tt
         end
     end)
    (fun _ => mret tt).

(** Lines 384-403: [ws.on('close', ...)] of the connection [conn]. *)
Definition onClose (conn : nat) : M unit :=
  cs ← readCurrentSession conn;
  match cs with
  | Some (_, s) =>
      emit (DgFinish (MeetingSession.deepgramConnection s));;
      match MeetingSession.summaryInterval s with
      | Some timer =>
          emit (ClearInterval timer);;
          modify (setIntervals (delete timer))
      | None => mret tt
      end;;
      modify (setActiveSessions (delete (MeetingSession.botId s)))
  | None => mret tt
  end.

End AudioServer.

(** ** services/bot-service *)

Module BotService.

(** The answer of a call to MeetingBaas. *)
Definition call {A} (r : Res A) : M A :=
  match r with
  | Ok a => mret a
  | Throw e => throw e
  end.

(** [startBot(meetingId)]; the result is the bot id of
    [{ success: true, botId }]. *)
Definition startBot (env : Env) (meetingId : string) : M string :=
  tryCatch
    (meeting ← Prisma.meeting_findUnique meetingId;
     match meeting ≫= Meeting.zoomJoinUrl with
     | Some url =>
         if Js.truthy url then
           emit (BaasCreateBot url);;
           bot ← call (createBot env);
           modify (setBotIds <[meetingId := bot]>);;
           Prisma.meeting_update meetingId
             (fun m =>
                withZoomMeetingId (Some bot)
                  (withStartedAt (Some (now env)) (withStatus recording m)));;
           mret bot
         else throw (Error "Meeting not found or missing meeting URL")
     | None => throw (Error "Meeting not found or missing meeting URL")
     end)
    (fun error =>
       Prisma.meeting_update meetingId (withStatus failed);;
       throw error).

(** [processMeeting(meetingId)]; the result [tt] is [{ success: true }]. *)
Definition processMeeting (env : Env) (meetingId : string) : M unit :=
  tryCatch
    (meeting ← Prisma.meeting_findUnique meetingId;
     match meeting with
     | None => throw (Error "Meeting not found")
     | Some _ =>
         transcripts ← Prisma.transcript_findMany meetingId;
         match transcripts with
         | [] => Prisma.meeting_update meetingId (withStatus completed)
         | _ =>
             finalSummary ←
               tryCatch
                 (summaryObject ← OpenAI.generateLiveSummary env
                    (map (fun t =>
                            (Js.orDefault (Transcript.speaker t) "Unknown",
                             Transcript.text t))
                       transcripts);
                  AudioServer.broadcastToMeeting meetingId
                    (EvSummary summaryObject (now env) (Some true));;
                  mret (Some summaryObject))
                 (fun _ => mret None);
             Prisma.meeting_update meetingId
               (fun m => withSummary finalSummary (withStatus completed m));;
             AudioServer.broadcastToMeeting meetingId (EvStatus completed (now env))
         end
     end)
    (fun error =>
       Prisma.meeting_update meetingId (withStatus failed);;
       throw error).

(** [stopBot(meetingId)]. Lines 120-122 start the final processing,
    [this.processMeeting(meetingId).catch(...)], and do not await it: the
    start is recorded as [StartProcessMeeting], and what was started is
    [backgroundProcessing] below, which the process runs once [stopBot] has
    returned. *)
Definition stopBot (env : Env) (meetingId : string) : M unit :=
  tryCatch
    (meeting ← Prisma.meeting_findUnique meetingId;
     match meeting with
     | None => throw (Error "Meeting not found")
     | Some meeting =>
         w ← get;
         let botId := Js.orElse (botIds w !! meetingId) (Meeting.zoomMeetingId meeting) in
         match botId with
         | Some b =>
             if Js.truthy b then
               emit (BaasStopBot b);;
               call (stopBotCall env);;
               modify (setBotIds (delete meetingId))
             else mret tt
         | None => mret tt
         end;;
         Prisma.meeting_update meetingId
           (fun m =>
              withDuration
                (Some match Meeting.startedAt meeting with
                      | Some t => ((now env - t) / 1000)%Z
                      | None => 0%Z
                      end)
                (withEndedAt (Some (now env)) (withStatus processing m)));;
         AudioServer.broadcastToMeeting meetingId (EvStatus processing (now env));;
         emit (StartProcessMeeting meetingId)
     end)
    (fun error => throw error).

(** The processing [stopBot] started, recorded as [StartProcessMeeting]:
    [this.processMeeting(meetingId).catch(...)], which logs a failure. *)
Definition backgroundProcessing (env : Env) (meetingId : string) : M unit :=
  tryCatch (processMeeting env meetingId) (fun _ => mret tt).

End BotService.

(** ** app/api/webhooks/meetingbaas/events *)

Module EventsWebhook.

(** The fields of the payload the handler reads; [timestamp] is the
    instant the text of the payload denotes. *)
Record Body := mkBody {
  bot_id : option string;
  data_bot_id : option string;
  event : string;
  timestamp : option Z
}.

(** [new Date(x)] of a missing [x] is an invalid date, which Prisma
    refuses. *)
Definition validDate (d : option Z) : M Z :=
  match d with
  | Some t => mret t
  | None => throw (Error "Invalid Date")
  end.

(** [POST(req)]; the result is the HTTP status of the response. *)
Definition POST (env : Env) (body : Body) : M nat :=
  tryCatch
    (match Js.orElse (bot_id body) (data_bot_id body) with
     | Some bot =>
         if Js.truthy bot then
           meeting ← Prisma.meeting_findFirst bot;
           match meeting with
           | None => mret 404
           | Some meeting =>
               let id := Meeting.id meeting in
               (if decide (event body = "meeting.started" \/ event body = "bot.joined") then
                  Prisma.meeting_update id
                    (fun m =>
                       withStartedAt
                         (Some (default (default (now env) (timestamp body))
                                  (Meeting.startedAt meeting)))
                         (withStatus recording m))
                else if decide (event body = "meeting.completed") then
                  emit (BaasStopBot bot);;
                  tryCatch (BotService.call (stopBotCall env)) (fun _ => mret tt);;
                  Prisma.meeting_update id
                    (fun m =>
                       withEndedAt (Some (default (now env) (timestamp body)))
                         (withStatus processing m))
                else if decide (event body = "meeting.failed") then
                  Prisma.meeting_update id (withStatus failed)
                else if decide (event body = "bot.left") then
                  d ← validDate (timestamp body);
                  Prisma.meeting_update id
                    (fun m => withEndedAt (Some d) (withStatus processing m))
                else if decide (event body = "bot.error") then
                  Prisma.meeting_update id (withStatus failed)
                else mret tt);;
               mret 200
           end
         else mret 400
     | None => mret 400
     end)
    (fun _ => mret 500).

End EventsWebhook.

(** * Vocabulary of the properties *)

(** ** Observations on the state *)

(** The status of the meeting with the given id, as [findUnique] sees it. *)
Definition statusOf (id : string) (w : World) : option Status :=
  Meeting.status <$> head (filter (fun m => Meeting.id m = id) (meetings w)).

(** The summary of the meeting with the given id, as [findUnique] sees it. *)
Definition summaryOf (id : string) (w : World) : option (option StructuredSummary) :=
  Meeting.summary <$> head (filter (fun m => Meeting.id m = id) (meetings w)).

(** The summary history of the meeting with the given id. *)
Definition historyOf (id : string) (w : World) : option (option (list SummaryEntry)) :=
  Meeting.summaryHistory <$> head (filter (fun m => Meeting.id m = id) (meetings w)).

(** The session the handlers of a connection see in [currentSession]. *)
Definition cursorOf (conn : nat) (w : World) : option MeetingSession.t :=
  ref ← currentSession w !! conn; sessions w !! ref.

(** The rows of a meeting and speaker in the [transcript] table. *)
Definition fragmentsOf (meetingId speaker : string) (w : World) : list Transcript.t :=
  filter (fun r => Transcript.meetingId r = meetingId /\ Transcript.speaker r = Some speaker)
    (transcripts w).

(** The rows of a meeting by timestamp, as [findMany] returns them. *)
Definition transcriptOf (meetingId : string) (w : World) : list Transcript.t :=
  Prisma.sortAsc (filter (fun r => Transcript.meetingId r = meetingId) (transcripts w)).

(** The sessions of a meeting that are alive. *)
Definition sessionsOf (meetingId : string) (w : World) : list (nat * MeetingSession.t) :=
  filter (fun rs => MeetingSession.meetingId (snd rs) = meetingId)
    (map_to_list (sessions w)).

(** The pairs of meeting and title of the action items. *)
Definition itemKeys (rows : list ActionItem.t) : list (string * string) :=
  map (fun a => (ActionItem.meetingId a, ActionItem.title a)) rows.

(** The events sent to the viewers [clients]. *)
Definition sends (clients : list nat) (ev : SseEvent) : list Effect :=
  map (fun client => SseSend client ev) clients.

(** ** States and updates the handlers produce *)

(** The update made by the events webhook on [meeting.completed]. *)
Definition completedData (env : Env) (body : EventsWebhook.Body) (m : Meeting.t)
    : Meeting.t :=
  withEndedAt (Some (default (now env) (EventsWebhook.timestamp body)))
    (withStatus processing m).

(** The update [stopBot] makes, for the row [meeting] it read. *)
Definition stoppedData (env : Env) (meeting m : Meeting.t) : Meeting.t :=
  withDuration
    (Some match Meeting.startedAt meeting with
          | Some t => ((now env - t) / 1000)%Z
          | None => 0%Z
          end)
    (withEndedAt (Some (now env)) (withStatus processing m)).

(** The update the periodic job makes, for the history [h] it read. *)
Definition summaryData (env : Env) (summary : StructuredSummary)
    (h : option (list SummaryEntry)) (m : Meeting.t) : Meeting.t :=
  withSummaryHistory (Some (default [] h ++ [mkEntry (now env) summary]))
    (withSummary (Some summary) m).

(** The update the final run makes. *)
Definition finalData (summary : option StructuredSummary) (m : Meeting.t) : Meeting.t :=
  withSummary summary (withStatus completed m).

(** The call [stopBot] makes to MeetingBaas for [meeting]: none when no bot
    id is known. *)
Definition stopCalls (meeting : Meeting.t) (w : World) : list Effect :=
  match Js.orElse (botIds w !! Meeting.id meeting) (Meeting.zoomMeetingId meeting) with
  | Some b => if Js.truthy b then [BaasStopBot b] else []
  | None => []
  end.

(** The state after a metadata message for the bot [botId] of [meeting],
    when the Deepgram key is configured: three identifiers are drawn, for
    the Deepgram connection, the session and the timer. *)
Definition sessionStarted (conn : nat) (botId : string) (meeting : Meeting.t) (w : World)
    : World :=
  let dg := nextId w in
  let ref := S dg in
  let timer := S ref in
  setSessions (alter (withSummaryInterval timer) ref)
    (setIntervals <[timer := Meeting.id meeting]>
       (setTrace (fun t => t ++ [SetInterval timer])
          (setNextId S
             (setActiveSessions <[botId := ref]>
                (setCurrentSession <[conn := ref]>
                   (setSessions
                      <[ref := MeetingSession.mk botId (Meeting.id meeting) dg
                                 None None None None]>
                      (setNextId S
                         (setTranscriptHandlers <[dg := (conn, Meeting.id meeting)]>
                            (setTrace (fun t => t ++ [DgListenLive dg])
                               (setNextId S
                                  (setTrace (fun t => t ++ [WsSendReady conn]) w))))))))))).

(** The row a final event creates when it is not merged. *)
Definition newFragment (i : nat) (meetingId : string) (td : AudioServer.TranscriptData)
    : Transcript.t :=
  Transcript.mk i meetingId (Js.trim (AudioServer.text td)) (Some (AudioServer.speaker td))
    (Qfloor (AudioServer.timestamp td)) (Some 1%Q).

(** The table after the text of the row [r] was extended by a merge. *)
Definition mergedInto (r : Transcript.t) (td : AudioServer.TranscriptData)
    (rows : list Transcript.t) : list Transcript.t :=
  map (fun x =>
         if bool_decide (Transcript.id x = Transcript.id r)
         then Prisma.setText
                (Transcript.text r +:+ " " +:+ Js.trim (AudioServer.text td)) x
         else x)
    rows.

(** The text of a row after the events [tds] were merged into it. *)
Definition mergedText (start : string) (tds : list AudioServer.TranscriptData) : string :=
  fold_left (fun acc td => acc +:+ " " +:+ Js.trim (AudioServer.text td)) tds start.

(** The cursor of the connection's current session is moved to the event. *)
Definition moveCursor (conn : nat) (td : AudioServer.TranscriptData) (w : World) : World :=
  match currentSession w !! conn with
  | Some ref =>
      match sessions w !! ref with
      | Some _ => setSessions (alter (AudioServer.setCursor td) ref) w
      | None => w
      end
  | None => w
  end.

(** The state after the persisting part of [handleTranscriptData]: an error
    of [saveFinal] is caught and logged. *)
Definition persisted (conn : nat) (meetingId : string) (td : AudioServer.TranscriptData)
    (w : World) : World :=
  if AudioServer.isFinal td && Js.truthy (Js.trim (AudioServer.text td))
  then exec (AudioServer.saveFinal conn meetingId td) w
  else w.

(** The process after rows were added to the [actionItem] table. *)
Definition withItems (created : list ActionItem.t) (w : World) : World :=
  setActionItemRows (fun rows => rows ++ created)
    (setNextId (fun n => n + length created) w).

(** The state after a run of the periodic job in which the model answered
    with [summary]. *)
Definition afterSummary (env : Env) (meetingId : string) (summary : StructuredSummary)
    (w : World) : World :=
  let w1 := exec (AudioServer.saveActionItems meetingId (actionItems summary)) w in
  let w2 :=
    setTrace (fun t => t ++ sends (default [] (sseClients w !! meetingId))
                             (EvSummary summary (now env) None)) w1 in
  match head (filter (fun m => Meeting.id m = meetingId) (meetings w)) with
  | Some m =>
      setMeetings
        (Prisma.updateWhere meetingId (summaryData env summary (Meeting.summaryHistory m)))
        w2
  | None => w2
  end.

(** The conversation the periodic job gives to the model. *)
Definition periodicConversation (rows : list Transcript.t) : string :=
  Js.join OpenAI.newline
    (map (fun t => fst t +:+ ": " +:+ snd t)
       (map (fun r => (default "null" (Transcript.speaker r), Transcript.text r)) rows)).

(** The conversation the final run gives to the model. *)
Definition finalConversation (rows : list Transcript.t) : string :=
  Js.join OpenAI.newline
    (map (fun t => fst t +:+ ": " +:+ snd t)
       (map (fun r => (Js.orDefault (Transcript.speaker r) "Unknown", Transcript.text r))
          rows)).

(** The summary timers [timers] fire one after the other, each against its
    own outside world. *)
Definition runIntervals (ticks : list (Env * nat)) : M unit :=
  forOf ticks (fun tick => AudioServer.onInterval (fst tick) (snd tick)).

(** ** Predicates of the statements *)

(** Two rows that differ at most in their text. *)
Definition sameButText (r r' : Transcript.t) : Prop :=
  Transcript.id r' = Transcript.id r /\
  Transcript.meetingId r' = Transcript.meetingId r /\
  Transcript.speaker r' = Transcript.speaker r /\
  Transcript.timestamp r' = Transcript.timestamp r /\
  Transcript.confidence r' = Transcript.confidence r.

(** The table [rows'] keeps the rows of [rows], up to their text, and may
    have more. *)
Definition extends (rows rows' : list Transcript.t) : Prop :=
  exists kept created, rows' = kept ++ created /\ Forall2 sameButText rows kept.

(** A session that has not seen a final event yet. *)
Definition freshCursor (s : MeetingSession.t) : Prop :=
  MeetingSession.lastSpeaker s = None /\
  MeetingSession.lastTranscript s = None /\
  MeetingSession.lastTimestamp s = None.

(** Each event is after the one before it, by less than five seconds; the
    first is so after [prev]. *)
Fixpoint chained (prev : Q) (tds : list AudioServer.TranscriptData) : Prop :=
  match tds with
  | [] => True
  | td :: rest =>
      (prev < AudioServer.timestamp td)%Q /\
      (AudioServer.timestamp td - prev < 5)%Q /\
      chained (AudioServer.timestamp td) rest
  end.

(** A final event of the speaker [sp] with text left after trimming and a
    timestamp that is not zero. *)
Definition finalOf (sp : string) (td : AudioServer.TranscriptData) : Prop :=
  AudioServer.isFinal td = true /\
  AudioServer.speaker td = sp /\
  Js.trim (AudioServer.text td) <> "" /\
  ~ (AudioServer.timestamp td == 0)%Q.

(** The row ids in use were drawn from the counter. *)
Definition idsFresh (w : World) : Prop :=
  Forall (fun r => Transcript.id r < nextId w) (transcripts w).

(** The state of a connection in the middle of a run of merges: the cursor
    stands on the event [last] of the speaker [sp], and [row], the last row
    of the table, is that speaker's only row in the meeting. *)
Definition merging (conn : nat) (meetingId sp : string) (old : list Transcript.t)
    (row : Transcript.t) (last : AudioServer.TranscriptData) (w : World) : Prop :=
  (exists s,
     cursorOf conn w = Some s /\
     MeetingSession.lastSpeaker s = Some sp /\
     MeetingSession.lastTranscript s = Some (AudioServer.text last) /\
     MeetingSession.lastTimestamp s = Some (AudioServer.timestamp last)) /\
  transcripts w = old ++ [row] /\
  Transcript.meetingId row = meetingId /\
  Transcript.speaker row = Some sp /\
  filter (fun r => Transcript.meetingId r = meetingId /\ Transcript.speaker r = Some sp) old
    = [] /\
  Forall (fun r => Transcript.id r <> Transcript.id row) old.

(** An action item made by the summary job for a meeting. *)
Definition pendingOf (meetingId : string) (a : ActionItem.t) : Prop :=
  ActionItem.meetingId a = meetingId /\ ActionItem.status a = "pending".

(** From [w] to [w'] the [actionItem] table only gained pending items, and
    kept its pairs of meeting and title distinct if they were. *)
Definition grows (w w' : World) : Prop :=
  (NoDup (itemKeys (actionItemRows w)) -> NoDup (itemKeys (actionItemRows w'))) /\
  exists created,
    actionItemRows w' = actionItemRows w ++ created /\
    Forall (fun a => ActionItem.status a = "pending") created.

(** ** The final run as the specification words it *)

(** The final run as the specification words it: the logic of the periodic
    job (read the ordered transcript; when it is not empty summarize it,
    persist the result as the current summary and append it to the history,
    create a pending action item for every title not present yet, publish
    the summary), with the event flagged as final. *)
Definition specFinalRun (env : Env) (meetingId : string) : M unit :=
  rows ← Prisma.transcript_findMany meetingId;
  match rows with
  | [] => mret tt
  | _ =>
      summary ← OpenAI.generateLiveSummary env
        (map (fun r => (Js.orDefault (Transcript.speaker r) "Unknown", Transcript.text r))
           rows);
      current ← Prisma.meeting_findUnique meetingId;
      Prisma.meeting_update meetingId
        (summaryData env summary (current ≫= Meeting.summaryHistory));;
      forOf (actionItems summary)
        (fun title =>
           existing ← Prisma.actionItem_findFirst meetingId title;
           match existing with
           | None => Prisma.actionItem_create meetingId title "pending"
           | Some _ => mret tt
           end);;
      AudioServer.broadcastToMeeting meetingId (EvSummary summary (now env) (Some true))
  end.

(** ** Examples *)

Module Scenario.

Definition summary0 : StructuredSummary :=
  mkSummary ["Launch"] ["Ship on Friday"] ["Send proposal"; "Send proposal"].

(** The clock reads an instant after 1970, MeetingBaas answers, the model
    returns [summary0], the Deepgram key is configured and the Deepgram
    connection is open. *)
Definition env : Env :=
  mkEnv 1700000000000%Z (Ok "bot_1") (Ok tt) (fun _ => Ok summary0) (Some "key") 1.

(** The same, with MeetingBaas failing. *)
Definition envDown : Env :=
  mkEnv 1700000000000%Z (Throw (ProviderError "503")) (Throw (ProviderError "503"))
    (fun _ => Ok summary0) (Some "key") 1.

Definition meeting (st : Status) : Meeting.t :=
  Meeting.mk "m1" (Some "https://zoom.us/j/1") st (Some "bot_1")
    (Some 1699999000000%Z) None None None None.

Definition completedBody : EventsWebhook.Body :=
  EventsWebhook.mkBody (Some "bot_1") None "meeting.completed" None.

End Scenario.

(** A final event of the speaker "Speaker 0", normalised. *)
Definition said (text : string) (t : Q) : AudioServer.TranscriptData :=
  AudioServer.mkTranscriptData text "Speaker 0" t true.

(** A final Deepgram event of speaker 0 with one alternative. *)
Definition finalEvent (text : string) (start : Q) : AudioServer.DeepgramData :=
  AudioServer.mkData
    (Some (AudioServer.mkChannel
             (Some [AudioServer.mkAlternative text
                      (Some [AudioServer.mkWord (Some start) (Some 0)])])
             None))
    None (Some true).

(** A viewer subscribes to the meeting of the examples, then the provider's
    connection announces its bot. *)
Definition liveSession : World :=
  exec (AudioServer.onMessage Scenario.env 0 (AudioServer.Metadata (Some "bot_1")))
    (exec (AudioServer.registerSSEClient "m1" 7)
       (initialWorld [Scenario.meeting recording])).

(** The live session after a first final event. *)
Definition afterFirst : World :=
  exec (AudioServer.handleTranscriptData 0 "m1" (said "We should" 1)) liveSession.

(** Two providers' connections announce the same bot one after the other. *)
Definition twoConnections : World :=
  let w := initialWorld [Scenario.meeting recording] in
  let w1 := exec (AudioServer.onMessage Scenario.env 0 (AudioServer.Metadata (Some "bot_1"))) w in
  exec (AudioServer.onMessage Scenario.env 1 (AudioServer.Metadata (Some "bot_1"))) w1.

(** A connection announces a bot no meeting has. *)
Definition unknownBot : World :=
  exec (AudioServer.onMessage Scenario.env 0 (AudioServer.Metadata (Some "bot_9")))
    (initialWorld [Scenario.meeting recording]).

(** A meeting being recorded, with its bot known to the service, a viewer
    subscribed and no transcript. *)
Definition silentMeeting : World :=
  setBotIds <["m1" := "bot_1"]>
    (exec (AudioServer.registerSSEClient "m1" 7)
       (initialWorld [Scenario.meeting recording])).

(** The meeting of the examples once stopped, with one row of transcript. *)
Definition stoppedMeeting : World :=
  exec (BotService.stopBot Scenario.env "m1") afterFirst.

(** * Further code *)

(** ** app/api/meetings/[id]/start-bot and stop-bot *)

Module Routes.

(** [POST] of the start-bot route: the status of the response and, on
    success, the bot id of its body. *)
Definition startBot (env : Env) (id : string) : M (nat * option string) :=
  tryCatch
    (botId ← BotService.startBot env id; mret (200, Some botId))
    (fun _ => mret (500, None)).

(** [POST] of the stop-bot route: the status of the response. *)
Definition stopBot (env : Env) (id : string) : M nat :=
  tryCatch
    (BotService.stopBot env id;; mret 200)
    (fun _ => mret 500).

End Routes.

(** ** The transcript of the provider (lib/meetingbaas/client.ts) *)

Module MeetingBaas.

Module Segment.
(** A segment of the transcript as MeetingBaas sends it; [words] holds the
    [word] of each entry of [segment.words]. *)
Record t := mk {
  words : option (list string);
  text : option string;
  speaker : option string;
  start_time : option Q;
  offset : option Q;
  end_time : option Q
}.
End Segment.

Module TranscriptSegment.
(** [TranscriptSegment] *)
Record t := mk {
  text : string;
  speaker : string;
  timestamp : Z;
  confidence : option Q
}.
End TranscriptSegment.

(** [recording_mode] of a bot. *)
Inductive RecordingMode := speaker_view | gallery_view | audio_only.

Module BotConfig.
(** [BotConfig], with the fields [createBot] reads. *)
Record t := mk {
  meeting_url : string;
  bot_name : option string;
  recording_mode : option RecordingMode;
  streaming_url : option string
}.
End BotConfig.

Module Payload.
(** The body of the request that creates a bot; [speech_to_text] holds the
    provider and [streaming] the output and the audio frequency, when the
    field is set. *)
Record t := mk {
  meeting_url : string;
  bot_name : string;
  recording_mode : RecordingMode;
  reserved : bool;
  speech_to_text : option string;
  streaming : option (string * string)
}.
End Payload.

(** The payload [createBot(config)] posts. *)
Definition createBotPayload (config : BotConfig.t) : Payload.t :=
  Payload.mk (BotConfig.meeting_url config)
    (Js.orDefault (BotConfig.bot_name config) "EZ Notes Bot")
    (default speaker_view (BotConfig.recording_mode config))
    false
    (if negb (Js.truthyOpt (BotConfig.streaming_url config)) then Some "Default" else None)
    (match BotConfig.streaming_url config with
     | Some url => if Js.truthy url then Some (url, "24khz") else None
     | None => None
     end).

(** [a || b] for a possibly missing number [a] and a number [b]. *)
Definition orNum (a : option Q) (b : Q) : Q :=
  match a with
  | Some q => if Js.truthyNum q then q else b
  | None => b
  end.

(** [segment.start_time || segment.offset || 0] *)
Definition startTime (segment : Segment.t) : Q :=
  orNum (Segment.start_time segment) (orNum (Segment.offset segment) 0).

(** [segment.words?.map((w) => w.word).join(' ')] *)
Definition spoken (segment : Segment.t) : option string :=
  Js.join " " <$> Segment.words segment.

(** The body of the loop of [getTranscript]: the segment pushed, if any. *)
Definition converted (segment : Segment.t) : option TranscriptSegment.t :=
  let text := Js.orDefault (Js.orElse (spoken segment) (Segment.text segment)) "" in
  if Js.truthy (Js.trim text) then
    Some (TranscriptSegment.mk (Js.trim text)
            (Js.orDefault (Segment.speaker segment) "Unknown")
            (Qfloor (startTime segment))
            (Some 1%Q))
  else None.

(** [getTranscript(botId)], for the answer of the provider to the request:
    the raw transcript [response.data.transcript || response.data || []],
    or the failure of the request. *)
Definition getTranscript (response : Res (list Segment.t)) : list TranscriptSegment.t :=
  match response with
  | Ok rawTranscript => omap converted rawTranscript
  | Throw _ => []
  end.

End MeetingBaas.

(** ** The transcript webhook (the second handler of
    app/api/webhooks/meetingbaas/events/route.ts) *)

Module Participant.
(** A row of the [participant] table. *)
Record t := mk {
  meetingId : string;
  name : string;
  role : string
}.
End Participant.

Module TranscriptWebhook.
Import MeetingBaas.

(** The handler works on the state of the process and on two more parts of
    the database: the [participant] table and the column [audioFileUrl] of
    the [meeting] table, kept here by meeting id; no other handler reads
    them. *)
Record Store := mkStore {
  world : World;
  participants : list Participant.t;
  audioFileUrl : gmap string string
}.

Definition H (A : Type) : Type := Store -> Res A * Store.

#[global] Instance H_ret : MRet H := fun A a s => (Ok a, s).
#[global] Instance H_bind : MBind H :=
  fun A B k m s =>
    match m s with
    | (Ok a, s') => k a s'
    | (Throw e, s') => (Throw e, s')
    end.

(** A handler step on the state of the process. *)
Definition lift {A} (m : M A) : H A :=
  fun s =>
    let (r, w) := m (world s) in
    (r, mkStore w (participants s) (audioFileUrl s)).

(** [try { m } catch (e) { h e }] *)
Definition attempt {A} (m : H A) (h : Err -> H A) : H A :=
  fun s =>
    match m s with
    | (Ok a, s') => (Ok a, s')
    | (Throw e, s') => h e s'
    end.

(** [for (let i = start; i < start + xs.length; i++) { body i xs[i - start] }] *)
Fixpoint forIndex {A} (i : nat) (xs : list A) (body : nat -> A -> H unit) : H unit :=
  match xs with
  | [] => mret tt
  | x :: rest => body i x;; forIndex (S i) rest body
  end.

(** [for (const x of xs) { body x }] *)
Fixpoint forEach {A} (xs : list A) (body : A -> H unit) : H unit :=
  match xs with
  | [] => mret tt
  | x :: rest => body x;; forEach rest body
  end.

(** [prisma.participant.findFirst({ where: { meetingId, name } })] *)
Definition participant_findFirst (meetingId name : string) : H (option Participant.t) :=
  fun s =>
    (Ok (head (filter (fun p => Participant.meetingId p = meetingId
                                /\ Participant.name p = name)
                 (participants s))), s).

(** [prisma.participant.create({ data })] *)
Definition participant_create (meetingId name role : string) : H unit :=
  fun s =>
    (Ok tt, mkStore (world s) (participants s ++ [Participant.mk meetingId name role])
              (audioFileUrl s)).

Definition setSpeaker (name : string) (r : Transcript.t) : Transcript.t :=
  Transcript.mk (Transcript.id r) (Transcript.meetingId r) (Transcript.text r)
    (Some name) (Transcript.timestamp r) (Transcript.confidence r).

(** One step of [updateMany] on a row. *)
Definition rename (meetingId label name : string) (r : Transcript.t) : Transcript.t :=
  if bool_decide (Transcript.meetingId r = meetingId /\ Transcript.speaker r = Some label)
  then setSpeaker name r
  else r.

(** [prisma.transcript.updateMany({ where: { meetingId, speaker: label },
    data: { speaker: name } })]; the count it returns is only logged. *)
Definition transcript_updateMany (meetingId label name : string) : M unit :=
  modify (setTranscripts (map (rename meetingId label name))).

(** The column [audioFileUrl] of an update; an [undefined] value leaves
    the column as it is. *)
Definition setAudioFileUrl (meetingId : string) (url : option string) : H unit :=
  fun s =>
    (Ok tt,
     mkStore (world s) (participants s)
       (match url with
        | Some u => <[meetingId := u]> (audioFileUrl s)
        | None => audioFileUrl s
        end)).

(** [body.data] of the payload. *)
Record Data := mkData {
  data_bot_id : option string;
  transcript : option (list Segment.t);
  speakers : option (list string);
  mp4 : option string;
  audio : option string
}.

(** The fields of the payload the handler reads; [duration] is a whole
    number of seconds, as the column it is stored in. *)
Record Body := mkBody {
  event : string;
  bot_id : option string;
  duration : option Z;
  data : option Data
}.

(** [`Speaker ${i}`] *)
Definition speakerLabel (i : nat) : string := "Speaker " +:+ pretty i.

(** [lastSegment?.end_time ? Math.floor(lastSegment.end_time) : duration || 0] *)
Definition durationSeconds (transcriptData : list Segment.t) (duration : option Z) : Z :=
  match last transcriptData ≫= Segment.end_time with
  | Some e => if Js.truthyNum e then Qfloor e else default 0%Z duration
  | None => default 0%Z duration
  end.

(** [POST(req)]; the result is the HTTP status of the response. *)
Definition POST (env : Env) (body : Body) : H nat :=
  attempt
    (match Js.orElse (bot_id body) (data body ≫= data_bot_id) with
     | Some bot =>
         if Js.truthy bot then
           meeting ← lift (Prisma.meeting_findFirst bot);
           match meeting with
           | None => mret 404
           | Some meeting =>
               let id := Meeting.id meeting in
               (if decide (event body = "complete") then
                  lift (emit (BaasStopBot bot));;
                  lift (tryCatch (BotService.call (stopBotCall env)) (fun _ => mret tt));;
                  let transcriptData := default [] (data body ≫= transcript) in
                  let speakers := default [] (data body ≫= speakers) in
                  let mp4Url := data body ≫= mp4 in
                  let audioUrl := data body ≫= audio in
                  forIndex 0 speakers
                    (fun i speakerName =>
                       attempt
                         (existingParticipant ← participant_findFirst id speakerName;
                          match existingParticipant with
                          | None => participant_create id speakerName "attendee"
                          | Some _ => mret tt
                          end;;
                          lift (transcript_updateMany id (speakerLabel i) speakerName))
                         (fun _ => mret tt));;
                  forEach transcriptData
                    (fun segment =>
                       let text := Js.orDefault (spoken segment) "" in
                       if Js.truthy (Js.trim text) then
                         lift (Prisma.transcript_create id (Js.trim text)
                                 (Some (Js.orDefault (Segment.speaker segment) "Unknown"))
                                 (Qfloor (startTime segment))
                                 (Some 1%Q))
                       else mret tt);;
                  lift (Prisma.meeting_update id
                          (fun m =>
                             withDuration
                               (Some (durationSeconds transcriptData (duration body)))
                               (withEndedAt (Some (now env)) (withStatus completed m))));;
                  setAudioFileUrl id (Js.orElse mp4Url audioUrl)
                else if decide (event body = "failed") then
                  lift (Prisma.meeting_update id (withStatus failed))
                else mret tt);;
               mret 200
           end
         else mret 400
     | None => mret 400
     end)
    (fun _ => mret 500).

End TranscriptWebhook.

(** * Vocabulary of the further properties *)

(** ** The subscriber registry *)

(** Every set of the registry is non-empty and lists no client twice. *)
Definition registryOk (w : World) : Prop :=
  forall meetingId clients,
    sseClients w !! meetingId = Some clients -> clients <> [] /\ NoDup clients.

(** A viewer connects to the stream of a meeting or leaves it. *)
Inductive Subscription :=
| Subscribe (meetingId : string) (client : nat)
| Unsubscribe (meetingId : string) (client : nat).

Definition subscription (op : Subscription) : M unit :=
  match op with
  | Subscribe meetingId client => AudioServer.registerSSEClient meetingId client
  | Unsubscribe meetingId client => AudioServer.unregisterSSEClient meetingId client
  end.

#[global] Instance Q_eq_dec : EqDecision Q.
Proof. solve_decision. Defined.

#[global] Instance byte_eq_dec : EqDecision Byte.byte := Byte.byte_eq_dec.

#[global] Instance StructuredSummary_eq_dec : EqDecision StructuredSummary.
Proof. solve_decision. Defined.

#[global] Instance SseEvent_eq_dec : EqDecision SseEvent.
Proof. solve_decision. Defined.

#[global] Instance Effect_eq_dec : EqDecision Effect.
Proof. solve_decision. Defined.

(** The effects added to the trace from [w] to [w']. *)
Definition newEffects (w w' : World) : list Effect :=
  drop (length (trace w)) (trace w').

(** How many times the event [ev] is sent to [client] in [effects]. *)
Definition deliveries (client : nat) (ev : SseEvent) (effects : list Effect) : nat :=
  length (filter (fun e => e = SseSend client ev) effects).

(** ** The audio bridge *)

(** An audio frame arrives on the connection [conn] while the Deepgram
    connection reports the ready state of [env]. *)
Definition onAudio (conn : nat) (frame : Env * list Byte.byte) : M unit :=
  AudioServer.onMessage (fst frame) conn (AudioServer.Audio (snd frame)).

(** The frames sent on to the Deepgram connection [dg]: those that arrived
    while it was open. *)
Definition relayed (dg : nat) (frames : list (Env * list Byte.byte)) : list Effect :=
  map (fun frame => DgSend dg (snd frame))
    (filter (fun frame => getReadyState (fst frame) = 1) frames).

(** The calls that tear the session [s] down. *)
Definition teardown (s : MeetingSession.t) : list Effect :=
  DgFinish (MeetingSession.deepgramConnection s)
  :: match MeetingSession.summaryInterval s with
     | Some timer => [ClearInterval timer]
     | None => []
     end.

(** ** Transcript events *)

(** A final event with text left after trimming: one the handler persists. *)
Definition persistable (td : AudioServer.TranscriptData) : Prop :=
  AudioServer.isFinal td = true /\ Js.trim (AudioServer.text td) <> "".

(** Each event has another speaker than the one before it or comes five
    seconds or more after it; the first is compared with [prev]. *)
Fixpoint separated (prev : AudioServer.TranscriptData)
    (tds : list AudioServer.TranscriptData) : Prop :=
  match tds with
  | [] => True
  | td :: rest =>
      (AudioServer.speaker td <> AudioServer.speaker prev
       \/ (5 <= AudioServer.timestamp td - AudioServer.timestamp prev)%Q) /\
      separated td rest
  end.

(** The rows the events [tds] create when none is merged, with ids from
    [i] on. *)
Fixpoint newFragments (i : nat) (meetingId : string)
    (tds : list AudioServer.TranscriptData) : list Transcript.t :=
  match tds with
  | [] => []
  | td :: rest => newFragment i meetingId td :: newFragments (S i) meetingId rest
  end.

(** The ids of the [transcript] table are distinct and were drawn from the
    counter. *)
Definition storeOk (w : World) : Prop :=
  idsFresh w /\ NoDup (map Transcript.id (transcripts w)).

(** The rows of the meetings other than [meetingId]. *)
Definition otherFragments (meetingId : string) (w : World) : list Transcript.t :=
  filter (fun r => Transcript.meetingId r <> meetingId) (transcripts w).

(** ** The bot service *)

(** The update [startBot] makes once the bot is created. *)
Definition startedData (env : Env) (bot : string) (m : Meeting.t) : Meeting.t :=
  withZoomMeetingId (Some bot) (withStartedAt (Some (now env)) (withStatus recording m)).

(** The row of the meeting with the given id, as [findUnique] sees it. *)
Definition meetingOf (id : string) (w : World) : option Meeting.t :=
  head (filter (fun m => Meeting.id m = id) (meetings w)).

(** ** The events webhook *)

(** The bot id the events webhook reads from a payload: [body.bot_id ||
    data?.bot_id], when it is truthy. *)
Definition botOf (body : EventsWebhook.Body) : option string :=
  match Js.orElse (EventsWebhook.bot_id body) (EventsWebhook.data_bot_id body) with
  | Some bot => if Js.truthy bot then Some bot else None
  | None => None
  end.

(** The meeting a payload is about. *)
Definition resolved (body : EventsWebhook.Body) (w : World) : option Meeting.t :=
  bot ← botOf body;
  head (filter (fun m => Meeting.zoomMeetingId m = Some bot) (meetings w)).

(** The update made on [meeting.started] and [bot.joined], for the row
    [meeting] the handler read. *)
Definition joinedData (env : Env) (body : EventsWebhook.Body) (meeting m : Meeting.t)
    : Meeting.t :=
  withStartedAt
    (Some (default (default (now env) (EventsWebhook.timestamp body))
             (Meeting.startedAt meeting)))
    (withStatus recording m).

(** The update made on [bot.left], with the date of the payload. *)
Definition leftData (d : Z) (m : Meeting.t) : Meeting.t :=
  withEndedAt (Some d) (withStatus processing m).

(** The events that announce that the bot is in the meeting. *)
Definition startEvent (e : string) : Prop :=
  e = "meeting.started" \/ e = "bot.joined".

(** The events the handler has a case with an update for. *)
Definition updatingEvents : list string :=
  ["meeting.started"; "bot.joined"; "meeting.completed"; "meeting.failed";
   "bot.left"; "bot.error"].

(** What the events webhook leaves of a row: everything but the status and
    the two dates. *)
Definition sameButProgress (m m' : Meeting.t) : Prop :=
  Meeting.id m' = Meeting.id m /\
  Meeting.zoomJoinUrl m' = Meeting.zoomJoinUrl m /\
  Meeting.zoomMeetingId m' = Meeting.zoomMeetingId m /\
  Meeting.duration m' = Meeting.duration m /\
  Meeting.summary m' = Meeting.summary m /\
  Meeting.summaryHistory m' = Meeting.summaryHistory m.

(** Everything of the state but the meeting table and the trace: the other
    tables, the id generator and the registries of the servers. *)
Definition restOf (w : World) :=
  (transcripts w, actionItemRows w, nextId w, botIds w, sessions w,
   activeSessions w, currentSession w, transcriptHandlers w, intervals w,
   sseClients w).

(** ** The transcript webhook *)

(** The bot id the transcript webhook reads from a payload, when it is
    truthy. *)
Definition payloadBot (body : TranscriptWebhook.Body) : option string :=
  match Js.orElse (TranscriptWebhook.bot_id body)
          (TranscriptWebhook.data body ≫= TranscriptWebhook.data_bot_id) with
  | Some bot => if Js.truthy bot then Some bot else None
  | None => None
  end.

(** The meeting a payload of the transcript webhook is about. *)
Definition payloadMeeting (body : TranscriptWebhook.Body) (w : World) : option Meeting.t :=
  bot ← payloadBot body;
  head (filter (fun m => Meeting.zoomMeetingId m = Some bot) (meetings w)).

(** [body.data?.speakers || []] and [body.data?.transcript || []] *)
Definition speakersOf (body : TranscriptWebhook.Body) : list string :=
  default [] (TranscriptWebhook.data body ≫= TranscriptWebhook.speakers).

Definition segmentsOf (body : TranscriptWebhook.Body) : list MeetingBaas.Segment.t :=
  default [] (TranscriptWebhook.data body ≫= TranscriptWebhook.transcript).

(** The transcript table after the iterations of the loop over the
    speakers from index [i] on. *)
Fixpoint renamedFrom (meetingId : string) (i : nat) (names : list string)
    (rows : list Transcript.t) : list Transcript.t :=
  match names with
  | [] => rows
  | name :: rest =>
      renamedFrom meetingId (S i) rest
        (map (TranscriptWebhook.rename meetingId (TranscriptWebhook.speakerLabel i) name) rows)
  end.

(** The participant table after the iterations of the loop over the
    speakers. *)
Fixpoint joined (meetingId : string) (names : list string)
    (ps : list Participant.t) : list Participant.t :=
  match names with
  | [] => ps
  | name :: rest =>
      joined meetingId rest
        match head (filter (fun p => Participant.meetingId p = meetingId
                                     /\ Participant.name p = name) ps) with
        | Some _ => ps
        | None => ps ++ [Participant.mk meetingId name "attendee"]
        end
  end.

(** The rows the loop over the segments creates, the id generator being at
    [n]. *)
Fixpoint savedRows (meetingId : string) (n : nat) (segments : list MeetingBaas.Segment.t)
    : list Transcript.t :=
  match segments with
  | [] => []
  | segment :: rest =>
      let text := Js.orDefault (MeetingBaas.spoken segment) "" in
      if Js.truthy (Js.trim text) then
        Transcript.mk n meetingId (Js.trim text)
          (Some (Js.orDefault (MeetingBaas.Segment.speaker segment) "Unknown"))
          (Qfloor (MeetingBaas.startTime segment)) (Some 1%Q)
        :: savedRows meetingId (S n) rest
      else savedRows meetingId n rest
  end.

(** The update of the meeting on [complete]. *)
Definition transcribedData (env : Env) (body : TranscriptWebhook.Body) (m : Meeting.t)
    : Meeting.t :=
  withDuration
    (Some (TranscriptWebhook.durationSeconds (segmentsOf body) (TranscriptWebhook.duration body)))
    (withEndedAt (Some (now env)) (withStatus completed m)).

(** The audio file the payload names: [mp4Url || audioUrl]. *)
Definition recordingOf (body : TranscriptWebhook.Body) : option string :=
  Js.orElse (TranscriptWebhook.data body ≫= TranscriptWebhook.mp4)
    (TranscriptWebhook.data body ≫= TranscriptWebhook.audio).

(** The state the transcript webhook leaves on [complete] for the meeting
    with the given id and the bot of the payload. *)
Definition transcribed (env : Env) (body : TranscriptWebhook.Body) (id bot : string)
    (s : TranscriptWebhook.Store) : TranscriptWebhook.Store :=
  let w := TranscriptWebhook.world s in
  let rows := savedRows id (nextId w) (segmentsOf body) in
  TranscriptWebhook.mkStore
    (setMeetings (Prisma.updateWhere id (transcribedData env body))
       (setNextId (fun n => n + length rows)
          (setTranscripts (fun old => renamedFrom id 0 (speakersOf body) old ++ rows)
             (setTrace (fun t => t ++ [BaasStopBot bot]) w))))
    (joined id (speakersOf body) (TranscriptWebhook.participants s))
    match recordingOf body with
    | Some u => <[id := u]> (TranscriptWebhook.audioFileUrl s)
    | None => TranscriptWebhook.audioFileUrl s
    end.

(** The name the list of speakers gives to a label: the name at the first
    index from [i] on whose label it is, and the label itself when there is
    none. *)
Fixpoint named (i : nat) (names : list string) (label : string) : string :=
  match names with
  | [] => label
  | name :: rest =>
      if decide (label = TranscriptWebhook.speakerLabel i) then name
      else named (S i) rest label
  end.

(** A row with the speaker's label replaced by the speaker's name, for the
    rows of one meeting and the speakers from index [i] on. *)
Definition reconciledFrom (meetingId : string) (i : nat) (names : list string)
    (r : Transcript.t) : Transcript.t :=
  match Transcript.speaker r with
  | Some label =>
      if bool_decide (Transcript.meetingId r = meetingId)
      then TranscriptWebhook.setSpeaker (named i names label) r
      else r
  | None => r
  end.

Definition reconciled (meetingId : string) (names : list string) : Transcript.t -> Transcript.t :=
  reconciledFrom meetingId 0 names.

(** No speaker is called like the label of a later speaker. *)
Definition noLaterLabel (i : nat) (names : list string) : Prop :=
  forall k name j,
    names !! k = Some name -> (k < j < length names)%nat ->
    name <> TranscriptWebhook.speakerLabel (i + j).

(** The pairs of meeting and name of the participant table. *)
Definition participantKeys (ps : list Participant.t) : list (string * string) :=
  map (fun p => (Participant.meetingId p, Participant.name p)) ps.

(** A segment without its [text] field, which the webhook does not read. *)
Definition withoutText (segment : MeetingBaas.Segment.t) : MeetingBaas.Segment.t :=
  MeetingBaas.Segment.mk (MeetingBaas.Segment.words segment) None
    (MeetingBaas.Segment.speaker segment) (MeetingBaas.Segment.start_time segment)
    (MeetingBaas.Segment.offset segment) (MeetingBaas.Segment.end_time segment).

(** The row of the transcript table for a segment of the client, with the
    given id. *)
Definition rowOf (meetingId : string) (n : nat) (t : MeetingBaas.TranscriptSegment.t)
    : Transcript.t :=
  Transcript.mk n meetingId (MeetingBaas.TranscriptSegment.text t)
    (Some (MeetingBaas.TranscriptSegment.speaker t))
    (MeetingBaas.TranscriptSegment.timestamp t)
    (MeetingBaas.TranscriptSegment.confidence t).

(** A payload of the transcript webhook for the bot of the examples: two
    speakers, a segment with two words and a blank one, and an audio file. *)
Definition transcriptPayload : TranscriptWebhook.Body :=
  TranscriptWebhook.mkBody "complete" (Some "bot_1") (Some 60%Z)
    (Some (TranscriptWebhook.mkData None
             (Some [MeetingBaas.Segment.mk (Some ["Hello"; "all "]) None (Some "Ana")
                      (Some (3 # 2)) None (Some (5 # 2));
                    MeetingBaas.Segment.mk (Some [" "]) (Some "unused") None None None None])
             (Some ["Ana"; "Bob"]) None (Some "https://files/a.mp3"))).

(** The database when the payload arrives: the live session after its first
    final event, no participant and no audio file. *)
Definition liveStore : TranscriptWebhook.Store :=
  TranscriptWebhook.mkStore afterFirst [] ∅.

(** ** ASCII texts and the merge window in double arithmetic *)

(** A text of ASCII characters only. On such a text [Js.trim] is
    [String.prototype.trim]; the latter also removes the white space outside
    ASCII (U+00A0, U+FEFF, U+2028, U+2029 and the class Zs), which [Js.trim]
    leaves in place. *)
Definition isAscii (s : string) : bool :=
  forallb (fun c => nat_of_ascii c <? 128) (list_ascii_of_string s).

(** The largest double below 5, which is 5 - 2^-50. The timestamps of the
    embedding are the exact values of the doubles of the code, and the code
    subtracts two of them in double arithmetic: its gap is the exact
    difference rounded to the nearest double. Rounding keeps the order and
    leaves a double as it is, so an exact gap of at most [belowWindow] is
    below 5 as the code computes it, and an exact gap of 5 or more is not;
    for an exact gap in between, the code may see 5 where
    [AudioServer.timeSinceLastSegment] is below 5. *)
Definition belowWindow : Q := (5 - (1 # 1125899906842624))%Q.

(** Each event is after the one before it, by at most [belowWindow]; the
    first is so after [prev]. *)
Fixpoint closelyChained (prev : Q) (tds : list AudioServer.TranscriptData) : Prop :=
  match tds with
  | [] => True
  | td :: rest =>
      (prev < AudioServer.timestamp td)%Q /\
      (AudioServer.timestamp td - prev <= belowWindow)%Q /\
      closelyChained (AudioServer.timestamp td) rest
  end.

(** A final event of the speaker [sp] with an ASCII text, of which
    something is left after trimming, and a timestamp that is not zero. *)
Definition asciiFinalOf (sp : string) (td : AudioServer.TranscriptData) : Prop :=
  finalOf sp td /\ isAscii (AudioServer.text td) = true.

(** ** Deepgram events *)

(** A Deepgram event arrives on the Deepgram connection [dg] while the
    clock reads as in [env]. *)
Definition onDeepgram (dg : nat) (event : Env * AudioServer.DeepgramData) : M unit :=
  AudioServer.onTranscript (fst event) dg (snd event).

(** The transcript event the handler sends to the viewers for a Deepgram
    event: none when the event has no alternative or the transcript of its
    first alternative is empty. *)
Definition shown (event : Env * AudioServer.DeepgramData) : option SseEvent :=
  alt ← AudioServer.firstAlternative (snd event);
  if Js.truthy (AudioServer.transcript alt) then
    let td := AudioServer.transcriptData (fst event) (snd event) alt in
    Some (EvTranscript (AudioServer.text td) (AudioServer.speaker td)
            (AudioServer.timestamp td) (AudioServer.isFinal td))
  else None.

(** The transcript events sent to [clients] for the Deepgram events
    [events]. *)
Definition shownTo (clients : list nat) (events : list (Env * AudioServer.DeepgramData))
    : list Effect :=
  concat (map (sends clients) (omap shown events)).

(** An interim Deepgram event: [data.is_final] is missing or false. *)
Definition interim (event : Env * AudioServer.DeepgramData) : Prop :=
  default false (AudioServer.is_final (snd event)) = false.

(** * Properties *)

(** ** Running a handler *)

Lemma exec_bind {A B} (m : M A) (k : A -> M B) w :
  exec (m ≫= k) w =
  match m w with
  | (Ok a, w') => exec (k a) w'
  | (Throw _, w') => w'
  end.
Proof.
  unfold exec, mbind, M_bind, bind. destruct (m w) as [[a|e] w']; reflexivity.
Qed.

(** ** Rows of the [meeting] table *)

(** The update [f] keeps the column a query filters on. *)
Lemma filter_update_commute {K} `{EqDecision K} (col : Meeting.t -> K) (k : K)
    (g : Meeting.t -> Meeting.t) (ms : list Meeting.t) :
  (forall m, col (g m) = col m) ->
  filter (fun m => col m = k) (map g ms) = map g (filter (fun m => col m = k) ms).
Proof.
  intros Hg. induction ms as [|m ms IH]; [reflexivity|].
  cbn [map]. rewrite !filter_cons, Hg.
  destruct (decide (col m = k)); cbn [map]; rewrite IH; reflexivity.
Qed.

Lemma head_map {A B} (g : A -> B) (l : list A) : head (map g l) = g <$> head l.
Proof. destruct l; reflexivity. Qed.

Lemma updateWhere_findUnique id f ms id' :
  (forall m, Meeting.id (f m) = Meeting.id m) ->
  head (filter (fun m => Meeting.id m = id') (Prisma.updateWhere id f ms)) =
  (fun m => if bool_decide (Meeting.id m = id) then f m else m)
    <$> head (filter (fun m => Meeting.id m = id') ms).
Proof.
  intros Hf. unfold Prisma.updateWhere.
  rewrite (filter_update_commute Meeting.id), head_map; [reflexivity|].
  intros m. case_bool_decide; auto.
Qed.

Lemma updateWhere_findFirst id f ms bot :
  (forall m, Meeting.zoomMeetingId (f m) = Meeting.zoomMeetingId m) ->
  head (filter (fun m => Meeting.zoomMeetingId m = Some bot) (Prisma.updateWhere id f ms)) =
  (fun m => if bool_decide (Meeting.id m = id) then f m else m)
    <$> head (filter (fun m => Meeting.zoomMeetingId m = Some bot) ms).
Proof.
  intros Hf. unfold Prisma.updateWhere.
  rewrite (filter_update_commute Meeting.zoomMeetingId), head_map; [reflexivity|].
  intros m. case_bool_decide; auto.
Qed.

Lemma head_filter_holds {A} (P : A -> Prop) `{forall x, Decision (P x)} (l : list A) x :
  head (filter P l) = Some x -> P x.
Proof.
  induction l as [|y l IH]; [discriminate|].
  rewrite filter_cons. destruct (decide (P y)); cbn; [|exact IH].
  intros [= ->]. assumption.
Qed.

(** What [prisma.meeting.update] does when the row exists. *)
Lemma meeting_update_found id f w m :
  head (filter (fun m => Meeting.id m = id) (meetings w)) = Some m ->
  Prisma.meeting_update id f w = (Ok tt, setMeetings (Prisma.updateWhere id f) w).
Proof. intros H. unfold Prisma.meeting_update. rewrite H. reflexivity. Qed.

Lemma statusOf_update id f w m :
  (forall m, Meeting.id (f m) = Meeting.id m) ->
  head (filter (fun m => Meeting.id m = id) (meetings w)) = Some m ->
  statusOf id (setMeetings (Prisma.updateWhere id f) w) = Some (Meeting.status (f m)).
Proof.
  intros Hf H. unfold statusOf. cbn [setMeetings meetings].
  rewrite updateWhere_findUnique, H by assumption. cbn.
  apply head_filter_holds in H. rewrite bool_decide_eq_true_2 by assumption.
  reflexivity.
Qed.

Lemma head_filter_elem {A} (P : A -> Prop) `{forall x, Decision (P x)} (l : list A) x :
  head (filter P l) = Some x -> x ∈ l.
Proof.
  induction l as [|y l IH]; [discriminate|].
  rewrite filter_cons. destruct (decide (P y)); cbn.
  - intros [= ->]. left.
  - intros Hx. right. auto.
Qed.

Lemma head_filter_exists {A} (P : A -> Prop) `{forall x, Decision (P x)} (l : list A) x :
  x ∈ l -> P x -> exists y, head (filter P l) = Some y.
Proof.
  induction 1 as [x l|x y l Hin IH]; intros HP; rewrite filter_cons.
  - rewrite decide_True by assumption. eauto.
  - destruct (decide (P y)); cbn; eauto.
Qed.

(** ** The events webhook *)

Module EventsWebhookFacts.
Import EventsWebhook.

(** One delivery of [meeting.completed] for a known bot: the provider is
    asked to stop the bot, the status is written, the answer is 200. *)
Lemma POST_meeting_completed env body w bot meeting :
  Js.orElse (bot_id body) (data_bot_id body) = Some bot ->
  Js.truthy bot = true ->
  head (filter (fun m => Meeting.zoomMeetingId m = Some bot) (meetings w)) = Some meeting ->
  event body = "meeting.completed" ->
  POST env body w =
  (Ok 200,
   setMeetings (Prisma.updateWhere (Meeting.id meeting) (completedData env body))
     (setTrace (fun t => t ++ [BaasStopBot bot]) w)).
Proof.
  intros Hbot Htruthy Hfind Hev.
  destruct (head_filter_exists (fun m => Meeting.id m = Meeting.id meeting)
              (meetings w) meeting) as [m0 Hm0];
    [eapply head_filter_elem; eassumption|reflexivity|].
  unfold POST. rewrite Hbot, Htruthy.
  unfold tryCatch, mbind, M_bind, bind, Prisma.meeting_findFirst.
  rewrite Hfind, Hev.
  rewrite decide_False by (intros [H|H]; discriminate H).
  rewrite decide_True by reflexivity.
  unfold emit, modify, BotService.call.
  destruct (stopBotCall env) as [[]|e]; unfold mret, M_ret, ret, throw;
    erewrite meeting_update_found by (cbn; eassumption); reflexivity.
Qed.

End EventsWebhookFacts.

Module EventsWebhookProperties.
Import EventsWebhook EventsWebhookFacts.

(** C1, as stated, fails: the meeting is completed, the webhook
    [meeting.completed] is delivered again, the handler answers 200 and the
    status is back at processing, which is before completed in the order. *)
Lemma redelivered_completed_regresses :
  let w := initialWorld [Scenario.meeting completed] in
  let w' := exec (POST Scenario.env Scenario.completedBody) w in
  statusOf "m1" w = Some completed /\
  result (POST Scenario.env Scenario.completedBody) w = Ok 200 /\
  statusOf "m1" w' = Some processing /\
  rank processing = Some 2 /\ rank completed = Some 3.
Proof. vm_compute. repeat split. Qed.

(** C1, amended: a delivery of [meeting.completed] for a known bot answers
    200 and writes the status processing whatever the status was; a second
    delivery of the same payload, whatever the clock and the provider do
    then, answers 200 again and leaves the status at processing. *)
Theorem meeting_completed_writes_processing env env' body w bot meeting :
  Js.orElse (bot_id body) (data_bot_id body) = Some bot ->
  Js.truthy bot = true ->
  head (filter (fun m => Meeting.zoomMeetingId m = Some bot) (meetings w)) = Some meeting ->
  event body = "meeting.completed" ->
  let w' := exec (POST env body) w in
  let w'' := exec (POST env' body) w' in
  result (POST env body) w = Ok 200 /\
  statusOf (Meeting.id meeting) w' = Some processing /\
  result (POST env' body) w' = Ok 200 /\
  statusOf (Meeting.id meeting) w'' = Some processing.
Proof.
  intros Hbot Htruthy Hfind Hev w' w''.
  assert (Hin : meeting ∈ meetings w) by (eapply head_filter_elem; eassumption).
  destruct (head_filter_exists (fun m => Meeting.id m = Meeting.id meeting)
              (meetings w) meeting Hin eq_refl) as [m0 Hm0].
  pose proof (POST_meeting_completed env body w bot meeting Hbot Htruthy Hfind Hev) as E1.
  assert (Hw' : w' = setMeetings (Prisma.updateWhere (Meeting.id meeting) (completedData env body))
                       (setTrace (fun t => t ++ [BaasStopBot bot]) w))
    by (unfold w', exec; rewrite E1; reflexivity).
  (* the row found by bot id after the first delivery *)
  assert (Hfind' : head (filter (fun m => Meeting.zoomMeetingId m = Some bot) (meetings w'))
                   = Some (completedData env body meeting)).
  { rewrite Hw'. cbn [setMeetings meetings setTrace].
    rewrite updateWhere_findFirst, Hfind by reflexivity. cbn.
    rewrite bool_decide_eq_true_2 by reflexivity. reflexivity. }
  assert (Hm0' : head (filter (fun m => Meeting.id m = Meeting.id meeting) (meetings w'))
                 = Some (completedData env body m0)).
  { rewrite Hw'. cbn [setMeetings meetings setTrace].
    rewrite updateWhere_findUnique, Hm0 by reflexivity. cbn.
    apply head_filter_holds in Hm0. rewrite bool_decide_eq_true_2 by assumption.
    reflexivity. }
  pose proof (POST_meeting_completed env' body w' bot _ Hbot Htruthy Hfind' Hev) as E2.
  cbn [completedData withEndedAt withStatus Meeting.id] in E2.
  repeat split.
  - unfold result. rewrite E1. reflexivity.
  - rewrite Hw'.
    exact (statusOf_update _ (completedData env body) (setTrace _ w) m0
             (fun _ => eq_refl) Hm0).
  - unfold result. rewrite E2. reflexivity.
  - unfold w'', exec. rewrite E2. cbn [snd].
    exact (statusOf_update _ (completedData env' body) (setTrace _ w') _
             (fun _ => eq_refl) Hm0').
Qed.

Lemma meeting_completed_writes_processing_witness :
  let w := initialWorld [Scenario.meeting recording] in
  let w' := exec (POST Scenario.env Scenario.completedBody) w in
  let w'' := exec (POST Scenario.envDown Scenario.completedBody) w' in
  result (POST Scenario.env Scenario.completedBody) w = Ok 200 /\
  statusOf "m1" w' = Some processing /\
  result (POST Scenario.envDown Scenario.completedBody) w' = Ok 200 /\
  statusOf "m1" w'' = Some processing.
Proof.
  exact (meeting_completed_writes_processing Scenario.env Scenario.envDown
           Scenario.completedBody (initialWorld [Scenario.meeting recording])
           "bot_1" (Scenario.meeting recording) eq_refl eq_refl eq_refl eq_refl).
Defined.

End EventsWebhookProperties.

(** ** The connection of the meeting-bot provider *)

Module BridgeFacts.
Import AudioServer.

Lemma onMessage_metadata_found env conn botId meeting w :
  Js.truthy botId = true ->
  head (filter (fun m => Meeting.zoomMeetingId m = Some botId) (meetings w)) = Some meeting ->
  Js.truthyOpt (DEEPGRAM_API_KEY env) = true ->
  onMessage env conn (Metadata (Some botId)) w = (Ok tt, sessionStarted conn botId meeting w).
Proof.
  intros Hb Hfind Hkey.
  cbv [onMessage tryCatch mbind M_bind bind emit modify Prisma.meeting_findFirst].
  rewrite Hb. cbn [setTrace meetings]. rewrite Hfind, Hkey.
  cbv [fresh mret M_ret ret sessionStarted]. reflexivity.
Qed.

Lemma setTrace_setTrace f g w : setTrace f (setTrace g w) = setTrace (fun t => f (g t)) w.
Proof. reflexivity. Qed.

Lemma setTrace_ext f g w : (forall t, f t = g t) -> setTrace f w = setTrace g w.
Proof. intros H. unfold setTrace. rewrite H. reflexivity. Qed.

Lemma onMessage_metadata_rejected env conn botId w :
  Js.truthy botId = true ->
  match head (filter (fun m => Meeting.zoomMeetingId m = Some botId) (meetings w)) with
  | None => True
  | Some _ => Js.truthyOpt (DEEPGRAM_API_KEY env) = false
  end ->
  onMessage env conn (Metadata (Some botId)) w =
  (Ok tt, setTrace (fun t => t ++ [WsSendReady conn; WsClose conn]) w).
Proof.
  intros Hb Hfind.
  cbv [onMessage tryCatch mbind M_bind bind emit modify Prisma.meeting_findFirst].
  rewrite Hb. cbn [setTrace meetings].
  destruct (head _) as [meeting|]; [rewrite Hfind|];
    rewrite setTrace_setTrace; f_equal; apply setTrace_ext; intros t;
    rewrite <- app_assoc; reflexivity.
Qed.

End BridgeFacts.

Module BridgeProperties.
Import AudioServer BridgeFacts.

Lemma sessionStarted_trace conn botId meeting w :
  trace (sessionStarted conn botId meeting w) =
  trace w ++ [WsSendReady conn; DgListenLive (nextId w); SetInterval (S (S (nextId w)))].
Proof.
  cbn [sessionStarted setSessions setIntervals setTrace setNextId setActiveSessions
         setCurrentSession setTranscriptHandlers trace nextId].
  rewrite <- !app_assoc. reflexivity.
Qed.

Lemma sessionStarted_session conn botId meeting w :
  sessions (sessionStarted conn botId meeting w) !! S (nextId w) =
  Some (MeetingSession.mk botId (Meeting.id meeting) (nextId w)
          (Some (S (S (nextId w)))) None None None).
Proof.
  cbn [sessionStarted setSessions setIntervals setTrace setNextId setActiveSessions
         setCurrentSession setTranscriptHandlers sessions nextId].
  rewrite lookup_alter_eq, lookup_insert_eq. reflexivity.
Qed.

(** C4, as stated, fails: for a bot id that matches no meeting the
    readiness acknowledgment is sent, and then the connection is closed. *)
Lemma unknown_bot_is_acknowledged :
  trace unknownBot = [WsSendReady 0; WsClose 0] /\
  head (filter (fun m => Meeting.zoomMeetingId m = Some "bot_9")
          (meetings (initialWorld [Scenario.meeting recording]))) = None.
Proof. vm_compute. split; reflexivity. Qed.

(** C4, amended: on a metadata message with a bot id the bridge first
    acknowledges readiness and then looks the meeting up. If no meeting
    matches (or the Deepgram key is missing) it closes the connection and
    registers nothing; otherwise it opens the Deepgram connection, makes the
    session the connection's current one, registers it under the bot id and
    starts the summary timer, which it records in the session. *)
Theorem metadata_is_acknowledged_first env conn botId w :
  Js.truthy botId = true ->
  let w' := exec (onMessage env conn (Metadata (Some botId))) w in
  let dg := nextId w in
  let ref := S dg in
  let timer := S ref in
  match head (filter (fun m => Meeting.zoomMeetingId m = Some botId) (meetings w)) with
  | Some meeting =>
      if Js.truthyOpt (DEEPGRAM_API_KEY env) then
        trace w' = trace w ++ [WsSendReady conn; DgListenLive dg; SetInterval timer] /\
        transcriptHandlers w' !! dg = Some (conn, Meeting.id meeting) /\
        currentSession w' !! conn = Some ref /\
        activeSessions w' !! botId = Some ref /\
        sessions w' !! ref =
          Some (MeetingSession.mk botId (Meeting.id meeting) dg (Some timer) None None None) /\
        intervals w' !! timer = Some (Meeting.id meeting)
      else w' = setTrace (fun t => t ++ [WsSendReady conn; WsClose conn]) w
  | None => w' = setTrace (fun t => t ++ [WsSendReady conn; WsClose conn]) w
  end.
Proof.
  intros Hb w' dg ref timer.
  destruct (head _) as [meeting|] eqn:Hfind.
  - destruct (Js.truthyOpt (DEEPGRAM_API_KEY env)) eqn:Hkey.
    + assert (Hw' : w' = sessionStarted conn botId meeting w)
        by (unfold w', exec; rewrite (onMessage_metadata_found env conn botId meeting);
            auto).
      rewrite Hw'. split; [apply sessionStarted_trace|].
      split; [|split; [|split; [|split; [apply sessionStarted_session|]]]];
        cbn [sessionStarted setSessions setIntervals setTrace setNextId setActiveSessions
               setCurrentSession setTranscriptHandlers transcriptHandlers currentSession
               activeSessions intervals nextId];
        apply lookup_insert_eq.
    + unfold w', exec. rewrite onMessage_metadata_rejected; [reflexivity|assumption|].
      rewrite Hfind. assumption.
  - unfold w', exec. rewrite onMessage_metadata_rejected; [reflexivity|assumption|].
    rewrite Hfind. exact I.
Qed.

Lemma metadata_is_acknowledged_first_witness :
  let w := initialWorld [Scenario.meeting recording] in
  let w' := exec (onMessage Scenario.env 0 (Metadata (Some "bot_1"))) w in
  trace w' = [WsSendReady 0; DgListenLive 0; SetInterval 2] /\
  transcriptHandlers w' !! 0 = Some (0, "m1") /\
  currentSession w' !! 0 = Some 1 /\
  activeSessions w' !! "bot_1" = Some 1 /\
  sessions w' !! 1 = Some (MeetingSession.mk "bot_1" "m1" 0 (Some 2) None None None) /\
  intervals w' !! 2 = Some "m1".
Proof.
  exact (metadata_is_acknowledged_first Scenario.env 0 "bot_1"
           (initialWorld [Scenario.meeting recording]) eq_refl).
Defined.

(** C3, as stated, fails: a second connection announces the bot of a live
    session; it is acknowledged and not closed, its session takes the place
    of the first in the registry, and the meeting has two live sessions,
    each with its own timer. *)
Lemma second_connection_replaces_session :
  let w := initialWorld [Scenario.meeting recording] in
  let w1 := exec (onMessage Scenario.env 0 (Metadata (Some "bot_1"))) w in
  activeSessions w1 !! "bot_1" = Some 1 /\
  activeSessions twoConnections !! "bot_1" = Some 4 /\
  trace twoConnections =
    trace w1 ++ [WsSendReady 1; DgListenLive 3; SetInterval 5] /\
  length (sessionsOf "m1" twoConnections) = 2 /\
  intervals twoConnections !! 2 = Some "m1" /\
  intervals twoConnections !! 5 = Some "m1".
Proof. vm_compute. repeat split. Qed.

(** C3, amended: when a connection announces a bot id under which a session
    is registered (and a meeting matches, the Deepgram key being
    configured), the connection is acknowledged and not closed, and the
    registry entry of the bot id becomes the new session. The session
    registered before is not torn down: it stays in memory as it was, and
    the timers running before keep running. *)
Theorem announced_session_replaces_entry env conn botId meeting old w :
  Js.truthy botId = true ->
  head (filter (fun m => Meeting.zoomMeetingId m = Some botId) (meetings w)) = Some meeting ->
  Js.truthyOpt (DEEPGRAM_API_KEY env) = true ->
  activeSessions w !! botId = Some old ->
  old < nextId w ->
  let w' := exec (onMessage env conn (Metadata (Some botId))) w in
  let ref := S (nextId w) in
  trace w' = trace w ++ [WsSendReady conn; DgListenLive (nextId w); SetInterval (S ref)] /\
  activeSessions w' !! botId = Some ref /\
  ref <> old /\
  sessions w' !! old = sessions w !! old /\
  (forall timer, timer < nextId w -> intervals w' !! timer = intervals w !! timer).
Proof.
  intros Hb Hfind Hkey Hold Hlt w' ref.
  assert (Hw' : w' = sessionStarted conn botId meeting w)
    by (unfold w', exec; rewrite (onMessage_metadata_found env conn botId meeting); auto).
  rewrite Hw'. split; [apply sessionStarted_trace|].
  cbn [sessionStarted setSessions setIntervals setTrace setNextId setActiveSessions
         setCurrentSession setTranscriptHandlers sessions activeSessions intervals nextId].
  split; [apply lookup_insert_eq|].
  split; [unfold ref; lia|].
  split.
  - rewrite lookup_alter_ne, lookup_insert_ne by (unfold ref; lia). reflexivity.
  - intros timer Ht. rewrite lookup_insert_ne by lia. reflexivity.
Qed.

Lemma announced_session_replaces_entry_witness :
  let w := exec (onMessage Scenario.env 0 (Metadata (Some "bot_1")))
             (initialWorld [Scenario.meeting recording]) in
  let w' := exec (onMessage Scenario.env 1 (Metadata (Some "bot_1"))) w in
  trace w' = trace w ++ [WsSendReady 1; DgListenLive 3; SetInterval 5] /\
  activeSessions w' !! "bot_1" = Some 4 /\
  4 <> 1 /\
  sessions w' !! 1 = sessions w !! 1 /\
  (forall timer, timer < 3 -> intervals w' !! timer = intervals w !! timer).
Proof.
  exact (announced_session_replaces_entry Scenario.env 1 "bot_1"
           (Scenario.meeting recording) 1
           (exec (onMessage Scenario.env 0 (Metadata (Some "bot_1")))
              (initialWorld [Scenario.meeting recording]))
           eq_refl eq_refl eq_refl eq_refl (le_S _ _ (le_n 2))).
Defined.

End BridgeProperties.

(** ** Broadcasts *)

Module BroadcastFacts.
Import AudioServer.

Lemma setTrace_id w : setTrace (fun t => t ++ []) w = w.
Proof. destruct w. unfold setTrace. cbn. rewrite app_nil_r. reflexivity. Qed.

Lemma forOf_emit {A} (f : A -> Effect) (xs : list A) w :
  forOf xs (fun x => emit (f x)) w = (Ok tt, setTrace (fun t => t ++ map f xs) w).
Proof.
  revert w. induction xs as [|x xs IH]; intros w.
  - cbn [forOf map]. rewrite setTrace_id. reflexivity.
  - cbn [forOf map]. cbv [mbind M_bind bind emit modify]. rewrite IH.
    rewrite BridgeFacts.setTrace_setTrace. f_equal.
    apply BridgeFacts.setTrace_ext. intros t. rewrite <- app_assoc. reflexivity.
Qed.

(** A broadcast writes to the viewers of the meeting and does nothing
    else. *)
Lemma broadcastTranscript_run meetingId ev w :
  broadcastTranscript meetingId ev w =
  (Ok tt, setTrace (fun t => t ++ sends (default [] (sseClients w !! meetingId)) ev) w).
Proof.
  cbv [broadcastTranscript mbind M_bind bind get].
  destruct (sseClients w !! meetingId) as [clients|]; cbn [default].
  - apply (forOf_emit (fun client => SseSend client ev)).
  - cbn [sends map]. rewrite setTrace_id. reflexivity.
Qed.

End BroadcastFacts.

(** ** The fragment merger *)

Module MergerFacts.
Import AudioServer BroadcastFacts.

(** The three outcomes of persisting a final event. *)
Lemma saveFinal_run conn meetingId td w :
  saveFinal conn meetingId td w =
  if shouldMerge (cursorOf conn w) td then
    match Prisma.latest (fragmentsOf meetingId (speaker td) w) with
    | Some r =>
        match head (filter (fun x => Transcript.id x = Transcript.id r) (transcripts w)) with
        | Some _ => (Ok tt, moveCursor conn td (setTranscripts (mergedInto r td) w))
        | None => (Throw RecordNotFound, w)
        end
    | None => (Ok tt, moveCursor conn td w)
    end
  else
    (Ok tt,
     moveCursor conn td
       (setTranscripts (fun rows => rows ++ [newFragment (nextId w) meetingId td])
          (setNextId S w))).
Proof.
  cbv [saveFinal mbind M_bind bind readCurrentSession cursorOf moveCursor
         Prisma.transcript_findFirst Prisma.transcript_update Prisma.transcript_create
         fragmentsOf fresh modify mret M_ret ret].
  cbn [setTranscripts setNextId currentSession sessions].
  destruct (currentSession w !! conn) as [ref|] eqn:Hc;
    cbn [option_bind fmap option_fmap option_map snd];
    [destruct (sessions w !! ref) as [s|] eqn:Hs|];
    cbn [option_bind fmap option_fmap option_map snd];
    (match goal with |- context [shouldMerge ?c td] => destruct (shouldMerge c td) end);
    try reflexivity;
    (destruct (Prisma.latest _) as [r|]; [destruct (head _)|]; reflexivity).
Qed.

Lemma handleTranscriptData_run conn meetingId td w :
  handleTranscriptData conn meetingId td w =
  (Ok tt,
   setTrace
     (fun t => t ++ sends (default [] (sseClients (persisted conn meetingId td w) !! meetingId))
                      (EvTranscript (text td) (speaker td) (timestamp td) (isFinal td)))
     (persisted conn meetingId td w)).
Proof.
  cbv [handleTranscriptData mbind M_bind bind persisted exec tryCatch].
  destruct (isFinal td && Js.truthy (Js.trim (text td))).
  - destruct (saveFinal conn meetingId td w) as [[[]|e] w1]; cbv [mret M_ret ret];
      cbn [snd]; apply broadcastTranscript_run.
  - cbv [mret M_ret ret]. apply broadcastTranscript_run.
Qed.

Lemma moveCursor_transcripts conn td w : transcripts (moveCursor conn td w) = transcripts w.
Proof.
  unfold moveCursor. destruct (currentSession w !! conn) as [ref|]; [|reflexivity].
  destruct (sessions w !! ref); reflexivity.
Qed.

(** What persisting an event does to the table: nothing, a merge into a
    row, or a new row. *)
Lemma persisted_transcripts conn meetingId td w :
  transcripts (persisted conn meetingId td w) = transcripts w
  \/ (shouldMerge (cursorOf conn w) td = true /\
      exists r, transcripts (persisted conn meetingId td w) = mergedInto r td (transcripts w))
  \/ (shouldMerge (cursorOf conn w) td = false /\
      transcripts (persisted conn meetingId td w) =
      transcripts w ++ [newFragment (nextId w) meetingId td]).
Proof.
  unfold persisted, exec.
  destruct (isFinal td && Js.truthy (Js.trim (text td))); [|left; reflexivity].
  rewrite saveFinal_run.
  destruct (shouldMerge (cursorOf conn w) td).
  - destruct (Prisma.latest _) as [r|].
    + destruct (head _); [|left; reflexivity].
      right. left. split; [reflexivity|]. exists r. cbn [snd].
      rewrite moveCursor_transcripts. reflexivity.
    + left. cbn [snd]. apply moveCursor_transcripts.
  - right. right. split; [reflexivity|]. cbn [snd].
    rewrite moveCursor_transcripts. reflexivity.
Qed.

(** *** Rows keep their fields other than the text *)

Lemma sameButText_refl r : sameButText r r.
Proof. repeat split. Qed.

Lemma sameButText_trans r1 r2 r3 :
  sameButText r1 r2 -> sameButText r2 r3 -> sameButText r1 r3.
Proof.
  unfold sameButText. intros (?&?&?&?&?) (?&?&?&?&?). repeat split; congruence.
Qed.

Lemma Forall2_sameButText_refl rows : Forall2 sameButText rows rows.
Proof. induction rows; constructor; auto using sameButText_refl. Qed.

Lemma mergedInto_frame r td rows :
  Forall2 (fun x x' => sameButText x x' /\ (Transcript.id x <> Transcript.id r -> x' = x))
    rows (mergedInto r td rows).
Proof.
  induction rows as [|x rows IH]; cbn [mergedInto map]; constructor; [|exact IH].
  case_bool_decide.
  - split; [repeat split|]. intros Hne. contradiction.
  - split; [apply sameButText_refl|reflexivity].
Qed.

Lemma extends_refl rows : extends rows rows.
Proof.
  exists rows, []. rewrite app_nil_r. split; [reflexivity|apply Forall2_sameButText_refl].
Qed.

Lemma extends_trans rows1 rows2 rows3 :
  extends rows1 rows2 -> extends rows2 rows3 -> extends rows1 rows3.
Proof.
  intros (kept & created & -> & H12) (kept' & created' & -> & H23).
  apply Forall2_app_inv_l in H23 as (k1 & k2 & Hk1 & Hk2 & ->).
  exists k1, (k2 ++ created'). rewrite <- app_assoc. split; [reflexivity|].
  clear Hk2. revert k1 Hk1.
  induction H12 as [|x y xs ys Hxy _ IH]; intros k1 Hk1.
  - inversion Hk1. constructor.
  - inversion Hk1 as [|? z ? zs Hyz Hrest]; subst. constructor.
    + eapply sameButText_trans; eassumption.
    + apply IH. assumption.
Qed.

Lemma persisted_extends conn meetingId td w :
  extends (transcripts w) (transcripts (persisted conn meetingId td w)).
Proof.
  destruct (persisted_transcripts conn meetingId td w) as [E|[[_ [r E]]|[_ E]]]; rewrite E.
  - apply extends_refl.
  - exists (mergedInto r td (transcripts w)), []. rewrite app_nil_r.
    split; [reflexivity|].
    eapply Forall2_impl; [apply mergedInto_frame|]. intros x y [H _]. exact H.
  - eexists _, _. split; [reflexivity|apply Forall2_sameButText_refl].
Qed.

Lemma handleTranscriptData_transcripts conn meetingId td w :
  transcripts (exec (handleTranscriptData conn meetingId td) w) =
  transcripts (persisted conn meetingId td w).
Proof. unfold exec. rewrite handleTranscriptData_run. reflexivity. Qed.

Lemma forOf_cons {A} (x : A) xs (body : A -> M unit) w :
  exec (forOf (x :: xs) body) w =
  match body x w with
  | (Ok _, w') => exec (forOf xs body) w'
  | (Throw _, w') => w'
  end.
Proof. cbn [forOf]. apply exec_bind. Qed.

Lemma events_extend conn meetingId tds w :
  extends (transcripts w)
    (transcripts (exec (forOf tds (handleTranscriptData conn meetingId)) w)).
Proof.
  revert w. induction tds as [|td tds IH]; intros w.
  - apply extends_refl.
  - rewrite forOf_cons, handleTranscriptData_run.
    eapply extends_trans; [apply (persisted_extends conn meetingId td w)|].
    eapply extends_trans; [|apply IH]. apply extends_refl.
Qed.

(** *** From the Deepgram event to the normalised event *)

Lemma onTranscript_run env dg data conn meetingId alt w :
  transcriptHandlers w !! dg = Some (conn, meetingId) ->
  firstAlternative data = Some alt ->
  Js.truthy (transcript alt) = true ->
  onTranscript env dg data w =
  handleTranscriptData conn meetingId (transcriptData env data alt) w.
Proof.
  intros Hh Halt Htext. cbv [onTranscript mbind M_bind bind get].
  rewrite Hh, Halt, Htext. reflexivity.
Qed.

(** The timestamp of a normalised event is never zero once the clock is
    past 1970: an offset of zero is replaced by the clock. *)
Lemma transcriptData_timestamp_nonzero env data alt :
  (0 < now env)%Z -> ~ (timestamp (transcriptData env data alt) == 0)%Q.
Proof.
  intros Hnow. cbn [transcriptData timestamp].
  assert (Hclock : ~ (nowSeconds env == 0)%Q).
  { unfold nowSeconds, Qeq, Qdiv, Qmult, Qinv, inject_Z. cbn. lia. }
  destruct (head (default [] (words alt)) ≫= start) as [s|]; [|exact Hclock].
  destruct (Js.truthyNum s) eqn:E; [|exact Hclock].
  unfold Js.truthyNum in E. intros Hz. apply Qeq_bool_iff in Hz.
  rewrite Hz in E. discriminate.
Qed.

(** *** A run of merges *)

Lemma append_assoc (a b c : string) : (a +:+ b) +:+ c = a +:+ b +:+ c.
Proof.
  induction a as [|x a IH]; [reflexivity|].
  change (String x ((a +:+ b) +:+ c) = String x (a +:+ b +:+ c)).
  rewrite IH. reflexivity.
Qed.

Lemma mergedText_prefix a start tds :
  mergedText (a +:+ start) tds = a +:+ mergedText start tds.
Proof.
  revert start. induction tds as [|td tds IH]; intros start; [reflexivity|].
  cbn [mergedText fold_left]. rewrite append_assoc. apply IH.
Qed.

(** Merging one by one gives the texts joined by single spaces. *)
Lemma mergedText_join td tds :
  mergedText (Js.trim (text td)) tds =
  Js.join " " (map (fun td => Js.trim (text td)) (td :: tds)).
Proof.
  revert td. induction tds as [|td' tds IH]; intros td; [reflexivity|].
  cbn [mergedText fold_left]. fold (mergedText (Js.trim (text td) +:+ " " +:+ Js.trim (text td')) tds).
  rewrite !mergedText_prefix, IH. reflexivity.
Qed.

Lemma trim_truthy s : Js.trim s <> "" -> Js.truthy s = true.
Proof. destruct s; [intros H; contradiction H; reflexivity|reflexivity]. Qed.

Lemma truthy_nonempty s : s <> "" -> Js.truthy s = true.
Proof. destruct s; [intros H; contradiction H; reflexivity|reflexivity]. Qed.

Lemma Qlt_bool_true a b : (a < b)%Q -> Qlt_bool a b = true.
Proof.
  intros H. unfold Qlt_bool. destruct (Qle_bool b a) eqn:E; [|reflexivity].
  apply Qle_bool_iff in E. exfalso. exact (Qlt_not_le _ _ H E).
Qed.

Lemma truthyNum_nonzero q : ~ (q == 0)%Q -> Js.truthyNum q = true.
Proof.
  intros H. unfold Js.truthyNum. destruct (Qeq_bool q 0) eqn:E; [|reflexivity].
  apply Qeq_bool_iff in E. contradiction.
Qed.

(** The merge condition of lines 163-170 holds on a cursor of the same
    speaker less than five seconds back. *)
Lemma shouldMerge_same_speaker s sp last td :
  MeetingSession.lastSpeaker s = Some sp ->
  MeetingSession.lastTranscript s = Some (text last) ->
  MeetingSession.lastTimestamp s = Some (timestamp last) ->
  finalOf sp last -> finalOf sp td ->
  (timestamp td - timestamp last < 5)%Q ->
  shouldMerge (Some s) td = true.
Proof.
  intros Hsp Htx Hts (_ & _ & Hlast & Hnz) (_ & Htd & _ & _) Hgap.
  unfold shouldMerge, sameSpeaker, withinMergeWindow, timeSinceLastSegment.
  cbn [mbind option_bind]. rewrite Hsp, Htx, Hts, Htd.
  rewrite bool_decide_eq_true_2 by reflexivity.
  rewrite truthyNum_nonzero by assumption.
  rewrite Qlt_bool_true by assumption.
  cbn [Js.truthyOpt andb]. apply trim_truthy. assumption.
Qed.

Lemma shouldMerge_fresh s td :
  MeetingSession.lastSpeaker s = None -> shouldMerge (Some s) td = false.
Proof.
  intros H. unfold shouldMerge, sameSpeaker. cbn [mbind option_bind]. rewrite H.
  rewrite bool_decide_eq_false_2 by discriminate. reflexivity.
Qed.

Lemma cursorOf_moveCursor conn td w s :
  cursorOf conn w = Some s ->
  cursorOf conn (moveCursor conn td w) = Some (setCursor td s).
Proof.
  unfold cursorOf, moveCursor.
  destruct (currentSession w !! conn) as [ref|] eqn:Hc; cbn [mbind option_bind]; [|discriminate].
  intros Hs. rewrite Hs. cbn [setSessions currentSession sessions].
  rewrite Hc. cbn [mbind option_bind]. rewrite lookup_alter_eq, Hs. reflexivity.
Qed.

Lemma mergedInto_last r td old :
  Forall (fun x => Transcript.id x <> Transcript.id r) old ->
  mergedInto r td (old ++ [r]) =
  old ++ [Prisma.setText (Transcript.text r +:+ " " +:+ Js.trim (text td)) r].
Proof.
  intros Hold. unfold mergedInto. rewrite map_app. cbn [map].
  rewrite bool_decide_eq_true_2 by reflexivity. f_equal.
  induction Hold as [|x old Hx _ IH]; [reflexivity|].
  cbn [map]. rewrite bool_decide_eq_false_2 by assumption. rewrite IH. reflexivity.
Qed.

Lemma setText_setText t t' r : Prisma.setText t (Prisma.setText t' r) = Prisma.setText t r.
Proof. reflexivity. Qed.

Lemma setText_text r : Prisma.setText (Transcript.text r) r = r.
Proof. destruct r. reflexivity. Qed.

(** The events of one speaker on one connection. *)
Section Run.
Variables (conn : nat) (meetingId sp : string).

Lemma persisted_final td w :
  finalOf sp td -> persisted conn meetingId td w = exec (saveFinal conn meetingId td) w.
Proof.
  intros (Hf & _ & Htrim & _). unfold persisted.
  rewrite Hf, truthy_nonempty by assumption. reflexivity.
Qed.

(** One more event of the run is merged into the row. *)
Lemma merging_step old row last td w :
  merging conn meetingId sp old row last w ->
  finalOf sp last -> finalOf sp td ->
  (timestamp td - timestamp last < 5)%Q ->
  merging conn meetingId sp old
    (Prisma.setText (Transcript.text row +:+ " " +:+ Js.trim (text td)) row) td
    (exec (handleTranscriptData conn meetingId td) w).
Proof.
  intros ((s & Hcur & Hsp & Htx & Hts) & Hrows & Hmid & Hrsp & Hold & Hids) Hlast Htd Hgap.
  assert (Hlatest : Prisma.latest (fragmentsOf meetingId (speaker td) w) = Some row).
  { destruct Htd as (_ & -> & _). unfold fragmentsOf.
    rewrite Hrows, filter_app, Hold, filter_cons, filter_nil.
    rewrite decide_True by (split; assumption). reflexivity. }
  destruct (head_filter_exists (fun x => Transcript.id x = Transcript.id row)
              (transcripts w) row) as [x Hx];
    [rewrite Hrows; apply elem_of_app; right; apply list_elem_of_singleton; reflexivity
    |reflexivity|].
  assert (Hrun : persisted conn meetingId td w =
                 moveCursor conn td (setTranscripts (mergedInto row td) w)).
  { rewrite persisted_final by assumption.
    unfold exec. rewrite saveFinal_run, Hcur.
    rewrite (shouldMerge_same_speaker s sp last td) by assumption.
    rewrite Hlatest, Hx. reflexivity. }
  unfold exec. rewrite handleTranscriptData_run, Hrun. cbn [snd].
  destruct Htd as (Hf & Hspk & Htrim & Hnz).
  split; [|split; [|split; [|split; [|split]]]].
  - exists (setCursor td s). split; [|repeat split].
    + apply (cursorOf_moveCursor conn td (setTranscripts _ w) s). exact Hcur.
    + cbn [setCursor MeetingSession.lastSpeaker]. rewrite Hspk. reflexivity.
  - cbn [setTrace transcripts]. rewrite moveCursor_transcripts.
    cbn [setTranscripts transcripts]. rewrite Hrows. apply mergedInto_last. assumption.
  - exact Hmid.
  - exact Hrsp.
  - exact Hold.
  - exact Hids.
Qed.

(** A run of events, each less than five seconds after the one before, is
    merged into the row. *)
Lemma merging_run old row tds : forall last w,
  merging conn meetingId sp old row last w ->
  finalOf sp last -> Forall (finalOf sp) tds -> chained (timestamp last) tds ->
  exists last',
    merging conn meetingId sp old
      (Prisma.setText (mergedText (Transcript.text row) tds) row) last'
      (exec (forOf tds (handleTranscriptData conn meetingId)) w).
Proof.
  revert row. induction tds as [|td tds IH]; intros row last w Hm Hlast Htds Hchain.
  - exists last. cbn [mergedText fold_left]. rewrite setText_text. exact Hm.
  - inversion Htds as [|? ? Htd Hrest]; subst. destruct Hchain as (_ & Hgap & Hchain).
    pose proof (merging_step old row last td w Hm Hlast Htd Hgap) as Hstep.
    rewrite forOf_cons, handleTranscriptData_run.
    unfold exec in Hstep. rewrite handleTranscriptData_run in Hstep. cbn [snd] in Hstep.
    destruct (IH _ td _ Hstep Htd Hrest Hchain) as [last' Hm'].
    exists last'. rewrite setText_setText in Hm'. exact Hm'.
Qed.

(** The first final event of a fresh session makes a new row. *)
Lemma merging_start s td w :
  cursorOf conn w = Some s ->
  MeetingSession.lastSpeaker s = None ->
  idsFresh w ->
  fragmentsOf meetingId sp w = [] ->
  finalOf sp td ->
  merging conn meetingId sp (transcripts w) (newFragment (nextId w) meetingId td) td
    (exec (handleTranscriptData conn meetingId td) w).
Proof.
  intros Hcur Hfresh Hids Hnone Htd.
  assert (Hrun : persisted conn meetingId td w =
                 moveCursor conn td
                   (setTranscripts (fun rows => rows ++ [newFragment (nextId w) meetingId td])
                      (setNextId S w))).
  { rewrite persisted_final by assumption.
    unfold exec. rewrite saveFinal_run, Hcur, shouldMerge_fresh by assumption. reflexivity. }
  unfold exec. rewrite handleTranscriptData_run, Hrun. cbn [snd].
  destruct Htd as (Hf & Hspk & Htrim & Hnz).
  split; [|split; [|split; [|split; [|split]]]].
  - exists (setCursor td s). split; [|repeat split].
    + apply (cursorOf_moveCursor conn td (setTranscripts _ (setNextId S w)) s). exact Hcur.
    + cbn [setCursor MeetingSession.lastSpeaker]. rewrite Hspk. reflexivity.
  - cbn [setTrace transcripts]. rewrite moveCursor_transcripts. reflexivity.
  - reflexivity.
  - cbn [newFragment Transcript.speaker]. rewrite Hspk. reflexivity.
  - exact Hnone.
  - eapply Forall_impl; [exact Hids|]. cbn. intros r Hr. lia.
Qed.

End Run.

(** *** The merge window in double arithmetic *)

Section Rounding.

(** Rounding to the nearest double, by what is used of it: it keeps the
    order and leaves the doubles 5 and 5 - 2^-50 as they are. *)
Variable round : Q -> Q.
Hypothesis round_monotone : forall a b, (a <= b)%Q -> (round a <= round b)%Q.
Hypothesis round_below : (round belowWindow == belowWindow)%Q.
Hypothesis round_five : (round 5 == 5)%Q.

(** A gap of at most 5 - 2^-50 is below 5 after rounding as it is before. *)
Lemma rounded_gap_in_window d :
  (d <= belowWindow)%Q -> Qlt_bool (round d) 5 = true /\ Qlt_bool d 5 = true.
Proof.
  intros Hd. split; apply Qlt_bool_true.
  - eapply Qle_lt_trans; [apply round_monotone, Hd|]. rewrite round_below. reflexivity.
  - eapply Qle_lt_trans; [exact Hd|]. reflexivity.
Qed.

(** A gap of 5 or more is not below 5 after rounding, as it is not before. *)
Lemma rounded_gap_out_of_window d :
  (5 <= d)%Q -> Qlt_bool (round d) 5 = false /\ Qlt_bool d 5 = false.
Proof.
  intros Hd. unfold Qlt_bool. split; apply negb_false_iff, Qle_bool_iff.
  - rewrite <- round_five. apply round_monotone, Hd.
  - exact Hd.
Qed.

End Rounding.

End MergerFacts.

(** ** Transcript events *)

Module TranscriptProperties.
Import AudioServer BroadcastFacts MergerFacts.

(** C10, as stated, fails for the empty text: a final event whose text is
    empty is not broadcast, although a viewer is subscribed; the same event
    with a text of one space is. *)
Lemma empty_final_event_is_not_broadcast :
  sseClients liveSession !! "m1" = Some [7] /\
  exec (onTranscript Scenario.env 0 (finalEvent "" 2)) liveSession = liveSession /\
  trace (exec (onTranscript Scenario.env 0 (finalEvent " " 2)) liveSession) =
    trace liveSession ++ [SseSend 7 (EvTranscript " " "Speaker 0" 2 true)].
Proof. vm_compute. repeat split. Qed.

(** C10, amended: a final event whose text is not empty and consists of
    white space only is broadcast to the viewers of the meeting as a final
    transcript event, and nothing else changes: no row is written and the
    merge cursor of the session stays as it was. A final event whose text is
    empty changes nothing at all and is not broadcast. *)
Theorem blank_final_event_is_only_broadcast env dg data conn meetingId alt w :
  transcriptHandlers w !! dg = Some (conn, meetingId) ->
  firstAlternative data = Some alt ->
  is_final data = Some true ->
  Js.trim (transcript alt) = "" ->
  let td := transcriptData env data alt in
  exec (onTranscript env dg data) w =
  if Js.truthy (transcript alt) then
    setTrace
      (fun t => t ++ sends (default [] (sseClients w !! meetingId))
                       (EvTranscript (transcript alt) (speaker td) (timestamp td) true))
      w
  else w.
Proof.
  intros Hh Halt Hfinal Hblank td.
  unfold exec. cbv [onTranscript mbind M_bind bind get].
  rewrite Hh, Halt.
  destruct (Js.truthy (transcript alt)); [|reflexivity].
  cbv [handleTranscriptData mbind M_bind bind].
  cbn [transcriptData text isFinal]. rewrite Hfinal, Hblank.
  cbn [default from_option id andb Js.truthy].
  cbv [mret M_ret ret]. rewrite broadcastTranscript_run. reflexivity.
Qed.

Lemma blank_final_event_is_only_broadcast_witness :
  exec (onTranscript Scenario.env 0 (finalEvent " " 2)) liveSession =
  setTrace (fun t => t ++ sends [7] (EvTranscript " " "Speaker 0" 2 true)) liveSession.
Proof.
  exact (blank_final_event_is_only_broadcast Scenario.env 0 (finalEvent " " 2) 0 "m1"
           (mkAlternative " " (Some [mkWord (Some 2%Q) (Some 0)])) liveSession
           eq_refl eq_refl eq_refl eq_refl).
Defined.

(** The scenario of the specification, through the Deepgram handler: three
    final events of speaker 0 at 1, 2 and 3 seconds make one row, and an
    event of speaker 1 at 4 seconds makes a second one. *)
Example one_row_per_speaker_turn :
  let speaker1 :=
    mkData (Some (mkChannel
                    (Some [mkAlternative "Agreed" (Some [mkWord (Some 4%Q) (Some 1)])])
                    None))
      None (Some true) in
  let w :=
    exec (forOf [finalEvent "We should" 1; finalEvent "ship Friday" 2;
                 finalEvent "." 3; speaker1]
            (onTranscript Scenario.env 0)) liveSession in
  transcripts w =
  [Transcript.mk 3 "m1" "We should ship Friday ." (Some "Speaker 0") 1 (Some 1%Q);
   Transcript.mk 4 "m1" "Agreed" (Some "Speaker 1") 4 (Some 1%Q)].
Proof. vm_compute. reflexivity. Qed.

(** C9: when the merge condition holds for a final event, handling the
    event leaves every row of the table in place with its id, meeting id,
    speaker, timestamp and confidence, and leaves every row but the one
    merged into (the row of id [target]) as it was; no row is added. The
    events that follow, merged or not, also keep those fields of every row,
    so a row keeps the timestamp it was created with. *)
Theorem merge_changes_only_text conn meetingId td tds w :
  shouldMerge (cursorOf conn w) td = true ->
  let w1 := exec (handleTranscriptData conn meetingId td) w in
  let w2 := exec (forOf tds (handleTranscriptData conn meetingId)) w1 in
  (exists target,
     Forall2 (fun r r' => sameButText r r' /\ (Transcript.id r <> target -> r' = r))
       (transcripts w) (transcripts w1)) /\
  extends (transcripts w) (transcripts w2).
Proof.
  intros Hmerge w1 w2. split.
  - unfold w1. rewrite handleTranscriptData_transcripts.
    destruct (persisted_transcripts conn meetingId td w) as [E|[[_ [r E]]|[Hno _]]].
    + exists 0. rewrite E. clear E.
      induction (transcripts w) as [|x rows IH]; constructor;
        [split; [apply sameButText_refl|reflexivity]|exact IH].
    + exists (Transcript.id r). rewrite E. apply mergedInto_frame.
    + congruence.
  - eapply extends_trans; [|apply events_extend].
    unfold w1. rewrite handleTranscriptData_transcripts. apply persisted_extends.
Qed.

Lemma merge_changes_only_text_witness :
  let w1 := exec (handleTranscriptData 0 "m1" (said "ship Friday" 2)) afterFirst in
  let w2 := exec (forOf [said "." 3] (handleTranscriptData 0 "m1")) w1 in
  (exists target,
     Forall2 (fun r r' => sameButText r r' /\ (Transcript.id r <> target -> r' = r))
       (transcripts afterFirst) (transcripts w1)) /\
  extends (transcripts afterFirst) (transcripts w2).
Proof.
  apply (merge_changes_only_text 0 "m1" (said "ship Friday" 2) [said "." 3] afterFirst).
  vm_compute. reflexivity.
Defined.

(** C2, as stated, fails: a sequence of one final event whose text is a
    single space, processed from a fresh session, leaves the table without
    any row, where the claim has one row. *)
Lemma blank_final_event_makes_no_fragment :
  cursorOf 0 liveSession =
    Some (MeetingSession.mk "bot_1" "m1" 0 (Some 2) None None None) /\
  transcripts liveSession = [] /\
  isFinal (said " " 1) = true /\
  fragmentsOf "m1" "Speaker 0"
    (exec (forOf [said " " 1] (handleTranscriptData 0 "m1")) liveSession) = [].
Proof. vm_compute. repeat split. Qed.

(** A run of merges from a fresh session, for exact gaps below five
    seconds. *)
Lemma same_speaker_run_fragment conn meetingId sp s td tds w :
  cursorOf conn w = Some s ->
  freshCursor s ->
  idsFresh w ->
  fragmentsOf meetingId sp w = [] ->
  Forall (finalOf sp) (td :: tds) ->
  chained (timestamp td) tds ->
  fragmentsOf meetingId sp
    (exec (forOf (td :: tds) (handleTranscriptData conn meetingId)) w) =
  [Transcript.mk (nextId w) meetingId
     (Js.join " " (map (fun td => Js.trim (text td)) (td :: tds)))
     (Some sp) (Qfloor (timestamp td)) (Some 1%Q)].
Proof.
  intros Hcur (Hfresh & _ & _) Hids Hnone Hall Hchain.
  inversion Hall as [|? ? Htd Htds]; subst.
  pose proof (merging_start conn meetingId sp s td w Hcur Hfresh Hids Hnone Htd) as Hstart.
  rewrite forOf_cons, handleTranscriptData_run.
  unfold exec in Hstart. rewrite handleTranscriptData_run in Hstart. cbn [snd] in Hstart.
  destruct (merging_run conn meetingId sp _ _ tds td _ Hstart Htd Htds Hchain)
    as (last' & _ & Hrows & Hmid & Hsp & Hold & _).
  unfold fragmentsOf. rewrite Hrows, filter_app.
  unfold fragmentsOf in Hnone. rewrite Hnone, filter_cons, filter_nil.
  rewrite decide_True by (split; assumption).
  cbn [newFragment Transcript.text Prisma.setText Transcript.id Transcript.meetingId
         Transcript.speaker Transcript.timestamp Transcript.confidence app].
  rewrite mergedText_join. destruct Htd as (_ & <- & _). reflexivity.
Qed.

Lemma closelyChained_chained tds : forall prev,
  closelyChained prev tds -> chained prev tds.
Proof.
  induction tds as [|td rest IH]; intros prev H; [exact I|].
  destruct H as (Hlt & Hgap & Hrest). cbn [chained].
  split; [exact Hlt|]. split; [|apply IH, Hrest].
  eapply Qle_lt_trans; [exact Hgap|]. reflexivity.
Qed.

(** C2, amended: take a session that has not seen a final event, a table
    whose ids were drawn from the counter and that has no row of the speaker
    in the meeting, and a non-empty sequence of final events of that
    speaker, each with an ASCII text of which something is left after
    trimming and a timestamp that is not zero, each after the one before it
    by at most 5 - 2^-50 seconds (the largest double below 5, so that the gap
    is below 5 as the code computes it in double arithmetic). After the
    sequence the table has exactly one row of the speaker in the meeting:
    its text is the trimmed texts joined by single spaces, in order, and its
    timestamp is the floor of the first event's. *)
Theorem same_speaker_run_makes_one_fragment conn meetingId sp s td tds w :
  cursorOf conn w = Some s ->
  freshCursor s ->
  idsFresh w ->
  fragmentsOf meetingId sp w = [] ->
  Forall (asciiFinalOf sp) (td :: tds) ->
  closelyChained (timestamp td) tds ->
  fragmentsOf meetingId sp
    (exec (forOf (td :: tds) (handleTranscriptData conn meetingId)) w) =
  [Transcript.mk (nextId w) meetingId
     (Js.join " " (map (fun td => Js.trim (text td)) (td :: tds)))
     (Some sp) (Qfloor (timestamp td)) (Some 1%Q)].
Proof.
  intros Hcur Hfresh Hids Hnone Hall Hchain.
  apply (same_speaker_run_fragment conn meetingId sp s td tds w Hcur Hfresh Hids Hnone).
  - eapply Forall_impl; [exact Hall|]. intros x [Hx _]. exact Hx.
  - apply closelyChained_chained, Hchain.
Qed.

Lemma same_speaker_run_makes_one_fragment_witness :
  fragmentsOf "m1" "Speaker 0"
    (exec (forOf [said "We should" 1; said " ship Friday" 2; said "." 3]
             (handleTranscriptData 0 "m1")) liveSession) =
  [Transcript.mk 3 "m1" "We should ship Friday ." (Some "Speaker 0") 1 (Some 1%Q)].
Proof.
  apply (same_speaker_run_makes_one_fragment 0 "m1" "Speaker 0"
           (MeetingSession.mk "bot_1" "m1" 0 (Some 2) None None None)
           (said "We should" 1) [said " ship Friday" 2; said "." 3] liveSession).
  - vm_compute. reflexivity.
  - repeat split.
  - constructor.
  - vm_compute. reflexivity.
  - repeat constructor; try discriminate; vm_compute; congruence.
  - repeat split; vm_compute; congruence.
Defined.

End TranscriptProperties.

(** ** The bot service *)

Module BotServiceFacts.
Import BotService.

(** [processMeeting] on a meeting without transcript. *)
Lemma processMeeting_empty env meetingId meeting w :
  head (filter (fun m => Meeting.id m = meetingId) (meetings w)) = Some meeting ->
  transcriptOf meetingId w = [] ->
  processMeeting env meetingId w =
  (Ok tt, setMeetings (Prisma.updateWhere meetingId (withStatus completed)) w).
Proof.
  intros Hm Hrows.
  cbv [processMeeting tryCatch mbind M_bind bind Prisma.meeting_findUnique
         Prisma.transcript_findMany].
  unfold transcriptOf in Hrows. rewrite Hm, Hrows.
  rewrite (meeting_update_found _ _ _ meeting) by assumption. reflexivity.
Qed.

(** [stopBot] when the meeting exists and MeetingBaas answers. *)
Lemma stopBot_run env meetingId meeting w :
  head (filter (fun m => Meeting.id m = meetingId) (meetings w)) = Some meeting ->
  stopBotCall env = Ok tt ->
  stopBot env meetingId w =
  (Ok tt,
   setTrace (fun t => t ++ stopCalls meeting w
                        ++ sends (default [] (sseClients w !! meetingId))
                             (EvStatus processing (now env))
                        ++ [StartProcessMeeting meetingId])
     (setMeetings (Prisma.updateWhere meetingId (stoppedData env meeting))
        (setBotIds (fun ids => if bool_decide (stopCalls meeting w = [])
                               then ids else delete meetingId ids) w))).
Proof.
  intros Hm Hcall.
  assert (Hid : Meeting.id meeting = meetingId) by (apply head_filter_holds in Hm; exact Hm).
  cbv [stopBot tryCatch mbind M_bind bind Prisma.meeting_findUnique get].
  rewrite Hm. unfold stopCalls. rewrite Hid.
  destruct (Js.orElse (botIds w !! meetingId) (Meeting.zoomMeetingId meeting)) as [b|];
    [destruct (Js.truthy b)|].
  - cbv [emit modify call mbind M_bind bind]. rewrite Hcall.
    cbv [mret M_ret ret].
    erewrite meeting_update_found by (cbn [setBotIds setTrace meetings]; exact Hm).
    unfold AudioServer.broadcastToMeeting.
    rewrite BroadcastFacts.broadcastTranscript_run.
    cbn [setMeetings setBotIds setTrace sseClients].
    rewrite bool_decide_eq_false_2 by discriminate.
    f_equal. unfold setTrace, setMeetings, setBotIds. cbn.
    rewrite <- !app_assoc; reflexivity.
  - cbv [mret M_ret ret emit modify].
    erewrite meeting_update_found by exact Hm.
    unfold AudioServer.broadcastToMeeting.
    rewrite BroadcastFacts.broadcastTranscript_run.
    cbn [setMeetings sseClients app].
    rewrite bool_decide_eq_true_2 by reflexivity.
    f_equal. unfold setTrace, setMeetings, setBotIds. cbn.
    rewrite <- !app_assoc; reflexivity.
  - cbv [mret M_ret ret emit modify].
    erewrite meeting_update_found by exact Hm.
    unfold AudioServer.broadcastToMeeting.
    rewrite BroadcastFacts.broadcastTranscript_run.
    cbn [setMeetings sseClients app].
    rewrite bool_decide_eq_true_2 by reflexivity.
    f_equal. unfold setTrace, setMeetings, setBotIds. cbn.
    rewrite <- !app_assoc; reflexivity.
Qed.

(** [stopBot] when MeetingBaas refuses the stop call: the error of the call
    is thrown again by the [catch] block, before anything is written. *)
Lemma stopBot_refused env meetingId meeting b e w :
  head (filter (fun m => Meeting.id m = meetingId) (meetings w)) = Some meeting ->
  stopCalls meeting w = [BaasStopBot b] ->
  stopBotCall env = Throw e ->
  stopBot env meetingId w = (Throw e, setTrace (fun t => t ++ [BaasStopBot b]) w).
Proof.
  intros Hm Hcalls Hcall.
  assert (Hid : Meeting.id meeting = meetingId) by (apply head_filter_holds in Hm; exact Hm).
  cbv [stopBot tryCatch mbind M_bind bind Prisma.meeting_findUnique get].
  rewrite Hm. unfold stopCalls in Hcalls. rewrite Hid in Hcalls.
  destruct (Js.orElse (botIds w !! meetingId) (Meeting.zoomMeetingId meeting)) as [b'|];
    [|discriminate].
  destruct (Js.truthy b'); [|discriminate]. injection Hcalls as ->.
  cbv [emit modify call]. rewrite Hcall. reflexivity.
Qed.

End BotServiceFacts.

Module BotServiceProperties.
Import BotService BotServiceFacts.

Lemma updateWhere_found id f ms m :
  (forall m, Meeting.id (f m) = Meeting.id m) ->
  head (filter (fun m => Meeting.id m = id) ms) = Some m ->
  head (filter (fun m => Meeting.id m = id) (Prisma.updateWhere id f ms)) = Some (f m).
Proof.
  intros Hf H. rewrite updateWhere_findUnique, H by assumption. cbn.
  apply head_filter_holds in H. rewrite bool_decide_eq_true_2 by assumption.
  reflexivity.
Qed.

(** C5, as stated, fails: a meeting that is being recorded has no
    transcript and MeetingBaas refuses the stop call; [stopBot] throws the
    error of the call, the meeting is still recording, not completed, and the
    final processing was not started. *)
Lemma refused_stop_leaves_meeting_recording :
  let w1 := exec (stopBot Scenario.envDown "m1") silentMeeting in
  transcripts silentMeeting = [] /\
  statusOf "m1" silentMeeting = Some recording /\
  result (stopBot Scenario.envDown "m1") silentMeeting = Throw (ProviderError "503") /\
  statusOf "m1" w1 = Some recording /\
  newEffects silentMeeting w1 = [BaasStopBot "bot_1"].
Proof. vm_compute. repeat split. Qed.

(** C5, amended: when the meeting has no transcript and MeetingBaas answers
    the stop call, [stopBot] returns success with the meeting in processing;
    it has made the stop call if a bot id is known, sent the processing
    status to the viewers and, last, started the final processing. The
    processing so started returns success and leaves the meeting completed,
    with the summary and the summary history it had, no action item created
    and nothing more sent. When MeetingBaas refuses the stop call, [stopBot]
    throws the error of the call instead: nothing is written and the final
    processing is not started. *)
Theorem stop_without_transcript_completes env env' meetingId meeting w :
  head (filter (fun m => Meeting.id m = meetingId) (meetings w)) = Some meeting ->
  transcriptOf meetingId w = [] ->
  stopBotCall env = Ok tt ->
  let w1 := exec (stopBot env meetingId) w in
  let w2 := exec (backgroundProcessing env' meetingId) w1 in
  result (stopBot env meetingId) w = Ok tt /\
  statusOf meetingId w1 = Some processing /\
  newEffects w w1 =
    stopCalls meeting w
    ++ sends (default [] (sseClients w !! meetingId)) (EvStatus processing (now env))
    ++ [StartProcessMeeting meetingId] /\
  result (processMeeting env' meetingId) w1 = Ok tt /\
  statusOf meetingId w2 = Some completed /\
  summaryOf meetingId w2 = Some (Meeting.summary meeting) /\
  historyOf meetingId w2 = Some (Meeting.summaryHistory meeting) /\
  actionItemRows w2 = actionItemRows w /\
  trace w2 = trace w1 /\
  (forall refusing b e,
     stopCalls meeting w = [BaasStopBot b] ->
     stopBotCall refusing = Throw e ->
     stopBot refusing meetingId w =
       (Throw e, setTrace (fun t => t ++ [BaasStopBot b]) w)).
Proof.
  intros Hm Hrows Hcall w1 w2.
  pose proof (stopBot_run env meetingId meeting w Hm Hcall) as Hstop.
  assert (Hm1 : head (filter (fun m => Meeting.id m = meetingId) (meetings w1))
                = Some (stoppedData env meeting meeting)).
  { unfold w1, exec. rewrite Hstop. cbn [snd].
    cbn [setTrace setMeetings setBotIds meetings].
    apply updateWhere_found; [reflexivity|exact Hm]. }
  assert (Hrows1 : transcriptOf meetingId w1 = []).
  { unfold w1, exec. rewrite Hstop. exact Hrows. }
  pose proof (processMeeting_empty env' meetingId _ w1 Hm1 Hrows1) as Hproc.
  assert (Hw2 : w2 = setMeetings (Prisma.updateWhere meetingId (withStatus completed)) w1).
  { unfold w2, exec, backgroundProcessing, tryCatch. rewrite Hproc. reflexivity. }
  assert (Hm2 : head (filter (fun m => Meeting.id m = meetingId) (meetings w2))
                = Some (withStatus completed (stoppedData env meeting meeting))).
  { rewrite Hw2. cbn [setMeetings meetings].
    apply updateWhere_found; [reflexivity|exact Hm1]. }
  split; [unfold result; rewrite Hstop; reflexivity|].
  split; [unfold statusOf; rewrite Hm1; reflexivity|].
  split.
  { unfold w1, exec, newEffects. rewrite Hstop.
    cbn [snd setTrace setMeetings setBotIds trace]. apply drop_app_length. }
  split; [unfold result; rewrite Hproc; reflexivity|].
  split; [unfold statusOf; rewrite Hm2; reflexivity|].
  split; [unfold summaryOf; rewrite Hm2; reflexivity|].
  split; [unfold historyOf; rewrite Hm2; reflexivity|].
  split; [rewrite Hw2; unfold w1, exec; rewrite Hstop; reflexivity|].
  split; [rewrite Hw2; reflexivity|].
  intros refusing b e Hcalls Hrefused.
  exact (stopBot_refused refusing meetingId meeting b e w Hm Hcalls Hrefused).
Qed.

Lemma stop_without_transcript_completes_witness :
  let w1 := exec (stopBot Scenario.env "m1") silentMeeting in
  let w2 := exec (backgroundProcessing Scenario.env "m1") w1 in
  result (stopBot Scenario.env "m1") silentMeeting = Ok tt /\
  statusOf "m1" w1 = Some processing /\
  newEffects silentMeeting w1 =
    stopCalls (Scenario.meeting recording) silentMeeting
    ++ sends (default [] (sseClients silentMeeting !! "m1"))
         (EvStatus processing (now Scenario.env))
    ++ [StartProcessMeeting "m1"] /\
  result (processMeeting Scenario.env "m1") w1 = Ok tt /\
  statusOf "m1" w2 = Some completed /\
  summaryOf "m1" w2 = Some (Meeting.summary (Scenario.meeting recording)) /\
  historyOf "m1" w2 = Some (Meeting.summaryHistory (Scenario.meeting recording)) /\
  actionItemRows w2 = actionItemRows silentMeeting /\
  trace w2 = trace w1 /\
  (forall refusing b e,
     stopCalls (Scenario.meeting recording) silentMeeting = [BaasStopBot b] ->
     stopBotCall refusing = Throw e ->
     stopBot refusing "m1" silentMeeting =
       (Throw e, setTrace (fun t => t ++ [BaasStopBot b]) silentMeeting)).
Proof.
  apply (stop_without_transcript_completes Scenario.env Scenario.env "m1"
           (Scenario.meeting recording) silentMeeting); vm_compute; reflexivity.
Defined.

(** C6: when the meeting has a URL and the bot-creation call to
    MeetingBaas fails, [startBot] leaves the meeting in the failed status
    and throws the error of the call; the sessions, the session registry,
    the connections' current sessions, the timers and the bot ids are as
    before, so no session is created and no summary timer is started. *)
Theorem failed_bot_creation_marks_failed env meetingId meeting url e w :
  head (filter (fun m => Meeting.id m = meetingId) (meetings w)) = Some meeting ->
  Meeting.zoomJoinUrl meeting = Some url ->
  Js.truthy url = true ->
  createBot env = Throw e ->
  let w' := exec (startBot env meetingId) w in
  result (startBot env meetingId) w = Throw e /\
  statusOf meetingId w' = Some failed /\
  sessions w' = sessions w /\
  activeSessions w' = activeSessions w /\
  currentSession w' = currentSession w /\
  transcriptHandlers w' = transcriptHandlers w /\
  intervals w' = intervals w /\
  botIds w' = botIds w /\
  trace w' = trace w ++ [BaasCreateBot url].
Proof.
  intros Hm Hurl Htruthy Hcall w'.
  assert (Hrun : startBot env meetingId w =
                 (Throw e,
                  setMeetings (Prisma.updateWhere meetingId (withStatus failed))
                    (setTrace (fun t => t ++ [BaasCreateBot url]) w))).
  { cbv [startBot tryCatch mbind M_bind bind Prisma.meeting_findUnique].
    rewrite Hm. cbn [option_bind]. rewrite Hurl, Htruthy.
    cbv [emit modify call]. rewrite Hcall. cbv [throw].
    erewrite meeting_update_found by (cbn [setTrace meetings]; exact Hm).
    reflexivity. }
  unfold w', exec, result. rewrite Hrun. cbn [fst snd].
  split; [reflexivity|]. split; [|repeat split].
  unfold statusOf. cbn [setMeetings setTrace meetings].
  rewrite (updateWhere_found _ _ _ meeting) by (auto; reflexivity). reflexivity.
Qed.

Lemma failed_bot_creation_marks_failed_witness :
  let w := initialWorld [Scenario.meeting scheduled] in
  let w' := exec (startBot Scenario.envDown "m1") w in
  result (startBot Scenario.envDown "m1") w = Throw (ProviderError "503") /\
  statusOf "m1" w' = Some failed /\
  sessions w' = sessions w /\
  activeSessions w' = activeSessions w /\
  currentSession w' = currentSession w /\
  transcriptHandlers w' = transcriptHandlers w /\
  intervals w' = intervals w /\
  botIds w' = botIds w /\
  trace w' = trace w ++ [BaasCreateBot "https://zoom.us/j/1"].
Proof.
  exact (failed_bot_creation_marks_failed Scenario.envDown "m1"
           (Scenario.meeting scheduled) "https://zoom.us/j/1" (ProviderError "503")
           (initialWorld [Scenario.meeting scheduled]) eq_refl eq_refl eq_refl eq_refl).
Defined.

End BotServiceProperties.

(** ** The summary job *)

Module SummaryFacts.
Import AudioServer.

Lemma withItems_nil w : withItems [] w = w.
Proof.
  destruct w. unfold withItems, setActionItemRows, setNextId. cbn.
  rewrite app_nil_r, Nat.add_0_r. reflexivity.
Qed.

Lemma withItems_cons a created w :
  withItems created (setActionItemRows (fun rows => rows ++ [a]) (setNextId S w)) =
  withItems (a :: created) w.
Proof.
  unfold withItems, setActionItemRows, setNextId. cbn.
  rewrite <- app_assoc, Nat.add_succ_r. reflexivity.
Qed.

Lemma findFirst_None_not_key meetingId title rows :
  head (filter (fun a => ActionItem.meetingId a = meetingId /\ ActionItem.title a = title)
          rows) = None ->
  (meetingId, title) ∉ itemKeys rows.
Proof.
  induction rows as [|a rows IH]; [intros _; apply not_elem_of_nil|].
  rewrite filter_cons. destruct (decide _) as [Ha|Ha]; [discriminate|].
  intros Hnone. cbn [itemKeys map]. rewrite not_elem_of_cons. split; [|auto].
  intros [= H1 H2]. apply Ha. auto.
Qed.

(** Saving the action items of a summary adds pending items of the
    meeting, never one whose title the meeting already has. *)
Lemma saveActionItems_run meetingId items : forall w,
  exists created,
    saveActionItems meetingId items w = (Ok tt, withItems created w) /\
    Forall (pendingOf meetingId) created /\
    (NoDup (itemKeys (actionItemRows w)) ->
     NoDup (itemKeys (actionItemRows w ++ created))).
Proof.
  unfold saveActionItems.
  set (body := fun item : string => tryCatch _ _).
  induction items as [|item items IH]; intros w.
  - exists []. rewrite withItems_nil, app_nil_r. repeat split; auto.
  - destruct (head (filter (fun a => ActionItem.meetingId a = meetingId
                                     /\ ActionItem.title a = item)
                      (actionItemRows w))) as [found|] eqn:Hfind.
    + assert (Hbody : body item w = (Ok tt, w)).
      { subst body. cbv [mbind M_bind bind tryCatch Prisma.actionItem_findFirst].
        rewrite Hfind. reflexivity. }
      destruct (IH w) as (created & Hrun & Hpend & Hnodup).
      exists created. split; [|split; assumption].
      cbn [forOf]. cbv [mbind M_bind bind]. rewrite Hbody. exact Hrun.
    + set (a := ActionItem.mk (nextId w) meetingId item "pending").
      assert (Hbody : body item w =
                      (Ok tt, setActionItemRows (fun rows => rows ++ [a]) (setNextId S w))).
      { subst body. cbv [mbind M_bind bind tryCatch Prisma.actionItem_findFirst].
        rewrite Hfind. reflexivity. }
      destruct (IH (setActionItemRows (fun rows => rows ++ [a]) (setNextId S w)))
        as (created & Hrun & Hpend & Hnodup).
      exists (a :: created). split; [|split].
      * cbn [forOf]. cbv [mbind M_bind bind]. rewrite Hbody, Hrun, withItems_cons.
        reflexivity.
      * constructor; [split; reflexivity|exact Hpend].
      * intros Hnd. cbn [setActionItemRows setNextId actionItemRows] in Hnodup.
        rewrite <- app_assoc in Hnodup. apply Hnodup.
        unfold itemKeys. rewrite map_app. cbn [map].
        apply NoDup_app. split; [exact Hnd|]. split.
        -- intros k Hk Hin. apply list_elem_of_singleton in Hin. subst k.
           apply (findFirst_None_not_key _ _ _ Hfind). exact Hk.
        -- apply NoDup_singleton.
Qed.

Lemma saveActionItems_exec meetingId items w :
  exists created,
    saveActionItems meetingId items w =
      (Ok tt, exec (saveActionItems meetingId items) w) /\
    exec (saveActionItems meetingId items) w = withItems created w /\
    Forall (pendingOf meetingId) created /\
    (NoDup (itemKeys (actionItemRows w)) ->
     NoDup (itemKeys (actionItemRows w ++ created))).
Proof.
  destruct (saveActionItems_run meetingId items w) as (created & Hrun & Hpend & Hnd).
  exists created. unfold exec. rewrite Hrun. auto.
Qed.

(** A run of the periodic job. *)
Lemma summaryJob_run env meetingId w :
  summaryJob env meetingId w =
  (Ok tt,
   match transcriptOf meetingId w with
   | [] => w
   | rows =>
       match openai env (periodicConversation rows) with
       | Ok summary => afterSummary env meetingId summary w
       | Throw _ => w
       end
   end).
Proof.
  cbv [summaryJob tryCatch mbind M_bind bind Prisma.transcript_findMany].
  fold (transcriptOf meetingId w).
  destruct (transcriptOf meetingId w) as [|row rows] eqn:Hrows; [reflexivity|].
  cbv [OpenAI.generateLiveSummary]. cbn [map].
  fold (periodicConversation (row :: rows)).
  change (Js.join OpenAI.newline _) with (periodicConversation (row :: rows)).
  destruct (openai env (periodicConversation (row :: rows))) as [summary|e];
    [|reflexivity].
  cbv [mret M_ret ret].
  unfold afterSummary.
  assert (Hsave : forall items, exists created,
            saveActionItems meetingId items w = (Ok tt, withItems created w) /\
            exec (saveActionItems meetingId items) w = withItems created w).
  { intros items.
    destruct (saveActionItems_exec meetingId items w) as (created & Hrun & Hexec & _).
    exists created. rewrite Hrun, Hexec. auto. }
  destruct (actionItems summary) as [|item items].
  - rewrite BroadcastFacts.broadcastTranscript_run.
    cbv [Prisma.meeting_findUnique Prisma.meeting_update].
    cbn [setTrace meetings sseClients].
    destruct (head _) as [m|]; reflexivity.
  - destruct (Hsave (item :: items)) as (created & -> & ->).
    rewrite BroadcastFacts.broadcastTranscript_run.
    cbv [Prisma.meeting_findUnique Prisma.meeting_update].
    cbn [withItems setTrace setActionItemRows setNextId meetings sseClients].
    destruct (head _) as [m|]; reflexivity.
Qed.

End SummaryFacts.

Module SummaryProperties.
Import AudioServer SummaryFacts.

Lemma grows_refl w : grows w w.
Proof. split; [auto|]. exists []. rewrite app_nil_r. split; [reflexivity|constructor]. Qed.

Lemma grows_trans w1 w2 w3 : grows w1 w2 -> grows w2 w3 -> grows w1 w3.
Proof.
  intros [Hn12 (c12 & E12 & P12)] [Hn23 (c23 & E23 & P23)]. split; [auto|].
  exists (c12 ++ c23). rewrite E23, E12, <- app_assoc. split; [reflexivity|].
  apply Forall_app. split; assumption.
Qed.

Lemma summaryJob_grows env meetingId w : grows w (exec (summaryJob env meetingId) w).
Proof.
  unfold exec. rewrite summaryJob_run. cbn [snd].
  destruct (transcriptOf meetingId w) as [|row rows]; [apply grows_refl|].
  destruct (openai env _) as [summary|e]; [|apply grows_refl].
  destruct (saveActionItems_exec meetingId (actionItems summary) w)
    as (created & _ & Hexec & Hpend & Hnd).
  assert (Hrows : actionItemRows (afterSummary env meetingId summary w) =
                  actionItemRows w ++ created).
  { unfold afterSummary. rewrite Hexec.
    destruct (head _); reflexivity. }
  split.
  - rewrite Hrows. exact Hnd.
  - exists created. split; [exact Hrows|].
    eapply Forall_impl; [exact Hpend|]. intros a [_ Ha]. exact Ha.
Qed.

Lemma onInterval_run env timer w :
  onInterval env timer w =
  (Ok tt, match intervals w !! timer with
          | Some meetingId => exec (summaryJob env meetingId) w
          | None => w
          end).
Proof.
  cbv [onInterval mbind M_bind bind get].
  destruct (intervals w !! timer) as [meetingId|]; [|reflexivity].
  unfold exec. rewrite summaryJob_run. reflexivity.
Qed.

Lemma runIntervals_grows ticks : forall w, grows w (exec (runIntervals ticks) w).
Proof.
  unfold runIntervals.
  induction ticks as [|[env timer] ticks IH]; intros w; [apply grows_refl|].
  rewrite MergerFacts.forOf_cons. cbn [fst snd]. rewrite onInterval_run.
  eapply grows_trans; [|apply IH].
  destruct (intervals w !! timer); [apply summaryJob_grows|apply grows_refl].
Qed.

(** C8: if no two action items share meeting and title (as in the empty
    table), then after any number of runs of the summary timers, whatever
    titles the model returns in each run, still no two action items share
    meeting and title, and every action item the runs added is pending. *)
Theorem action_items_unique_and_pending ticks w :
  NoDup (itemKeys (actionItemRows w)) ->
  let w' := exec (runIntervals ticks) w in
  NoDup (itemKeys (actionItemRows w')) /\
  exists created,
    actionItemRows w' = actionItemRows w ++ created /\
    Forall (fun a => ActionItem.status a = "pending") created.
Proof.
  intros Hnd w'. destruct (runIntervals_grows ticks w) as [Hkeep Hcreated].
  split; [apply Hkeep; exact Hnd|exact Hcreated].
Qed.

Lemma action_items_unique_and_pending_witness :
  let w' := exec (runIntervals [(Scenario.env, 2); (Scenario.env, 2)]) afterFirst in
  NoDup (itemKeys (actionItemRows w')) /\
  exists created,
    actionItemRows w' = actionItemRows afterFirst ++ created /\
    Forall (fun a => ActionItem.status a = "pending") created.
Proof.
  apply (action_items_unique_and_pending [(Scenario.env, 2); (Scenario.env, 2)] afterFirst).
  vm_compute. constructor.
Defined.

(** The scenario of the specification: the model returns the title "Send
    proposal" twice in each of two runs, and one action item exists. *)
Example send_proposal_once :
  actionItemRows (exec (runIntervals [(Scenario.env, 2); (Scenario.env, 2)]) afterFirst) =
  [ActionItem.mk 4 "m1" "Send proposal" "pending"].
Proof. vm_compute. reflexivity. Qed.

(** The final run of [processMeeting] when the model answers. *)
Lemma processMeeting_run env meetingId meeting row rows summary w :
  head (filter (fun m => Meeting.id m = meetingId) (meetings w)) = Some meeting ->
  transcriptOf meetingId w = row :: rows ->
  openai env (finalConversation (row :: rows)) = Ok summary ->
  BotService.processMeeting env meetingId w =
  (Ok tt,
   setTrace (fun t => t ++ sends (default [] (sseClients w !! meetingId))
                            (EvStatus completed (now env)))
     (setMeetings (Prisma.updateWhere meetingId (finalData (Some summary)))
        (setTrace (fun t => t ++ sends (default [] (sseClients w !! meetingId))
                                 (EvSummary summary (now env) (Some true)))
           w))).
Proof.
  intros Hm Hrows Hai.
  cbv [BotService.processMeeting tryCatch mbind M_bind bind Prisma.meeting_findUnique
         Prisma.transcript_findMany].
  rewrite Hm. fold (transcriptOf meetingId w). rewrite Hrows.
  cbv [OpenAI.generateLiveSummary]. cbn [map].
  change (Js.join OpenAI.newline _) with (finalConversation (row :: rows)).
  rewrite Hai. cbv [mret M_ret ret AudioServer.broadcastToMeeting].
  rewrite BroadcastFacts.broadcastTranscript_run.
  erewrite meeting_update_found by (cbn [setTrace meetings]; exact Hm).
  rewrite BroadcastFacts.broadcastTranscript_run. reflexivity.
Qed.

(** C7, as stated, fails: on a stopped meeting with one row of transcript
    and a model that returns the title "Send proposal", the final run of
    [processMeeting] leaves the summary history empty and creates no action
    item, where the run worded by the specification appends to the history
    and creates the pending item. *)
Lemma final_run_skips_history_and_action_items :
  let final := exec (BotService.processMeeting Scenario.env "m1") stoppedMeeting in
  let specified := exec (specFinalRun Scenario.env "m1") stoppedMeeting in
  summaryOf "m1" final = Some (Some Scenario.summary0) /\
  historyOf "m1" final = Some None /\
  actionItemRows final = [] /\
  summaryOf "m1" specified = Some (Some Scenario.summary0) /\
  historyOf "m1" specified =
    Some (Some [mkEntry 1700000000000 Scenario.summary0]) /\
  actionItemRows specified = [ActionItem.mk 4 "m1" "Send proposal" "pending"].
Proof. vm_compute. repeat split. Qed.

(** C7, amended: when the meeting has a transcript and the model answers,
    the final run of [processMeeting] returns success, persists the answer
    as the meeting's current summary, sets the status to completed and sends
    the viewers a summary event flagged as final, then the completed status.
    It leaves the summary history and the action items as they were. The
    periodic job, run on the same state with the same answer of the model,
    stores the same current summary. *)
Theorem final_run_persists_summary_only env env' meetingId meeting row rows summary w :
  head (filter (fun m => Meeting.id m = meetingId) (meetings w)) = Some meeting ->
  transcriptOf meetingId w = row :: rows ->
  openai env (finalConversation (row :: rows)) = Ok summary ->
  openai env' (periodicConversation (row :: rows)) = Ok summary ->
  let w' := exec (BotService.processMeeting env meetingId) w in
  let clients := default [] (sseClients w !! meetingId) in
  result (BotService.processMeeting env meetingId) w = Ok tt /\
  statusOf meetingId w' = Some completed /\
  summaryOf meetingId w' = Some (Some summary) /\
  historyOf meetingId w' = Some (Meeting.summaryHistory meeting) /\
  actionItemRows w' = actionItemRows w /\
  trace w' = trace w ++ sends clients (EvSummary summary (now env) (Some true))
               ++ sends clients (EvStatus completed (now env)) /\
  summaryOf meetingId (exec (summaryJob env' meetingId) w) = Some (Some summary).
Proof.
  intros Hm Hrows Hai Hai' w' clients.
  pose proof (processMeeting_run env meetingId meeting row rows summary w Hm Hrows Hai)
    as Hrun.
  assert (Hm' : head (filter (fun m => Meeting.id m = meetingId) (meetings w'))
                = Some (finalData (Some summary) meeting)).
  { unfold w', exec. rewrite Hrun. cbn [snd setTrace setMeetings meetings].
    apply BotServiceProperties.updateWhere_found; [reflexivity|exact Hm]. }
  split; [unfold result; rewrite Hrun; reflexivity|].
  split; [unfold statusOf; rewrite Hm'; reflexivity|].
  split; [unfold summaryOf; rewrite Hm'; reflexivity|].
  split; [unfold historyOf; rewrite Hm'; reflexivity|].
  split; [unfold w', exec; rewrite Hrun; reflexivity|].
  split.
  - unfold w', exec. rewrite Hrun. cbn [snd setTrace setMeetings trace].
    rewrite <- app_assoc. reflexivity.
  - unfold exec. rewrite summaryJob_run, Hrows, Hai'. cbn [snd].
    unfold afterSummary. rewrite Hm. unfold summaryOf. cbn [setMeetings meetings].
    rewrite (BotServiceProperties.updateWhere_found _ _ _ meeting); [reflexivity|reflexivity|].
    destruct (saveActionItems_exec meetingId (actionItems summary) w)
      as (created & _ & -> & _).
    exact Hm.
Qed.

Lemma final_run_persists_summary_only_witness :
  let w' := exec (BotService.processMeeting Scenario.env "m1") stoppedMeeting in
  result (BotService.processMeeting Scenario.env "m1") stoppedMeeting = Ok tt /\
  statusOf "m1" w' = Some completed /\
  summaryOf "m1" w' = Some (Some Scenario.summary0) /\
  historyOf "m1" w' = Some None /\
  actionItemRows w' = actionItemRows stoppedMeeting /\
  trace w' = trace stoppedMeeting
               ++ sends [7] (EvSummary Scenario.summary0 1700000000000 (Some true))
               ++ sends [7] (EvStatus completed 1700000000000) /\
  summaryOf "m1" (exec (summaryJob Scenario.env "m1") stoppedMeeting) =
    Some (Some Scenario.summary0).
Proof.
  apply (final_run_persists_summary_only Scenario.env Scenario.env "m1"
           (Meeting.mk "m1" (Some "https://zoom.us/j/1") processing (Some "bot_1")
              (Some 1699999000000%Z) (Some 1700000000000%Z) (Some 1000%Z) None None)
           (Transcript.mk 3 "m1" "We should" (Some "Speaker 0") 1 (Some 1%Q)) []
           Scenario.summary0 stoppedMeeting);
    vm_compute; reflexivity.
Defined.

End SummaryProperties.

(** * Further properties *)

(** ** The subscriber registry *)

Module RegistryProperties.
Import AudioServer BroadcastFacts.

Lemma register_clients meetingId client w meetingId' :
  sseClients (exec (registerSSEClient meetingId client) w) !! meetingId' =
  if decide (meetingId = meetingId') then
    Some (let clients := default [] (sseClients w !! meetingId) in
          if bool_decide (client ∈ clients) then clients else clients ++ [client])
  else sseClients w !! meetingId'.
Proof.
  cbv [exec registerSSEClient modify]. cbn [snd setSseClients sseClients].
  apply lookup_insert.
Qed.

Lemma unregister_clients meetingId client w meetingId' :
  sseClients (exec (unregisterSSEClient meetingId client) w) !! meetingId' =
  if decide (meetingId = meetingId') then
    match sseClients w !! meetingId with
    | Some clients =>
        match filter (fun c => c ≠ client) clients with
        | [] => None
        | rest => Some rest
        end
    | None => None
    end
  else sseClients w !! meetingId'.
Proof.
  cbv [exec unregisterSSEClient modify]. cbn [snd setSseClients sseClients].
  destruct (sseClients w !! meetingId) as [clients|] eqn:Hc.
  - destruct (filter _ clients) as [|c rest] eqn:Hf.
    + rewrite lookup_delete. destruct (decide _); reflexivity.
    + rewrite lookup_insert. destruct (decide _); reflexivity.
  - destruct (decide _) as [<-|]; [exact Hc|reflexivity].
Qed.

Lemma register_keeps_ok meetingId client w :
  registryOk w -> registryOk (exec (registerSSEClient meetingId client) w).
Proof.
  intros Hok m clients. rewrite register_clients.
  destruct (decide (meetingId = m)) as [<-|]; [|apply Hok].
  intros [= <-]. destruct (sseClients w !! meetingId) as [cs|] eqn:Hcs; cbn [default].
  - destruct (Hok _ _ Hcs) as [Hne Hnd]. case_bool_decide as Hin; [auto|].
    split; [intros H; apply app_eq_nil in H as [_ H]; discriminate|].
    apply NoDup_app. split_and!; [exact Hnd| |apply NoDup_singleton].
    intros x Hx Hx'. apply list_elem_of_singleton in Hx'. subst x. contradiction.
  - rewrite bool_decide_eq_false_2 by apply not_elem_of_nil.
    split; [discriminate|apply NoDup_singleton].
Qed.

Lemma unregister_keeps_ok meetingId client w :
  registryOk w -> registryOk (exec (unregisterSSEClient meetingId client) w).
Proof.
  intros Hok m clients. rewrite unregister_clients.
  destruct (decide (meetingId = m)) as [<-|]; [|apply Hok].
  destruct (sseClients w !! meetingId) as [cs|] eqn:Hcs; [|discriminate].
  destruct (filter _ cs) as [|c rest] eqn:Hf; [discriminate|].
  intros [= <-]. split; [discriminate|].
  rewrite <- Hf. apply NoDup_filter. apply (Hok _ _ Hcs).
Qed.

Lemma initial_registry_ok ms : registryOk (initialWorld ms).
Proof.
  intros meetingId clients H. cbn [initialWorld sseClients] in H.
  rewrite lookup_empty in H. discriminate.
Qed.

Lemma subscriptions_keep_ok ops : forall w,
  registryOk w -> registryOk (exec (forOf ops subscription) w).
Proof.
  induction ops as [|op ops IH]; intros w Hok; [exact Hok|].
  rewrite MergerFacts.forOf_cons.
  assert (Hstep : subscription op w = (Ok tt, exec (subscription op) w))
    by (destruct op; reflexivity).
  rewrite Hstep. apply IH.
  destruct op; [apply register_keeps_ok|apply unregister_keeps_ok]; exact Hok.
Qed.

(** X1: the registry never holds an empty set of subscribers, and never
    lists a subscriber twice: when this holds (as it does in the empty
    registry) it still holds after any subscriptions and unsubscriptions, in
    any order. *)
Theorem registry_sets_nonempty_and_duplicate_free ops w :
  registryOk w -> registryOk (exec (forOf ops subscription) w).
Proof. apply subscriptions_keep_ok. Qed.

Lemma registry_sets_nonempty_and_duplicate_free_witness :
  registryOk
    (exec (forOf [Subscribe "m1" 7; Subscribe "m1" 7; Subscribe "m1" 8; Unsubscribe "m1" 7]
             subscription) (initialWorld [])).
Proof.
  apply (registry_sets_nonempty_and_duplicate_free
           [Subscribe "m1" 7; Subscribe "m1" 7; Subscribe "m1" 8; Unsubscribe "m1" 7]
           (initialWorld [])).
  apply initial_registry_ok.
Defined.

Lemma filter_other_clients (client : nat) (clients : list nat) :
  client ∉ clients -> filter (fun c => c ≠ client) clients = clients.
Proof.
  induction clients as [|c clients IH]; [reflexivity|].
  rewrite not_elem_of_cons. intros [Hne Hnot].
  rewrite filter_cons, decide_True by congruence. rewrite IH by assumption. reflexivity.
Qed.

Lemma setSseClients_id f w :
  f (sseClients w) = sseClients w -> setSseClients f w = w.
Proof. intros H. destruct w. unfold setSseClients. cbn in *. rewrite H. reflexivity. Qed.

(** X2: for a client that is not subscribed to the meeting, subscribing and
    then calling the function the subscription returned leaves the process
    as it was: the set of the meeting is as before, and is dropped again if
    the client was its only member. Unsubscribing a client that is not
    subscribed changes nothing. *)
Theorem subscribe_then_unsubscribe_restores meetingId client w :
  registryOk w ->
  client ∉ default [] (sseClients w !! meetingId) ->
  exec (unregisterSSEClient meetingId client)
    (exec (registerSSEClient meetingId client) w) = w /\
  exec (unregisterSSEClient meetingId client) w = w.
Proof.
  intros Hok Hnot.
  cbv [exec registerSSEClient unregisterSSEClient modify]. cbn [snd].
  split.
  - change (setSseClients ?f (setSseClients ?g w)) with (setSseClients (fun m => f (g m)) w).
    apply setSseClients_id. rewrite lookup_insert_eq.
    destruct (sseClients w !! meetingId) as [clients|] eqn:Hc; cbn [default] in *.
    + rewrite bool_decide_eq_false_2 by assumption.
      rewrite filter_app, filter_other_clients by assumption.
      rewrite filter_cons, decide_False, filter_nil, app_nil_r by (intros H; apply H; reflexivity).
      destruct (Hok _ _ Hc) as [Hne _].
      destruct clients as [|c clients]; [contradiction|]. cbn [id].
      rewrite insert_insert_eq. apply insert_id. exact Hc.
    + rewrite bool_decide_eq_false_2 by apply not_elem_of_nil. cbn [app].
      rewrite filter_cons, decide_False, filter_nil by (intros H; apply H; reflexivity).
      apply delete_insert_id. exact Hc.
  - apply setSseClients_id.
    destruct (sseClients w !! meetingId) as [clients|] eqn:Hc; cbn [default] in *;
      [|reflexivity].
    rewrite filter_other_clients by assumption.
    destruct (Hok _ _ Hc) as [Hne _].
    destruct clients as [|c clients]; [contradiction|].
    apply insert_id. exact Hc.
Qed.

Lemma subscribe_then_unsubscribe_restores_witness :
  let w := exec (registerSSEClient "m1" 7) (initialWorld []) in
  exec (unregisterSSEClient "m1" 8) (exec (registerSSEClient "m1" 8) w) = w /\
  exec (unregisterSSEClient "m1" 8) w = w.
Proof.
  apply subscribe_then_unsubscribe_restores.
  - apply register_keeps_ok, initial_registry_ok.
  - vm_compute. intros H. inversion H as [|? ? ? H']; inversion H'.
Defined.

Lemma deliveries_sends (client : nat) ev (clients : list nat) :
  NoDup clients ->
  deliveries client ev (sends clients ev) = if bool_decide (client ∈ clients) then 1 else 0.
Proof.
  unfold deliveries, sends. induction 1 as [|c clients Hc Hnd IH].
  - rewrite bool_decide_eq_false_2 by apply not_elem_of_nil. reflexivity.
  - cbn [map]. rewrite filter_cons. destruct (decide (SseSend c ev = SseSend client ev)) as [E|E].
    + injection E as ->. cbn [length]. rewrite IH.
      rewrite bool_decide_eq_false_2 by assumption.
      rewrite bool_decide_eq_true_2 by left. reflexivity.
    + rewrite IH. assert (c <> client) by congruence.
      destruct (bool_decide (client ∈ clients)) eqn:Hin.
      * apply bool_decide_eq_true_1 in Hin.
        rewrite bool_decide_eq_true_2 by (right; assumption). reflexivity.
      * apply bool_decide_eq_false_1 in Hin.
        rewrite bool_decide_eq_false_2; [reflexivity|].
        rewrite not_elem_of_cons. auto.
Qed.

(** X3: a broadcast to a meeting sends the event exactly once to every
    client subscribed to the meeting and to no other client, whatever the
    subscriptions and unsubscriptions before; it makes no other call and
    changes nothing else. *)
Theorem broadcast_reaches_each_subscriber_once meetingId ev client w :
  registryOk w ->
  let w' := exec (broadcastTranscript meetingId ev) w in
  let clients := default [] (sseClients w !! meetingId) in
  deliveries client ev (newEffects w w') = (if bool_decide (client ∈ clients) then 1 else 0) /\
  newEffects w w' = sends clients ev /\
  w' = setTrace (fun t => t ++ newEffects w w') w.
Proof.
  intros Hok w' clients.
  assert (Hw' : w' = setTrace (fun t => t ++ sends clients ev) w)
    by (unfold w', exec; rewrite broadcastTranscript_run; reflexivity).
  assert (Hnew : newEffects w w' = sends clients ev).
  { unfold newEffects. rewrite Hw'. cbn [setTrace trace]. apply drop_app_length. }
  rewrite Hnew. split; [|split; [reflexivity|exact Hw']].
  apply deliveries_sends. unfold clients.
  destruct (sseClients w !! meetingId) as [cs|] eqn:Hcs; [apply (Hok _ _ Hcs)|constructor].
Qed.

Lemma broadcast_reaches_each_subscriber_once_witness :
  let w := exec (forOf [Subscribe "m1" 7; Subscribe "m1" 7; Subscribe "m2" 8] subscription)
             (initialWorld []) in
  let ev := EvStatus processing 0 in
  let w' := exec (broadcastTranscript "m1" ev) w in
  deliveries 7 ev (newEffects w w') = 1 /\
  newEffects w w' = sends [7] ev /\
  w' = setTrace (fun t => t ++ newEffects w w') w.
Proof.
  apply (broadcast_reaches_each_subscriber_once "m1" (EvStatus processing 0) 7).
  apply subscriptions_keep_ok, initial_registry_ok.
Defined.

End RegistryProperties.

(** ** The audio bridge *)

Module RelayProperties.
Import AudioServer BroadcastFacts BridgeFacts.

Lemma onAudio_run conn frame w :
  onAudio conn frame w =
  (Ok tt,
   match cursorOf conn w with
   | Some s =>
       if bool_decide (getReadyState (fst frame) = 1)
       then setTrace (fun t => t ++ [DgSend (MeetingSession.deepgramConnection s) (snd frame)]) w
       else w
   | None => w
   end).
Proof.
  cbv [onAudio onMessage tryCatch mbind M_bind bind readCurrentSession cursorOf].
  destruct (currentSession w !! conn) as [ref|]; cbn [option_bind]; [|reflexivity].
  destruct (sessions w !! ref) as [s|]; cbn [option_bind]; [|reflexivity].
  destruct (bool_decide _); reflexivity.
Qed.

(** X4: the audio frames received on a connection are sent on to the
    Deepgram connection of its session unchanged and in the order received,
    except those that arrive while that connection is not open, which are
    dropped; on a connection that has no session yet every frame is dropped.
    Nothing else changes. *)
Theorem audio_is_relayed_in_order conn frames : forall w,
  exec (forOf frames (onAudio conn)) w =
  match cursorOf conn w with
  | Some s => setTrace (fun t => t ++ relayed (MeetingSession.deepgramConnection s) frames) w
  | None => w
  end.
Proof.
  induction frames as [|frame frames IH]; intros w.
  - cbn [forOf relayed filter map]. unfold exec, mret, M_ret, ret. cbn [snd].
    destruct (cursorOf conn w); [rewrite setTrace_id|]; reflexivity.
  - rewrite MergerFacts.forOf_cons, onAudio_run.
    destruct (cursorOf conn w) as [s|] eqn:Hs; [|rewrite IH, Hs; reflexivity].
    unfold relayed. rewrite filter_cons.
    destruct (decide (getReadyState (fst frame) = 1)) as [Hready|Hready].
    + rewrite bool_decide_eq_true_2 by assumption. rewrite IH.
      change (cursorOf conn (setTrace ?f w)) with (cursorOf conn w). rewrite Hs.
      rewrite setTrace_setTrace. apply setTrace_ext. intros t.
      cbn [map]. rewrite <- app_assoc. reflexivity.
    + rewrite bool_decide_eq_false_2 by assumption. rewrite IH, Hs. reflexivity.
Qed.

Lemma onClose_run conn w :
  onClose conn w =
  (Ok tt,
   match cursorOf conn w with
   | Some s =>
       setActiveSessions (delete (MeetingSession.botId s))
         (setIntervals
            (match MeetingSession.summaryInterval s with
             | Some timer => delete timer
             | None => fun m => m
             end)
            (setTrace (fun t => t ++ teardown s) w))
   | None => w
   end).
Proof.
  cbv [onClose mbind M_bind bind readCurrentSession cursorOf teardown emit modify].
  destruct (currentSession w !! conn) as [ref|]; cbn [option_bind]; [|reflexivity].
  destruct (sessions w !! ref) as [s|]; cbn [option_bind]; [|reflexivity].
  destruct (MeetingSession.summaryInterval s) as [timer|]; cbv [mret M_ret ret];
    unfold setActiveSessions, setIntervals, setTrace; cbn;
    rewrite <- ?app_assoc; reflexivity.
Qed.

(** X5: closing a connection that has a session finishes the session's
    Deepgram connection, clears its summary timer, and deletes the registry
    entry of its bot id, whichever session is registered under it; the other
    registry entries and timers, the tables and the session objects stay as
    they were, and the cleared timer firing later starts no summary run. *)
Theorem close_tears_session_down conn s w :
  cursorOf conn w = Some s ->
  let w' := exec (onClose conn) w in
  newEffects w w' = teardown s /\
  activeSessions w' = delete (MeetingSession.botId s) (activeSessions w) /\
  (forall timer,
     intervals w' !! timer =
     if decide (MeetingSession.summaryInterval s = Some timer) then None
     else intervals w !! timer) /\
  (forall env timer,
     MeetingSession.summaryInterval s = Some timer ->
     exec (onInterval env timer) w' = w') /\
  sessions w' = sessions w /\
  meetings w' = meetings w /\ transcripts w' = transcripts w /\
  actionItemRows w' = actionItemRows w.
Proof.
  intros Hs w'.
  assert (Hw' : w' = snd (onClose conn w)) by reflexivity.
  rewrite onClose_run, Hs in Hw'. cbn [snd] in Hw'. rewrite Hw'.
  split; [unfold newEffects; cbn [setActiveSessions setIntervals setTrace trace];
          apply drop_app_length|].
  split; [reflexivity|].
  assert (Htimers : forall timer,
            intervals (setActiveSessions (delete (MeetingSession.botId s))
                         (setIntervals
                            match MeetingSession.summaryInterval s with
                            | Some timer => delete timer
                            | None => fun m => m
                            end (setTrace (fun t => t ++ teardown s) w))) !! timer =
            if decide (MeetingSession.summaryInterval s = Some timer) then None
            else intervals w !! timer).
  { intros timer. cbn [setActiveSessions setIntervals setTrace intervals].
    destruct (MeetingSession.summaryInterval s) as [t|].
    - rewrite lookup_delete.
      destruct (decide (t = timer)) as [->|Hne].
      + rewrite decide_True by reflexivity. reflexivity.
      + rewrite decide_False by congruence. reflexivity.
    - rewrite decide_False by discriminate. reflexivity. }
  split; [exact Htimers|].
  split; [|repeat split].
  intros env timer Ht. unfold exec. rewrite SummaryProperties.onInterval_run.
  rewrite Htimers, decide_True by assumption. reflexivity.
Qed.

Lemma close_tears_session_down_witness :
  let s := MeetingSession.mk "bot_1" "m1" 0 (Some 2) None None None in
  let w' := exec (onClose 0) twoConnections in
  newEffects twoConnections w' = teardown s /\
  activeSessions w' = delete "bot_1" (activeSessions twoConnections) /\
  (forall timer,
     intervals w' !! timer =
     if decide (Some 2 = Some timer) then None else intervals twoConnections !! timer) /\
  (forall env timer, Some 2 = Some timer -> exec (onInterval env timer) w' = w') /\
  sessions w' = sessions twoConnections /\
  meetings w' = meetings twoConnections /\ transcripts w' = transcripts twoConnections /\
  actionItemRows w' = actionItemRows twoConnections.
Proof.
  apply (close_tears_session_down 0 (MeetingSession.mk "bot_1" "m1" 0 (Some 2) None None None)
           twoConnections).
  vm_compute. reflexivity.
Defined.

(** After the second connection took the registry entry of the bot, the
    close of the first connection removes that entry although the second
    session is alive. *)
Example stale_close_unregisters_live_session :
  activeSessions twoConnections !! "bot_1" = Some 4 /\
  cursorOf 1 (exec (onClose 0) twoConnections) =
    Some (MeetingSession.mk "bot_1" "m1" 3 (Some 5) None None None) /\
  activeSessions (exec (onClose 0) twoConnections) !! "bot_1" = None.
Proof. vm_compute. repeat split. Qed.

End RelayProperties.

(** ** Transcript events that are not merged *)

Module FragmentProperties.
Import AudioServer BroadcastFacts BridgeFacts MergerFacts.

Lemma persisted_interim conn meetingId td w :
  isFinal td = false -> persisted conn meetingId td w = w.
Proof. intros H. unfold persisted. rewrite H. reflexivity. Qed.

(** What the handler does with one interim Deepgram event. *)
Lemma onDeepgram_interim dg conn meetingId event w :
  transcriptHandlers w !! dg = Some (conn, meetingId) ->
  interim event ->
  onDeepgram dg event w =
  (Ok tt,
   match shown event with
   | Some ev => setTrace (fun t => t ++ sends (default [] (sseClients w !! meetingId)) ev) w
   | None => w
   end).
Proof.
  intros Hh Hinterim. destruct event as [env data]. unfold interim in Hinterim.
  unfold onDeepgram, shown. cbn [fst snd] in *.
  destruct (firstAlternative data) as [alt|] eqn:Halt; cbn [mbind option_bind].
  - destruct (Js.truthy (transcript alt)) eqn:Htext.
    + rewrite (onTranscript_run env dg data conn meetingId alt w Hh Halt Htext).
      rewrite handleTranscriptData_run.
      rewrite persisted_interim by exact Hinterim.
      cbv zeta. cbn [transcriptData isFinal]. reflexivity.
    + cbv [onTranscript mbind M_bind bind get]. rewrite Hh, Halt, Htext. reflexivity.
  - cbv [onTranscript mbind M_bind bind get]. rewrite Hh, Halt. reflexivity.
Qed.

(** X6: interim events are only shown: of a run of Deepgram events that
    are not final, the handler sends each one whose first alternative has a
    transcript that is not empty, in order, to the viewers of the meeting as
    a transcript event that is not final, and drops the others (no
    alternative, or an empty transcript); nothing else changes: no row is
    written and the merge cursor stays where it was. *)
Theorem interim_events_are_only_broadcast dg conn meetingId events : forall w,
  transcriptHandlers w !! dg = Some (conn, meetingId) ->
  Forall interim events ->
  exec (forOf events (onDeepgram dg)) w =
  setTrace (fun t => t ++ shownTo (default [] (sseClients w !! meetingId)) events) w.
Proof.
  induction events as [|event events IH]; intros w Hh Hall.
  - cbn [forOf shownTo omap list_omap map concat]. rewrite setTrace_id. reflexivity.
  - inversion Hall as [|? ? Hevent Hrest]; subst.
    rewrite forOf_cons, (onDeepgram_interim dg conn meetingId event w Hh Hevent).
    unfold shownTo. cbn [omap list_omap].
    destruct (shown event) as [ev|].
    + rewrite IH by assumption. cbn [setTrace sseClients].
      rewrite setTrace_setTrace. apply setTrace_ext. intros t.
      cbn [map concat]. rewrite <- app_assoc. reflexivity.
    + apply IH; assumption.
Qed.

Lemma interim_events_are_only_broadcast_witness :
  let interimEvent text :=
    (Scenario.env,
     mkData (Some (mkChannel
                     (Some [mkAlternative text (Some [mkWord (Some 1%Q) (Some 0)])])
                     None))
       None None) in
  let events := [interimEvent "We sh"; interimEvent ""; interimEvent "We should"] in
  exec (forOf events (onDeepgram 0)) liveSession =
  setTrace (fun t => t ++ shownTo (default [] (sseClients liveSession !! "m1")) events)
    liveSession.
Proof.
  cbv zeta.
  apply (interim_events_are_only_broadcast 0 0 "m1"); [vm_compute; reflexivity|].
  repeat constructor.
Defined.

(** The run of the witness: three interim events, the second with an empty
    transcript, reach the viewer of the meeting as two transcript events. *)
Example interim_event_without_text_is_dropped :
  let interimEvent text :=
    (Scenario.env,
     mkData (Some (mkChannel
                     (Some [mkAlternative text (Some [mkWord (Some 1%Q) (Some 0)])])
                     None))
       None None) in
  newEffects liveSession
    (exec (forOf [interimEvent "We sh"; interimEvent ""; interimEvent "We should"]
             (onDeepgram 0)) liveSession) =
  [SseSend 7 (EvTranscript "We sh" "Speaker 0" 1 false);
   SseSend 7 (EvTranscript "We should" "Speaker 0" 1 false)].
Proof. vm_compute. reflexivity. Qed.

Lemma moveCursor_nextId conn td w : nextId (moveCursor conn td w) = nextId w.
Proof.
  unfold moveCursor. destruct (currentSession w !! conn) as [ref|]; [|reflexivity].
  destruct (sessions w !! ref); reflexivity.
Qed.

Lemma cursorOf_moveCursor_fmap conn td w :
  cursorOf conn (moveCursor conn td w) = setCursor td <$> cursorOf conn w.
Proof.
  destruct (cursorOf conn w) as [s|] eqn:Hs.
  - apply cursorOf_moveCursor. exact Hs.
  - unfold cursorOf, moveCursor in *.
    destruct (currentSession w !! conn) as [ref|] eqn:Hc; cbn [mbind option_bind] in *.
    + rewrite Hs. rewrite Hc. cbn [mbind option_bind]. rewrite Hs. reflexivity.
    + rewrite Hc. reflexivity.
Qed.

Lemma Qlt_bool_false a b : (b <= a)%Q -> Qlt_bool a b = false.
Proof.
  intros H. unfold Qlt_bool. apply Qle_bool_iff in H. rewrite H. reflexivity.
Qed.

(** The merge condition fails on a cursor that stands on another speaker or
    five seconds or more back. *)
Lemma shouldMerge_separated prev td cs :
  speaker td <> speaker prev \/ (5 <= timestamp td - timestamp prev)%Q ->
  shouldMerge (setCursor prev <$> cs) td = false.
Proof.
  intros Hsep. destruct cs as [s|]; [|reflexivity].
  unfold shouldMerge, sameSpeaker, withinMergeWindow, timeSinceLastSegment.
  cbn [fmap option_fmap option_map mbind option_bind setCursor
         MeetingSession.lastSpeaker MeetingSession.lastTimestamp
         MeetingSession.lastTranscript].
  destruct Hsep as [Hsp|Hgap].
  - rewrite bool_decide_eq_false_2 by congruence. reflexivity.
  - destruct (Js.truthyNum (timestamp prev)).
    + rewrite Qlt_bool_false by assumption. rewrite andb_false_r. reflexivity.
    + rewrite andb_false_r. reflexivity.
Qed.

(** A persisted event that is not merged makes a row. *)
Lemma persisted_create conn meetingId td w :
  persistable td ->
  shouldMerge (cursorOf conn w) td = false ->
  persisted conn meetingId td w =
  moveCursor conn td
    (setTranscripts (fun rows => rows ++ [newFragment (nextId w) meetingId td])
       (setNextId S w)).
Proof.
  intros [Hf Htrim] Hno. unfold persisted, exec.
  rewrite Hf, truthy_nonempty by assumption. cbn [andb].
  rewrite saveFinal_run, Hno. reflexivity.
Qed.

Lemma separate_rows conn meetingId tds : forall td w,
  Forall persistable (td :: tds) ->
  shouldMerge (cursorOf conn w) td = false ->
  separated td tds ->
  let w' := exec (forOf (td :: tds) (handleTranscriptData conn meetingId)) w in
  transcripts w' = transcripts w ++ newFragments (nextId w) meetingId (td :: tds) /\
  nextId w' = nextId w + length (td :: tds).
Proof.
  induction tds as [|td' tds IH]; intros td w Hall Hno Hsep w'.
  - inversion Hall as [|? ? Htd _]; subst. unfold w'.
    rewrite forOf_cons, handleTranscriptData_run, persisted_create by assumption.
    cbn [forOf]. unfold exec, mret, M_ret, ret. cbn [snd setTrace transcripts nextId].
    rewrite moveCursor_transcripts, moveCursor_nextId.
    cbn [setTranscripts setNextId transcripts nextId newFragments length]. split; [reflexivity|lia].
  - inversion Hall as [|? ? Htd Hrest]; subst. destruct Hsep as [Hfirst Hsep].
    unfold w'. rewrite forOf_cons, handleTranscriptData_run.
    rewrite persisted_create by assumption.
    set (w1 := setTrace _ _).
    assert (Hcur : cursorOf conn w1 = setCursor td <$> cursorOf conn w).
    { unfold w1. change (cursorOf conn (setTrace ?f ?x)) with (cursorOf conn x).
      rewrite cursorOf_moveCursor_fmap. reflexivity. }
    assert (Hrows : transcripts w1 = transcripts w ++ [newFragment (nextId w) meetingId td]).
    { unfold w1. cbn [setTrace transcripts]. rewrite moveCursor_transcripts. reflexivity. }
    assert (Hnext : nextId w1 = S (nextId w)).
    { unfold w1. cbn [setTrace nextId]. rewrite moveCursor_nextId. reflexivity. }
    destruct (IH td' w1 Hrest) as [Hrows' Hnext'];
      [rewrite Hcur; apply shouldMerge_separated; exact Hfirst|exact Hsep|].
    rewrite Hrows', Hnext', Hrows, Hnext, <- app_assoc. cbn [length]. split; [reflexivity|lia].
Qed.

(** X7: final events with an ASCII text that are not merged each make a
    row of their own: when something is left of each text after trimming,
    the first event does not meet the merge condition, and every later event
    has another speaker than the one before it or comes five seconds or more
    after it (an exact gap of five or more is five or more in the double
    arithmetic of the code), the table gains one new row per event, in
    order, each with the event's trimmed text, its speaker and the floor of
    its timestamp, and no existing row changes. *)
Theorem separated_events_make_separate_fragments conn meetingId td tds w :
  Forall persistable (td :: tds) ->
  Forall (fun td => isAscii (text td) = true) (td :: tds) ->
  shouldMerge (cursorOf conn w) td = false ->
  separated td tds ->
  transcripts (exec (forOf (td :: tds) (handleTranscriptData conn meetingId)) w) =
  transcripts w ++ newFragments (nextId w) meetingId (td :: tds).
Proof.
  intros Hall _ Hno Hsep. apply (separate_rows conn meetingId tds td w Hall Hno Hsep).
Qed.

Lemma separated_events_make_separate_fragments_witness :
  transcripts
    (exec (forOf [said "We should ship Friday." 1; said "Any objection?" 9;
                  mkTranscriptData " None. " "Speaker 1" 10 true]
             (handleTranscriptData 0 "m1")) liveSession) =
  transcripts liveSession
  ++ newFragments (nextId liveSession) "m1"
       [said "We should ship Friday." 1; said "Any objection?" 9;
        mkTranscriptData " None. " "Speaker 1" 10 true].
Proof.
  apply (separated_events_make_separate_fragments 0 "m1").
  - repeat constructor; discriminate.
  - repeat constructor.
  - vm_compute. reflexivity.
  - split; [right; vm_compute; discriminate|].
    split; [left; discriminate|exact I].
Defined.

(** *** Fragments of other meetings *)

Lemma latest_from acc rows r :
  fold_left
    (fun acc r =>
       match acc with
       | None => Some r
       | Some a =>
           if (Transcript.timestamp a <? Transcript.timestamp r)%Z then Some r else Some a
       end)
    rows acc = Some r ->
  r ∈ rows \/ acc = Some r.
Proof.
  revert acc. induction rows as [|x rows IH]; intros acc H; [right; exact H|].
  cbn [fold_left] in H. apply IH in H as [H|H].
  - left. right. exact H.
  - destruct acc as [a|].
    + destruct (Transcript.timestamp a <? Transcript.timestamp x)%Z.
      * injection H as ->. left. left.
      * right. exact H.
    + injection H as ->. left. left.
Qed.

Lemma latest_elem rows r : Prisma.latest rows = Some r -> r ∈ rows.
Proof. intros H. apply latest_from in H as [H|H]; [exact H|discriminate]. Qed.

(** What persisting an event does to the table and to the counter. *)
Lemma persisted_cases conn meetingId td w :
  let w' := persisted conn meetingId td w in
  (transcripts w' = transcripts w /\ nextId w' = nextId w)
  \/ (exists r, r ∈ transcripts w /\ Transcript.meetingId r = meetingId /\
                transcripts w' = mergedInto r td (transcripts w) /\ nextId w' = nextId w)
  \/ (transcripts w' = transcripts w ++ [newFragment (nextId w) meetingId td] /\
      nextId w' = S (nextId w)).
Proof.
  unfold persisted, exec.
  destruct (isFinal td && Js.truthy (Js.trim (text td))); [|left; split; reflexivity].
  rewrite saveFinal_run.
  destruct (shouldMerge (cursorOf conn w) td).
  - destruct (Prisma.latest _) as [r|] eqn:Hlatest.
    + destruct (head _); [|left; split; reflexivity].
      right. left. exists r. cbn [snd].
      apply latest_elem in Hlatest. unfold fragmentsOf in Hlatest.
      apply list_elem_of_filter in Hlatest as [[Hmid _] Hin].
      rewrite moveCursor_transcripts, moveCursor_nextId. auto.
    + left. cbn [snd]. rewrite moveCursor_transcripts, moveCursor_nextId. auto.
  - right. right. cbn [snd]. rewrite moveCursor_transcripts, moveCursor_nextId. auto.
Qed.

Lemma mergedInto_ids r td rows :
  map Transcript.id (mergedInto r td rows) = map Transcript.id rows.
Proof.
  induction rows as [|x rows IH]; [reflexivity|].
  cbn [mergedInto map]. fold (mergedInto r td rows). rewrite IH.
  case_bool_decide; reflexivity.
Qed.

Lemma same_id_same_row (rows : list Transcript.t) x r :
  NoDup (map Transcript.id rows) -> x ∈ rows -> r ∈ rows ->
  Transcript.id x = Transcript.id r -> x = r.
Proof.
  induction rows as [|y rows IH]; intros Hnd Hx Hr Hid; [inversion Hx|].
  cbn [map] in Hnd. apply NoDup_cons in Hnd as [Hy Hnd].
  apply elem_of_cons in Hx as [->|Hx]; apply elem_of_cons in Hr as [->|Hr].
  - reflexivity.
  - exfalso. apply Hy. rewrite Hid. apply list_elem_of_fmap. exists r. auto.
  - exfalso. apply Hy. rewrite <- Hid. apply list_elem_of_fmap. exists x. auto.
  - auto.
Qed.

Lemma mergedInto_other_meetings meetingId r td rows :
  NoDup (map Transcript.id rows) -> r ∈ rows -> Transcript.meetingId r = meetingId ->
  filter (fun x => Transcript.meetingId x <> meetingId) (mergedInto r td rows) =
  filter (fun x => Transcript.meetingId x <> meetingId) rows.
Proof.
  intros Hnd Hr Hmid.
  assert (Hsub : forall l, (forall x, x ∈ l -> x ∈ rows) ->
            filter (fun x => Transcript.meetingId x <> meetingId) (mergedInto r td l) =
            filter (fun x => Transcript.meetingId x <> meetingId) l).
  { induction l as [|x l IH]; intros Hl; [reflexivity|].
    cbn [mergedInto map]. fold (mergedInto r td l).
    rewrite !filter_cons, IH by (intros y Hy; apply Hl; right; exact Hy).
    case_bool_decide as Hid; [|reflexivity].
    assert (x = r) by (apply (same_id_same_row rows); auto; apply Hl; left).
    subst x. cbn [Prisma.setText Transcript.meetingId].
    rewrite !decide_False by (intros H; apply H; exact Hmid). reflexivity. }
  apply Hsub. auto.
Qed.

Lemma persisted_isolated conn meetingId td w :
  storeOk w ->
  otherFragments meetingId (persisted conn meetingId td w) = otherFragments meetingId w /\
  storeOk (persisted conn meetingId td w).
Proof.
  intros [Hfresh Hnd]. unfold otherFragments, storeOk, idsFresh in *.
  destruct (persisted_cases conn meetingId td w)
    as [[-> ->]|[(r & Hr & Hmid & -> & ->)|[-> ->]]].
  - auto.
  - split; [apply mergedInto_other_meetings; assumption|].
    split; [|rewrite mergedInto_ids; exact Hnd].
    apply Forall_forall. intros x Hx.
    apply list_elem_of_fmap_2 with (f := Transcript.id) in Hx.
    rewrite mergedInto_ids in Hx. apply list_elem_of_fmap in Hx as (y & -> & Hy).
    rewrite Forall_forall in Hfresh. apply Hfresh. exact Hy.
  - rewrite filter_app, filter_cons, filter_nil.
    rewrite decide_False by (intros H; apply H; reflexivity). rewrite app_nil_r.
    split; [reflexivity|]. split.
    + apply Forall_app. split.
      * eapply Forall_impl; [exact Hfresh|]. cbn. intros; lia.
      * constructor; [cbn; lia|constructor].
    + rewrite map_app. apply NoDup_app. split_and!; [exact Hnd| |apply NoDup_singleton].
      intros i Hi Hi'. apply list_elem_of_singleton in Hi'. subst i.
      apply list_elem_of_fmap in Hi as (y & Hy & Hin).
      rewrite Forall_forall in Hfresh. apply Hfresh in Hin. cbn in Hy. lia.
Qed.

Lemma events_isolated conn meetingId tds : forall w,
  storeOk w ->
  otherFragments meetingId (exec (forOf tds (handleTranscriptData conn meetingId)) w) =
    otherFragments meetingId w /\
  storeOk (exec (forOf tds (handleTranscriptData conn meetingId)) w).
Proof.
  induction tds as [|td tds IH]; intros w Hok; [split; [reflexivity|exact Hok]|].
  rewrite forOf_cons, handleTranscriptData_run.
  destruct (persisted_isolated conn meetingId td w Hok) as [Hother Hok'].
  match goal with
  | |- context [exec _ ?w1] => destruct (IH w1) as [H1 H2]; [exact Hok'|]
  end.
  split; [rewrite H1; exact Hother|exact H2].
Qed.

(** X8: the transcript events of one meeting never change the rows of
    another: in a table whose ids are distinct and were drawn from the
    counter, after any events handled for a meeting the rows of all other
    meetings are the same rows, in the same order, and the ids are still
    distinct. *)
Theorem events_leave_other_meetings_alone conn meetingId tds w :
  storeOk w ->
  let w' := exec (forOf tds (handleTranscriptData conn meetingId)) w in
  otherFragments meetingId w' = otherFragments meetingId w /\ storeOk w'.
Proof. intros Hok. apply events_isolated. exact Hok. Qed.

Lemma events_leave_other_meetings_alone_witness :
  let w := setTranscripts
             (fun _ => [Transcript.mk 0 "m2" "Hello" (Some "Speaker 0") 1 (Some 1%Q)])
             afterFirst in
  let w' := exec (forOf [said "ship Friday" 2; said "." 9] (handleTranscriptData 0 "m1")) w in
  otherFragments "m1" w' = otherFragments "m1" w /\ storeOk w'.
Proof.
  apply (events_leave_other_meetings_alone 0 "m1" [said "ship Friday" 2; said "." 9]).
  split.
  - repeat constructor.
  - vm_compute. repeat constructor. intros H. inversion H.
Defined.

End FragmentProperties.

(** ** Runs of the summary job *)

Module SummaryRunProperties.
Import AudioServer SummaryFacts.

(** X9: a run of the summary job for a meeting without transcript, or in
    which the summarization call fails, changes nothing: no action item, no
    summary, no history entry, and nothing is sent to the viewers. *)
Theorem summary_run_without_result_changes_nothing env meetingId w :
  transcriptOf meetingId w = []
  \/ (exists e, openai env (periodicConversation (transcriptOf meetingId w)) = Throw e) ->
  summaryJob env meetingId w = (Ok tt, w).
Proof.
  intros H. rewrite summaryJob_run.
  destruct (transcriptOf meetingId w) as [|row rows]; [reflexivity|].
  destruct H as [H|[e H]]; [discriminate|]. rewrite H. reflexivity.
Qed.

Lemma summary_run_without_result_changes_nothing_witness :
  summaryJob Scenario.env "m1" liveSession = (Ok tt, liveSession).
Proof.
  apply summary_run_without_result_changes_nothing. left. reflexivity.
Defined.

(** X10: a run of the summary job for a meeting with a transcript, in which
    the model answers, stores the answer as the meeting's current summary
    and appends one entry to the summary history, stamped with the time of
    the run and holding that same summary; it sends the viewers one summary
    event without the final flag, and leaves the status and the transcript
    as they were. *)
Theorem summary_run_appends_to_history env meetingId meeting row rows summary w :
  head (filter (fun m => Meeting.id m = meetingId) (meetings w)) = Some meeting ->
  transcriptOf meetingId w = row :: rows ->
  openai env (periodicConversation (row :: rows)) = Ok summary ->
  let w' := exec (summaryJob env meetingId) w in
  summaryOf meetingId w' = Some (Some summary) /\
  historyOf meetingId w' =
    Some (Some (default [] (Meeting.summaryHistory meeting) ++ [mkEntry (now env) summary])) /\
  statusOf meetingId w' = Some (Meeting.status meeting) /\
  newEffects w w' =
    sends (default [] (sseClients w !! meetingId)) (EvSummary summary (now env) None) /\
  transcripts w' = transcripts w.
Proof.
  intros Hm Hrows Hai w'.
  assert (Hw' : w' = afterSummary env meetingId summary w)
    by (unfold w', exec; rewrite summaryJob_run, Hrows, Hai; reflexivity).
  destruct (saveActionItems_exec meetingId (actionItems summary) w)
    as (created & _ & Hexec & _).
  unfold afterSummary in Hw'. rewrite Hm, Hexec in Hw'.
  assert (Hm' : head (filter (fun m => Meeting.id m = meetingId) (meetings w'))
                = Some (summaryData env summary (Meeting.summaryHistory meeting) meeting)).
  { rewrite Hw'. cbn [setMeetings setTrace withItems setActionItemRows setNextId meetings].
    apply BotServiceProperties.updateWhere_found; [reflexivity|exact Hm]. }
  split; [unfold summaryOf; rewrite Hm'; reflexivity|].
  split; [unfold historyOf; rewrite Hm'; reflexivity|].
  split; [unfold statusOf; rewrite Hm'; reflexivity|].
  rewrite Hw'. split; [|reflexivity].
  unfold newEffects.
  cbn [setMeetings setTrace withItems setActionItemRows setNextId trace].
  apply drop_app_length.
Qed.

Lemma summary_run_appends_to_history_witness :
  let w' := exec (summaryJob Scenario.env "m1") afterFirst in
  summaryOf "m1" w' = Some (Some Scenario.summary0) /\
  historyOf "m1" w' = Some (Some ([] ++ [mkEntry 1700000000000 Scenario.summary0])) /\
  statusOf "m1" w' = Some recording /\
  newEffects afterFirst w' =
    sends (default [] (sseClients afterFirst !! "m1"))
      (EvSummary Scenario.summary0 1700000000000 None) /\
  transcripts w' = transcripts afterFirst.
Proof.
  apply (summary_run_appends_to_history Scenario.env "m1" (Scenario.meeting recording)
           (Transcript.mk 3 "m1" "We should" (Some "Speaker 0") 1 (Some 1%Q)) []
           Scenario.summary0 afterFirst);
    vm_compute; reflexivity.
Defined.

End SummaryRunProperties.

(** ** Starting and stopping a bot *)

Module LifecycleProperties.
Import BotService BotServiceFacts BotServiceProperties.

Lemma startBot_run env meetingId meeting url bot w :
  meetingOf meetingId w = Some meeting ->
  Meeting.zoomJoinUrl meeting = Some url ->
  Js.truthy url = true ->
  createBot env = Ok bot ->
  startBot env meetingId w =
  (Ok bot,
   setMeetings (Prisma.updateWhere meetingId (startedData env bot))
     (setBotIds <[meetingId := bot]> (setTrace (fun t => t ++ [BaasCreateBot url]) w))).
Proof.
  intros Hm Hurl Htruthy Hcall. unfold meetingOf in Hm.
  cbv [startBot tryCatch mbind M_bind bind Prisma.meeting_findUnique].
  rewrite Hm. cbn [option_bind]. rewrite Hurl, Htruthy.
  cbv [emit modify call]. rewrite Hcall. cbv [mret M_ret ret].
  erewrite meeting_update_found by (cbn [setTrace setBotIds meetings]; exact Hm).
  reflexivity.
Qed.

Lemma updated_row_by_bot meetingId bot f (ms : list Meeting.t) meeting :
  (forall m, Meeting.id (f m) = Meeting.id m) ->
  (forall m, Meeting.zoomMeetingId (f m) = Some bot) ->
  head (filter (fun m => Meeting.id m = meetingId) ms) = Some meeting ->
  (forall m, m ∈ ms -> Meeting.id m <> meetingId -> Meeting.zoomMeetingId m <> Some bot) ->
  exists m',
    head (filter (fun m => Meeting.zoomMeetingId m = Some bot)
            (Prisma.updateWhere meetingId f ms)) = Some m' /\
    Meeting.id m' = meetingId.
Proof.
  intros Hid Hbot Hm Hothers.
  assert (Hin : f meeting ∈ Prisma.updateWhere meetingId f ms).
  { unfold Prisma.updateWhere. apply list_elem_of_fmap.
    exists meeting. split; [|eapply head_filter_elem; exact Hm].
    apply head_filter_holds in Hm. rewrite bool_decide_eq_true_2 by assumption.
    reflexivity. }
  destruct (head_filter_exists (fun m => Meeting.zoomMeetingId m = Some bot) _ _ Hin (Hbot _))
    as [m' Hm'].
  exists m'. split; [exact Hm'|].
  pose proof (head_filter_holds _ _ _ Hm') as Hz.
  apply head_filter_elem in Hm'. unfold Prisma.updateWhere in Hm'.
  apply list_elem_of_fmap in Hm' as (m & -> & Hmin).
  case_bool_decide as Hmid; [rewrite Hid; exact Hmid|].
  exfalso. exact (Hothers m Hmin Hmid Hz).
Qed.

(** X11: when the meeting has a URL and MeetingBaas creates the bot, the
    start-bot route answers 200 with the bot id; the meeting is recording,
    started at the time of the call, with the bot id stored on its row and
    remembered by the service, after one call to MeetingBaas. If no other
    meeting carries that bot id, the metadata message of the bot's audio
    connection then finds this meeting and registers a session for it. *)
Theorem started_bot_is_found_by_its_audio_connection
    env env' meetingId meeting url bot conn w :
  meetingOf meetingId w = Some meeting ->
  Meeting.zoomJoinUrl meeting = Some url ->
  Js.truthy url = true ->
  createBot env = Ok bot ->
  Js.truthy bot = true ->
  Js.truthyOpt (DEEPGRAM_API_KEY env') = true ->
  (forall m, m ∈ meetings w -> Meeting.id m <> meetingId ->
             Meeting.zoomMeetingId m <> Some bot) ->
  let w1 := exec (Routes.startBot env meetingId) w in
  let w2 := exec (AudioServer.onMessage env' conn (AudioServer.Metadata (Some bot))) w1 in
  result (Routes.startBot env meetingId) w = Ok (200, Some bot) /\
  meetingOf meetingId w1 = Some (startedData env bot meeting) /\
  botIds w1 !! meetingId = Some bot /\
  newEffects w w1 = [BaasCreateBot url] /\
  activeSessions w2 !! bot = Some (S (nextId w)) /\
  sessions w2 !! S (nextId w) =
    Some (MeetingSession.mk bot meetingId (nextId w) (Some (S (S (nextId w))))
            None None None).
Proof.
  intros Hm Hurl Htruthy Hcall Hbot Hkey Hothers w1 w2.
  pose proof (startBot_run env meetingId meeting url bot w Hm Hurl Htruthy Hcall) as Hrun.
  assert (Hroute : Routes.startBot env meetingId w =
                   (Ok (200, Some bot),
                    setMeetings (Prisma.updateWhere meetingId (startedData env bot))
                      (setBotIds <[meetingId := bot]>
                         (setTrace (fun t => t ++ [BaasCreateBot url]) w))))
    by (cbv [Routes.startBot tryCatch mbind M_bind bind]; rewrite Hrun; reflexivity).
  assert (Hw1 : w1 = setMeetings (Prisma.updateWhere meetingId (startedData env bot))
                       (setBotIds <[meetingId := bot]>
                          (setTrace (fun t => t ++ [BaasCreateBot url]) w)))
    by (unfold w1, exec; rewrite Hroute; reflexivity).
  destruct (updated_row_by_bot meetingId bot (startedData env bot) (meetings w) meeting)
    as (m' & Hfind & Hid); [reflexivity|reflexivity|exact Hm|exact Hothers|].
  assert (Hw2 : w2 = sessionStarted conn bot m' w1).
  { unfold w2, exec.
    rewrite (BridgeFacts.onMessage_metadata_found env' conn bot m'); auto.
    rewrite Hw1. exact Hfind. }
  split; [unfold result; rewrite Hroute; reflexivity|].
  split; [rewrite Hw1; unfold meetingOf; cbn [setMeetings setBotIds setTrace meetings];
          apply updateWhere_found; [reflexivity|exact Hm]|].
  split; [rewrite Hw1; cbn [setMeetings setBotIds setTrace botIds]; apply lookup_insert_eq|].
  split; [rewrite Hw1; unfold newEffects; cbn [setMeetings setBotIds setTrace trace];
          apply drop_app_length|].
  assert (Hnext : nextId w1 = nextId w) by (rewrite Hw1; reflexivity).
  rewrite Hw2, <- Hnext, <- Hid. split.
  - cbn [sessionStarted setSessions setIntervals setTrace setNextId setActiveSessions
           setCurrentSession setTranscriptHandlers activeSessions].
    apply lookup_insert_eq.
  - apply BridgeProperties.sessionStarted_session.
Qed.

Lemma started_bot_is_found_by_its_audio_connection_witness :
  let w := initialWorld [Scenario.meeting scheduled] in
  let w1 := exec (Routes.startBot Scenario.env "m1") w in
  let w2 := exec (AudioServer.onMessage Scenario.env 0 (AudioServer.Metadata (Some "bot_1")))
              w1 in
  result (Routes.startBot Scenario.env "m1") w = Ok (200, Some "bot_1") /\
  meetingOf "m1" w1 = Some (startedData Scenario.env "bot_1" (Scenario.meeting scheduled)) /\
  botIds w1 !! "m1" = Some "bot_1" /\
  newEffects w w1 = [BaasCreateBot "https://zoom.us/j/1"] /\
  activeSessions w2 !! "bot_1" = Some 1 /\
  sessions w2 !! 1 = Some (MeetingSession.mk "bot_1" "m1" 0 (Some 2) None None None).
Proof.
  apply (started_bot_is_found_by_its_audio_connection Scenario.env Scenario.env "m1"
           (Scenario.meeting scheduled) "https://zoom.us/j/1" "bot_1" 0
           (initialWorld [Scenario.meeting scheduled]));
    try reflexivity.
  intros m Hm Hne. apply list_elem_of_singleton in Hm. subst m. contradiction Hne. reflexivity.
Defined.

(** X12: when the meeting does not exist, or has no URL or an empty one,
    the start-bot route answers 500 without any call to MeetingBaas and
    without remembering a bot id. A meeting that exists is left failed, and
    [startBot] throws its own error; for a meeting that does not exist the
    error thrown is the one of the update in the [catch] block, and nothing
    changes. *)
Theorem start_without_url_calls_no_provider env meetingId w :
  Js.truthyOpt (meetingOf meetingId w ≫= Meeting.zoomJoinUrl) = false ->
  let w' := exec (Routes.startBot env meetingId) w in
  result (Routes.startBot env meetingId) w = Ok (500, None) /\
  result (startBot env meetingId) w =
    Throw (match meetingOf meetingId w with
           | Some _ => Error "Meeting not found or missing meeting URL"
           | None => RecordNotFound
           end) /\
  w' = match meetingOf meetingId w with
       | Some _ => setMeetings (Prisma.updateWhere meetingId (withStatus failed)) w
       | None => w
       end /\
  statusOf meetingId w' = (fun _ => failed) <$> meetingOf meetingId w.
Proof.
  intros Hurl w'. unfold meetingOf in *.
  assert (Hrun : startBot env meetingId w =
                 match head (filter (fun m => Meeting.id m = meetingId) (meetings w)) with
                 | Some _ =>
                     (Throw (Error "Meeting not found or missing meeting URL"),
                      setMeetings (Prisma.updateWhere meetingId (withStatus failed)) w)
                 | None => (Throw RecordNotFound, w)
                 end).
  { cbv [startBot tryCatch mbind M_bind bind Prisma.meeting_findUnique].
    destruct (head (filter _ (meetings w))) as [meeting|] eqn:Hm;
      cbv [mbind option_bind] in Hurl; cbn [option_bind].
    - assert (Hthrow : forall A,
                match Meeting.zoomJoinUrl meeting with
                | Some url =>
                    if Js.truthy url
                    then A url
                    else throw (Error "Meeting not found or missing meeting URL")
                | None => throw (Error "Meeting not found or missing meeting URL")
                end w = (@Throw string (Error "Meeting not found or missing meeting URL"), w)).
      { intros A. destruct (Meeting.zoomJoinUrl meeting) as [url|]; [|reflexivity].
        cbn [Js.truthyOpt] in Hurl. rewrite Hurl. reflexivity. }
      rewrite Hthrow. cbv [throw].
      erewrite meeting_update_found by exact Hm. reflexivity.
    - cbv [throw Prisma.meeting_update]. rewrite Hm. reflexivity. }
  assert (Hroute : Routes.startBot env meetingId w = (Ok (500, None), snd (startBot env meetingId w))).
  { cbv [Routes.startBot tryCatch mbind M_bind bind]. rewrite Hrun.
    destruct (head _); reflexivity. }
  unfold w', exec, result. rewrite Hroute, Hrun. cbn [fst].
  destruct (head (filter _ (meetings w))) as [meeting|] eqn:Hm; cbn [fst snd].
  - repeat split. unfold statusOf. cbn [setMeetings meetings].
    rewrite (updateWhere_found _ _ _ meeting) by (auto; reflexivity). reflexivity.
  - repeat split. unfold statusOf. rewrite Hm. reflexivity.
Qed.

Lemma start_without_url_calls_no_provider_witness :
  let w := initialWorld
             [Meeting.mk "m1" (Some "") scheduled None None None None None None] in
  let w' := exec (Routes.startBot Scenario.env "m1") w in
  result (Routes.startBot Scenario.env "m1") w = Ok (500, None) /\
  result (startBot Scenario.env "m1") w =
    Throw (Error "Meeting not found or missing meeting URL") /\
  w' = setMeetings (Prisma.updateWhere "m1" (withStatus failed)) w /\
  statusOf "m1" w' = Some failed.
Proof.
  exact (start_without_url_calls_no_provider Scenario.env "m1"
           (initialWorld [Meeting.mk "m1" (Some "") scheduled None None None None None None])
           eq_refl).
Defined.

(** X13: when the stop call to MeetingBaas fails, [stopBot] throws the
    error of the call and the stop-bot route answers 500; the call was made,
    and nothing else happened: the meeting keeps its status, the service
    keeps the bot id, no status is sent to the viewers and the final
    processing is not started, whereas a stop whose call is answered ends by
    starting it. *)
Theorem failed_stop_call_changes_nothing env meetingId meeting b e w :
  meetingOf meetingId w = Some meeting ->
  stopCalls meeting w = [BaasStopBot b] ->
  stopBotCall env = Throw e ->
  let w' := exec (Routes.stopBot env meetingId) w in
  result (stopBot env meetingId) w = Throw e /\
  result (Routes.stopBot env meetingId) w = Ok 500 /\
  w' = setTrace (fun t => t ++ [BaasStopBot b]) w /\
  newEffects w w' = [BaasStopBot b] /\
  (StartProcessMeeting meetingId ∉ newEffects w w') /\
  (forall answering,
     stopBotCall answering = Ok tt ->
     last (newEffects w (exec (Routes.stopBot answering meetingId) w))
     = Some (StartProcessMeeting meetingId)).
Proof.
  intros Hm Hcalls Hcall w'. unfold meetingOf in Hm.
  pose proof (stopBot_refused env meetingId meeting b e w Hm Hcalls Hcall) as Hrun.
  assert (Hw' : w' = setTrace (fun t => t ++ [BaasStopBot b]) w).
  { unfold w', exec. cbv [Routes.stopBot tryCatch mbind M_bind bind]. rewrite Hrun.
    reflexivity. }
  assert (Hnew : newEffects w w' = [BaasStopBot b]).
  { rewrite Hw'. unfold newEffects. cbn [setTrace trace]. apply drop_app_length. }
  split; [unfold result; rewrite Hrun; reflexivity|].
  split.
  { unfold result. cbv [Routes.stopBot tryCatch mbind M_bind bind]. rewrite Hrun.
    reflexivity. }
  split; [exact Hw'|]. split; [exact Hnew|]. split.
  { rewrite Hnew. intros [=]%list_elem_of_singleton. }
  intros answering Hanswer.
  pose proof (stopBot_run answering meetingId meeting w Hm Hanswer) as Hok.
  unfold exec. cbv [Routes.stopBot tryCatch mbind M_bind bind]. rewrite Hok.
  cbv [mret M_ret ret]. cbn [snd]. unfold newEffects.
  cbn [setTrace setMeetings setBotIds trace]. rewrite drop_app_length.
  rewrite !app_assoc. apply last_snoc.
Qed.

Lemma failed_stop_call_changes_nothing_witness :
  let w' := exec (Routes.stopBot Scenario.envDown "m1") silentMeeting in
  result (stopBot Scenario.envDown "m1") silentMeeting = Throw (ProviderError "503") /\
  result (Routes.stopBot Scenario.envDown "m1") silentMeeting = Ok 500 /\
  w' = setTrace (fun t => t ++ [BaasStopBot "bot_1"]) silentMeeting /\
  newEffects silentMeeting w' = [BaasStopBot "bot_1"] /\
  (StartProcessMeeting "m1" ∉ newEffects silentMeeting w') /\
  (forall answering,
     stopBotCall answering = Ok tt ->
     last (newEffects silentMeeting (exec (Routes.stopBot answering "m1") silentMeeting))
     = Some (StartProcessMeeting "m1")).
Proof.
  apply (failed_stop_call_changes_nothing Scenario.envDown "m1" (Scenario.meeting recording)
           "bot_1" (ProviderError "503") silentMeeting); vm_compute; reflexivity.
Defined.

(** X14: for a meeting that does not exist, [stopBot] throws its "Meeting
    not found" error without calling MeetingBaas and the stop-bot route
    answers 500; [processMeeting] throws the error of the update in its
    [catch] block, which the processing started by [stopBot] would only log.
    None of them changes anything. *)
Theorem unknown_meeting_is_left_alone env meetingId w :
  meetingOf meetingId w = None ->
  stopBot env meetingId w = (Throw (Error "Meeting not found"), w) /\
  Routes.stopBot env meetingId w = (Ok 500, w) /\
  processMeeting env meetingId w = (Throw RecordNotFound, w) /\
  backgroundProcessing env meetingId w = (Ok tt, w).
Proof.
  intros Hm. unfold meetingOf in Hm.
  assert (Hstop : stopBot env meetingId w = (Throw (Error "Meeting not found"), w)).
  { cbv [stopBot tryCatch mbind M_bind bind Prisma.meeting_findUnique]. rewrite Hm.
    reflexivity. }
  assert (Hproc : processMeeting env meetingId w = (Throw RecordNotFound, w)).
  { cbv [processMeeting tryCatch mbind M_bind bind Prisma.meeting_findUnique
           Prisma.meeting_update throw].
    rewrite Hm. cbv beta iota zeta. rewrite Hm. reflexivity. }
  split; [exact Hstop|]. split; [|split; [exact Hproc|]].
  - cbv [Routes.stopBot tryCatch mbind M_bind bind]. rewrite Hstop. reflexivity.
  - cbv [backgroundProcessing tryCatch]. rewrite Hproc. reflexivity.
Qed.

Lemma unknown_meeting_is_left_alone_witness :
  stopBot Scenario.env "m9" silentMeeting = (Throw (Error "Meeting not found"), silentMeeting) /\
  Routes.stopBot Scenario.env "m9" silentMeeting = (Ok 500, silentMeeting) /\
  processMeeting Scenario.env "m9" silentMeeting = (Throw RecordNotFound, silentMeeting) /\
  backgroundProcessing Scenario.env "m9" silentMeeting = (Ok tt, silentMeeting).
Proof.
  exact (unknown_meeting_is_left_alone Scenario.env "m9" silentMeeting eq_refl).
Defined.

(** X15: when the meeting has a transcript and the summarization call of
    the final run fails, [processMeeting] still returns success and leaves
    the meeting completed, with its current summary set to none, whatever
    summary a periodic run had stored; the viewers get the completed status
    and no summary event. *)
Theorem failed_final_summary_still_completes env meetingId meeting row rows e w :
  meetingOf meetingId w = Some meeting ->
  transcriptOf meetingId w = row :: rows ->
  openai env (finalConversation (row :: rows)) = Throw e ->
  let w' := exec (processMeeting env meetingId) w in
  result (processMeeting env meetingId) w = Ok tt /\
  meetingOf meetingId w' = Some (finalData None meeting) /\
  summaryOf meetingId w' = Some None /\
  statusOf meetingId w' = Some completed /\
  newEffects w w' =
    sends (default [] (sseClients w !! meetingId)) (EvStatus completed (now env)).
Proof.
  intros Hm Hrows Hai w'. unfold meetingOf in *.
  assert (Hrun : processMeeting env meetingId w =
                 (Ok tt,
                  setTrace (fun t => t ++ sends (default [] (sseClients w !! meetingId))
                                           (EvStatus completed (now env)))
                    (setMeetings (Prisma.updateWhere meetingId (finalData None)) w))).
  { cbv [processMeeting tryCatch mbind M_bind bind Prisma.meeting_findUnique
           Prisma.transcript_findMany].
    rewrite Hm. fold (transcriptOf meetingId w). rewrite Hrows.
    cbv [OpenAI.generateLiveSummary]. cbn [map].
    change (Js.join OpenAI.newline _) with (finalConversation (row :: rows)).
    rewrite Hai. cbv [throw mret M_ret ret AudioServer.broadcastToMeeting].
    erewrite meeting_update_found by exact Hm.
    rewrite BroadcastFacts.broadcastTranscript_run. reflexivity. }
  assert (Hm' : head (filter (fun m => Meeting.id m = meetingId) (meetings w'))
                = Some (finalData None meeting)).
  { unfold w', exec. rewrite Hrun. cbn [snd setTrace setMeetings meetings].
    apply updateWhere_found; [reflexivity|exact Hm]. }
  split; [unfold result; rewrite Hrun; reflexivity|].
  split; [exact Hm'|].
  split; [unfold summaryOf; rewrite Hm'; reflexivity|].
  split; [unfold statusOf; rewrite Hm'; reflexivity|].
  unfold w', exec, newEffects. rewrite Hrun. cbn [snd setTrace setMeetings trace].
  apply drop_app_length.
Qed.

Lemma failed_final_summary_still_completes_witness :
  let env := mkEnv 1700000000000%Z (Ok "bot_1") (Ok tt)
               (fun _ => Throw (ProviderError "429")) (Some "key") 1 in
  let w := exec (AudioServer.summaryJob Scenario.env "m1") stoppedMeeting in
  let w' := exec (processMeeting env "m1") w in
  result (processMeeting env "m1") w = Ok tt /\
  meetingOf "m1" w' =
    Some (finalData None
            (Meeting.mk "m1" (Some "https://zoom.us/j/1") processing (Some "bot_1")
               (Some 1699999000000%Z) (Some 1700000000000%Z) (Some 1000%Z)
               (Some Scenario.summary0)
               (Some [mkEntry 1700000000000 Scenario.summary0]))) /\
  summaryOf "m1" w' = Some None /\
  statusOf "m1" w' = Some completed /\
  newEffects w w' =
    sends (default [] (sseClients w !! "m1")) (EvStatus completed 1700000000000).
Proof.
  apply (failed_final_summary_still_completes
           (mkEnv 1700000000000%Z (Ok "bot_1") (Ok tt)
              (fun _ => Throw (ProviderError "429")) (Some "key") 1)
           "m1"
           (Meeting.mk "m1" (Some "https://zoom.us/j/1") processing (Some "bot_1")
              (Some 1699999000000%Z) (Some 1700000000000%Z) (Some 1000%Z)
              (Some Scenario.summary0)
              (Some [mkEntry 1700000000000 Scenario.summary0]))
           (Transcript.mk 3 "m1" "We should" (Some "Speaker 0") 1 (Some 1%Q)) []
           (ProviderError "429"));
    vm_compute; reflexivity.
Defined.

End LifecycleProperties.

(** ** The events webhook, whatever the event *)

Module WebhookProperties.
Import EventsWebhook.

Lemma botOf_orElse body bot :
  botOf body = Some bot ->
  Js.orElse (bot_id body) (data_bot_id body) = Some bot /\ Js.truthy bot = true.
Proof.
  unfold botOf. destruct (Js.orElse _ _) as [b|]; [|discriminate].
  destruct (Js.truthy b) eqn:Hb; [|discriminate]. intros [= ->]. auto.
Qed.

(** The run of the handler on a payload that names no bot, or a bot no
    meeting has. *)
Lemma POST_unresolved env body w :
  resolved body w = None ->
  POST env body w = (Ok match botOf body with Some _ => 404 | None => 400 end, w).
Proof.
  unfold resolved, botOf, POST.
  destruct (Js.orElse _ _) as [bot|]; [|reflexivity].
  destruct (Js.truthy bot); [|reflexivity].
  cbv [mbind option_bind M_bind bind tryCatch Prisma.meeting_findFirst].
  intros ->. reflexivity.
Qed.

(** The run of the handler on a payload about a meeting. *)
Lemma POST_resolved env body w bot meeting :
  botOf body = Some bot ->
  resolved body w = Some meeting ->
  POST env body w =
  let id := Meeting.id meeting in
  if decide (startEvent (event body)) then
    (Ok 200, setMeetings (Prisma.updateWhere id (joinedData env body meeting)) w)
  else if decide (event body = "meeting.completed") then
    (Ok 200, setMeetings (Prisma.updateWhere id (completedData env body))
               (setTrace (fun t => t ++ [BaasStopBot bot]) w))
  else if decide (event body = "meeting.failed") then
    (Ok 200, setMeetings (Prisma.updateWhere id (withStatus failed)) w)
  else if decide (event body = "bot.left") then
    match timestamp body with
    | Some d => (Ok 200, setMeetings (Prisma.updateWhere id (leftData d)) w)
    | None => (Ok 500, w)
    end
  else if decide (event body = "bot.error") then
    (Ok 200, setMeetings (Prisma.updateWhere id (withStatus failed)) w)
  else (Ok 200, w).
Proof.
  intros Hbot Hres. unfold resolved in Hres. rewrite Hbot in Hres.
  cbv [mbind option_bind] in Hres.
  destruct (botOf_orElse _ _ Hbot) as [Hor Htruthy].
  destruct (head_filter_exists (fun m => Meeting.id m = Meeting.id meeting)
              (meetings w) meeting) as [m0 Hm0];
    [eapply head_filter_elem; eassumption|reflexivity|].
  unfold POST. rewrite Hor, Htruthy.
  cbv [tryCatch mbind M_bind bind Prisma.meeting_findFirst]. rewrite Hres.
  cbv zeta. unfold startEvent.
  destruct (decide (event body = "meeting.started" \/ event body = "bot.joined")).
  { erewrite meeting_update_found by exact Hm0. reflexivity. }
  destruct (decide (event body = "meeting.completed")).
  { cbv [emit modify BotService.call].
    destruct (stopBotCall env) as [[]|err]; cbv [mret M_ret ret throw];
      erewrite meeting_update_found by (cbn; exact Hm0); reflexivity. }
  destruct (decide (event body = "meeting.failed")).
  { erewrite meeting_update_found by exact Hm0. reflexivity. }
  destruct (decide (event body = "bot.left")).
  { destruct (timestamp body) as [d|]; cbv [validDate mret M_ret ret throw].
    - erewrite meeting_update_found by exact Hm0. reflexivity.
    - reflexivity. }
  destruct (decide (event body = "bot.error")).
  { erewrite meeting_update_found by exact Hm0. reflexivity. }
  reflexivity.
Qed.

(** What a delivery does to the state, whatever the payload. *)
Lemma POST_shape env body w :
  exists f l,
    let w' := exec (POST env body) w in
    meetings w' = map f (meetings w) /\
    trace w' = trace w ++ l /\
    restOf w' = restOf w /\
    (forall m, sameButProgress m (f m) /\
               (f m = m \/
                (Meeting.id <$> resolved body w = Some (Meeting.id m) /\
                 Meeting.status (f m) ∈ [recording; processing; failed]))) /\
    (l = [] \/ exists bot, l = [BaasStopBot bot]).
Proof.
  assert (Hid : exists f l,
             meetings w = map f (meetings w) /\ trace w = trace w ++ l /\
             restOf w = restOf w /\
             (forall m, sameButProgress m (f m) /\
                        (f m = m \/
                         (Meeting.id <$> resolved body w = Some (Meeting.id m) /\
                          Meeting.status (f m) ∈ [recording; processing; failed]))) /\
             (l = [] \/ exists bot, l = [BaasStopBot bot])).
  { exists id, []. rewrite map_id, app_nil_r. repeat split; auto. }
  assert (Hupd : forall g l,
             (forall m, sameButProgress m (g m) /\
                        Meeting.status (g m) ∈ [recording; processing; failed]) ->
             (l = [] \/ exists bot, l = [BaasStopBot bot]) ->
             forall meeting, resolved body w = Some meeting ->
             exists f l0,
               let w' := setMeetings (Prisma.updateWhere (Meeting.id meeting) g)
                           (setTrace (fun t => t ++ l) w) in
               meetings w' = map f (meetings w) /\
               trace w' = trace w ++ l0 /\
               restOf w' = restOf w /\
               (forall m, sameButProgress m (f m) /\
                          (f m = m \/
                           (Meeting.id <$> resolved body w = Some (Meeting.id m) /\
                            Meeting.status (f m) ∈ [recording; processing; failed]))) /\
               (l0 = [] \/ exists bot, l0 = [BaasStopBot bot])).
  { intros g l Hg Hl meeting Hres.
    exists (fun m => if bool_decide (Meeting.id m = Meeting.id meeting) then g m else m), l.
    cbn [setMeetings setTrace meetings trace]. repeat split; try (apply Hg); auto;
      try (case_bool_decide; [apply Hg|reflexivity]).
    case_bool_decide as Hm; [right|left; reflexivity].
    rewrite Hres. cbn. split; [congruence|apply Hg]. }
  destruct (resolved body w) as [meeting|] eqn:Hres.
  - assert (Hbot : exists bot, botOf body = Some bot).
    { unfold resolved in Hres. destruct (botOf body) as [bot|]; [eauto|discriminate]. }
    destruct Hbot as [bot Hbot].
    assert (Hsame : forall l0 (w0 : World),
               setMeetings (Prisma.updateWhere (Meeting.id meeting) l0) w0 =
               setMeetings (Prisma.updateWhere (Meeting.id meeting) l0)
                 (setTrace (fun t => t) w0)) by reflexivity.
    unfold exec. rewrite (POST_resolved env body w bot meeting Hbot Hres). cbv zeta.
    assert (Hnil : forall g,
               (forall m, sameButProgress m (g m) /\
                          Meeting.status (g m) ∈ [recording; processing; failed]) ->
               exists f l0,
                 let w' := setMeetings (Prisma.updateWhere (Meeting.id meeting) g) w in
                 meetings w' = map f (meetings w) /\
                 trace w' = trace w ++ l0 /\
                 restOf w' = restOf w /\
                 (forall m, sameButProgress m (f m) /\
                            (f m = m \/
                             (Meeting.id <$> Some meeting = Some (Meeting.id m) /\
                              Meeting.status (f m) ∈ [recording; processing; failed]))) /\
                 (l0 = [] \/ exists bot, l0 = [BaasStopBot bot])).
    { intros g Hg.
      destruct (Hupd g [] Hg (or_introl eq_refl) meeting eq_refl) as (f & l0 & H).
      exists f, l0. cbn [setMeetings setTrace meetings trace] in *.
      rewrite app_nil_r in H. exact H. }
    repeat case_decide; cbn [snd].
    + apply Hnil. intros m. repeat split; repeat constructor.
    + apply (Hupd (completedData env body) [BaasStopBot bot]); eauto.
      intros m. repeat split; repeat constructor.
    + apply Hnil. intros m. repeat split; repeat constructor.
    + destruct (timestamp body) as [d|]; cbn [snd]; [|exact Hid].
      apply Hnil. intros m. repeat split; repeat constructor.
    + apply Hnil. intros m. repeat split; repeat constructor.
    + exact Hid.
  - unfold exec. rewrite (POST_unresolved env body w Hres). exact Hid.
Qed.

(** X16: a delivery whose payload names no bot is answered 400, one whose
    bot no meeting has 404, and one about a meeting with an event other than
    the six the handler updates for ([recording.started] and
    [recording.stopped] among them) 200; none of them changes anything or
    makes any call. *)
Theorem unresolved_or_unhandled_delivery_changes_nothing env body w :
  resolved body w = None \/ event body ∉ updatingEvents ->
  POST env body w =
  (Ok match botOf body, resolved body w with
      | None, _ => 400
      | Some _, None => 404
      | Some _, Some _ => 200
      end, w).
Proof.
  intros Hcase. destruct (resolved body w) as [meeting|] eqn:Hres.
  - destruct Hcase as [|Hev]; [discriminate|].
    assert (Hbot : exists bot, botOf body = Some bot).
    { unfold resolved in Hres. destruct (botOf body) as [bot|]; [eauto|discriminate]. }
    destruct Hbot as [bot Hbot].
    rewrite (POST_resolved env body w bot meeting Hbot Hres), Hbot. cbv zeta.
    unfold updatingEvents, startEvent in *.
    repeat case_decide; try reflexivity; exfalso; apply Hev;
      rewrite !elem_of_cons; tauto.
  - rewrite (POST_unresolved env body w Hres). destruct (botOf body); reflexivity.
Qed.

Lemma unresolved_or_unhandled_delivery_changes_nothing_witness :
  let body := mkBody (Some "bot_1") None "recording.started" None in
  let w := initialWorld [Scenario.meeting recording] in
  POST Scenario.env body w = (Ok 200, w).
Proof.
  apply (unresolved_or_unhandled_delivery_changes_nothing Scenario.env
           (mkBody (Some "bot_1") None "recording.started" None)
           (initialWorld [Scenario.meeting recording])).
  right. unfold updatingEvents. intros H. repeat (apply elem_of_cons in H as [H|H]; [discriminate H|]).
  inversion H.
Defined.

Lemma updateWhere_again id f g ms :
  (forall m, Meeting.id (f m) = Meeting.id m) ->
  (forall m, g (f m) = f m) ->
  Prisma.updateWhere id g (Prisma.updateWhere id f ms) = Prisma.updateWhere id f ms.
Proof.
  intros Hid Hgf. unfold Prisma.updateWhere. rewrite map_map. apply map_ext.
  intros m. destruct (decide (Meeting.id m = id)) as [Hm|Hm].
  - rewrite (bool_decide_eq_true_2 (Meeting.id m = id)) by exact Hm.
    rewrite bool_decide_eq_true_2 by (rewrite Hid; exact Hm). apply Hgf.
  - rewrite (bool_decide_eq_false_2 (Meeting.id m = id)) by exact Hm.
    rewrite bool_decide_eq_false_2 by exact Hm. reflexivity.
Qed.

(** X17: [meeting.started] and [bot.joined], for a bot a meeting has, are
    answered 200 and set the status recording; the start time written is the
    one the meeting had, and only for a meeting without one the time of the
    payload, or the clock when the payload has none. Once one of them has
    been handled, any further one for the same bot, whatever its time and the
    clock, changes nothing. *)
Theorem start_events_keep_first_start_time env env' body body' w meeting :
  resolved body w = Some meeting ->
  startEvent (event body) ->
  botOf body' = botOf body ->
  startEvent (event body') ->
  let w' := exec (POST env body) w in
  result (POST env body) w = Ok 200 /\
  w' = setMeetings (Prisma.updateWhere (Meeting.id meeting) (joinedData env body meeting)) w /\
  statusOf (Meeting.id meeting) w' = Some recording /\
  Meeting.startedAt <$> meetingOf (Meeting.id meeting) w' =
    Some (Some (default (default (now env) (timestamp body)) (Meeting.startedAt meeting))) /\
  POST env' body' w' = (Ok 200, w').
Proof.
  intros Hres Hev Hbot' Hev' w'.
  assert (Hbot : exists bot, botOf body = Some bot).
  { unfold resolved in Hres. destruct (botOf body) as [bot|]; [eauto|discriminate]. }
  destruct Hbot as [bot Hbot].
  assert (Hfind : head (filter (fun m => Meeting.zoomMeetingId m = Some bot) (meetings w))
                  = Some meeting).
  { unfold resolved in Hres. rewrite Hbot in Hres. exact Hres. }
  destruct (head_filter_exists (fun m => Meeting.id m = Meeting.id meeting)
              (meetings w) meeting) as [m0 Hm0];
    [eapply head_filter_elem; eassumption|reflexivity|].
  pose proof (POST_resolved env body w bot meeting Hbot Hres) as Hrun.
  cbv zeta in Hrun. rewrite decide_True in Hrun by exact Hev.
  assert (Hw' : w' = setMeetings
                       (Prisma.updateWhere (Meeting.id meeting) (joinedData env body meeting)) w)
    by (unfold w', exec; rewrite Hrun; reflexivity).
  assert (Hres' : resolved body' w' = Some (joinedData env body meeting meeting)).
  { unfold resolved. rewrite Hbot', Hbot. cbv [mbind option_bind].
    rewrite Hw'. cbn [setMeetings meetings].
    rewrite updateWhere_findFirst, Hfind by reflexivity. cbn [fmap option_fmap option_map].
    rewrite bool_decide_eq_true_2 by reflexivity. reflexivity. }
  assert (Hm0' : head (filter (fun m => Meeting.id m = Meeting.id meeting) (meetings w'))
                 = Some (joinedData env body meeting m0)).
  { rewrite Hw'. cbn [setMeetings meetings].
    apply BotServiceProperties.updateWhere_found; [reflexivity|exact Hm0]. }
  split; [unfold result; rewrite Hrun; reflexivity|].
  split; [exact Hw'|].
  split; [unfold statusOf; rewrite Hm0'; reflexivity|].
  split; [unfold meetingOf; rewrite Hm0'; reflexivity|].
  rewrite (POST_resolved env' body' w' bot _ (eq_trans Hbot' Hbot) Hres'). cbv zeta.
  rewrite decide_True by exact Hev'. f_equal.
  rewrite Hw'. unfold setMeetings at 1. cbn [setMeetings meetings transcripts actionItemRows
    nextId botIds sessions activeSessions currentSession transcriptHandlers intervals
    sseClients trace].
  change (Meeting.id (joinedData env body meeting meeting)) with (Meeting.id meeting).
  rewrite updateWhere_again; [reflexivity|reflexivity|].
  intros m. reflexivity.
Qed.

Lemma start_events_keep_first_start_time_witness :
  let body := mkBody None (Some "bot_1") "bot.joined" (Some 1700000005000%Z) in
  let body' := mkBody (Some "bot_1") None "meeting.started" (Some 1700000009000%Z) in
  let w := initialWorld [Scenario.meeting recording] in
  let w' := exec (POST Scenario.env body) w in
  result (POST Scenario.env body) w = Ok 200 /\
  w' = setMeetings (Prisma.updateWhere "m1"
                      (joinedData Scenario.env body (Scenario.meeting recording))) w /\
  statusOf "m1" w' = Some recording /\
  Meeting.startedAt <$> meetingOf "m1" w' = Some (Some 1699999000000%Z) /\
  POST Scenario.envDown body' w' = (Ok 200, w').
Proof.
  apply (start_events_keep_first_start_time Scenario.env Scenario.envDown
           (mkBody None (Some "bot_1") "bot.joined" (Some 1700000005000%Z))
           (mkBody (Some "bot_1") None "meeting.started" (Some 1700000009000%Z))
           (initialWorld [Scenario.meeting recording])
           (Scenario.meeting recording));
    [reflexivity|right; reflexivity|reflexivity|left; reflexivity].
Defined.

(** X18: whatever the payload and whatever the provider answers, the
    events webhook changes nothing but the meeting table: the transcripts,
    the action items, the bot ids, the sessions and the subscribers stay as
    they are; the only call it can make is one stop call to MeetingBaas, so
    that a status it writes is never sent to the viewers. *)
Theorem events_webhook_notifies_no_viewer env body w :
  let w' := exec (POST env body) w in
  restOf w' = restOf w /\
  length (meetings w') = length (meetings w) /\
  (newEffects w w' = [] \/ exists bot, newEffects w w' = [BaasStopBot bot]).
Proof.
  destruct (POST_shape env body w) as (f & l & Hm & Ht & Hrest & _ & Hl).
  cbv zeta in *. split; [exact Hrest|].
  split; [rewrite Hm; apply length_map|].
  unfold newEffects. rewrite Ht, drop_app_length.
  destruct Hl as [->|[bot ->]]; eauto.
Qed.

(** X19: whatever the payload, each row of the meeting table keeps its
    place, its id, its URL, its bot id, its duration, its summary and its
    summary history; a row whose id is not the one of the meeting the payload
    is about is not changed at all, and a row that is changed gets the status
    recording, processing or failed, never completed. *)
Theorem events_webhook_changes_only_progress env body w i m :
  meetings w !! i = Some m ->
  exists m',
    meetings (exec (POST env body) w) !! i = Some m' /\
    sameButProgress m m' /\
    (m' = m \/
     (Meeting.id <$> resolved body w = Some (Meeting.id m) /\
      Meeting.status m' ∈ [recording; processing; failed])).
Proof.
  intros Hi. destruct (POST_shape env body w) as (f & l & Hm & _ & _ & Hf & _).
  cbv zeta in Hm. exists (f m). rewrite Hm, list_lookup_fmap, Hi.
  split; [reflexivity|]. apply Hf.
Qed.

Lemma events_webhook_changes_only_progress_witness :
  exists m',
    meetings (exec (POST Scenario.env Scenario.completedBody)
                (initialWorld [Scenario.meeting completed])) !! 0%nat = Some m' /\
    sameButProgress (Scenario.meeting completed) m' /\
    (m' = Scenario.meeting completed \/
     (Meeting.id <$> resolved Scenario.completedBody
                      (initialWorld [Scenario.meeting completed])
      = Some (Meeting.id (Scenario.meeting completed)) /\
      Meeting.status m' ∈ [recording; processing; failed])).
Proof.
  exact (events_webhook_changes_only_progress Scenario.env Scenario.completedBody
           (initialWorld [Scenario.meeting completed]) 0 (Scenario.meeting completed)
           eq_refl).
Defined.

End WebhookProperties.

(** ** The transcript webhook and the transcript of the provider *)

Module TranscriptWebhookFacts.
Import MeetingBaas TranscriptWebhook.

Lemma payloadBot_orElse body bot :
  payloadBot body = Some bot ->
  Js.orElse (bot_id body) (data body ≫= data_bot_id) = Some bot /\ Js.truthy bot = true.
Proof.
  unfold payloadBot. destruct (Js.orElse _ _) as [b|]; [|discriminate].
  destruct (Js.truthy b) eqn:Hb; [|discriminate]. intros [= ->]. auto.
Qed.

(** The loop over the speakers. *)
Lemma speakers_loop id names : forall i w ps au,
  forIndex i names
    (fun i speakerName =>
       attempt
         (existingParticipant ← participant_findFirst id speakerName;
          match existingParticipant with
          | None => participant_create id speakerName "attendee"
          | Some _ => mret tt
          end;;
          lift (transcript_updateMany id (speakerLabel i) speakerName))
         (fun _ => mret tt))
    (mkStore w ps au) =
  (Ok tt, mkStore (setTranscripts (renamedFrom id i names) w) (joined id names ps) au).
Proof.
  induction names as [|name rest IH]; intros i w ps au.
  - destruct w. reflexivity.
  - cbn [forIndex renamedFrom joined].
    cbv [mbind H_bind attempt participant_findFirst participants].
    destruct (head (filter _ ps)) as [p|];
      cbv [mret H_ret participant_create lift transcript_updateMany modify world
             participants audioFileUrl];
      rewrite IH; destruct w; reflexivity.
Qed.

(** The loop over the segments. *)
Lemma segments_loop id segments : forall w ps au,
  forEach segments
    (fun segment =>
       let text := Js.orDefault (spoken segment) "" in
       if Js.truthy (Js.trim text) then
         lift (Prisma.transcript_create id (Js.trim text)
                 (Some (Js.orDefault (Segment.speaker segment) "Unknown"))
                 (Qfloor (startTime segment))
                 (Some 1%Q))
       else mret tt)
    (mkStore w ps au) =
  (Ok tt,
   mkStore (setNextId (fun n => n + length (savedRows id (nextId w) segments))
              (setTranscripts (fun old => old ++ savedRows id (nextId w) segments) w))
     ps au).
Proof.
  induction segments as [|segment rest IH]; intros w ps au.
  - destruct w. cbv [forEach savedRows length setNextId setTranscripts nextId transcripts
                       meetings actionItemRows botIds sessions activeSessions currentSession
                       transcriptHandlers intervals sseClients trace mret H_ret].
    rewrite app_nil_r, Nat.add_0_r. reflexivity.
  - cbn [forEach savedRows]. cbv zeta.
    destruct (Js.truthy (Js.trim (Js.orDefault (spoken segment) ""))).
    + cbv [mbind H_bind lift Prisma.transcript_create M_bind bind fresh modify world
             participants audioFileUrl].
      rewrite IH. destruct w.
      cbv [setNextId setTranscripts nextId transcripts meetings actionItemRows botIds
             sessions activeSessions currentSession transcriptHandlers intervals sseClients
             trace].
      cbn [length]. rewrite <- app_assoc, Nat.add_succ_r. reflexivity.
    + cbv [mbind H_bind mret H_ret]. apply IH.
Qed.

Lemma bind_run {A B} (m : H A) (k : A -> H B) s a s' :
  m s = (Ok a, s') -> (m ≫= k) s = k a s'.
Proof. intros E. cbv [mbind H_bind]. rewrite E. reflexivity. Qed.

Lemma attempt_ok {A} (m : H A) h s a s' :
  m s = (Ok a, s') -> attempt m h s = (Ok a, s').
Proof. intros E. unfold attempt. rewrite E. reflexivity. Qed.

(** The stop call of the handler: its failure is only logged. *)
Lemma stop_swallowed env w ps au :
  lift (tryCatch (BotService.call (stopBotCall env)) (fun _ => mret tt)) (mkStore w ps au)
  = (Ok tt, mkStore w ps au).
Proof.
  cbv [lift tryCatch BotService.call world participants audioFileUrl].
  destruct (stopBotCall env) as [[]|err]; reflexivity.
Qed.

(** The run of the handler on [complete], for the bot of a meeting. *)
Lemma POST_complete env body s bot meeting :
  payloadBot body = Some bot ->
  payloadMeeting body (world s) = Some meeting ->
  event body = "complete" ->
  POST env body s = (Ok 200, transcribed env body (Meeting.id meeting) bot s).
Proof.
  intros Hbot Hres Hev. unfold payloadMeeting in Hres. rewrite Hbot in Hres.
  cbv [mbind option_bind] in Hres.
  destruct (payloadBot_orElse _ _ Hbot) as [Hor Htruthy].
  destruct (head_filter_exists (fun m => Meeting.id m = Meeting.id meeting)
              (meetings (world s)) meeting) as [m0 Hm0];
    [eapply head_filter_elem; eassumption|reflexivity|].
  destruct s as [w ps au]. cbn [world] in *.
  unfold POST. rewrite Hor, Htruthy. apply attempt_ok.
  erewrite bind_run
    by (cbv [lift Prisma.meeting_findFirst world participants audioFileUrl];
        rewrite Hres; reflexivity).
  cbv beta iota zeta. rewrite Hev, decide_True by reflexivity.
  erewrite bind_run; [reflexivity|].
  erewrite bind_run by reflexivity.
  erewrite bind_run by apply stop_swallowed.
  erewrite bind_run by apply speakers_loop.
  erewrite bind_run by apply segments_loop.
  erewrite bind_run
    by (cbv [lift world participants audioFileUrl];
        erewrite meeting_update_found by (cbn; exact Hm0); reflexivity).
  unfold transcribed, recordingOf, speakersOf, segmentsOf.
  destruct w; reflexivity.
Qed.

(** *** Trimming *)

Lemma trimEnd_idempotent s : Js.trimEnd (Js.trimEnd s) = Js.trimEnd s.
Proof.
  induction s as [|c s IH]; [reflexivity|].
  cbn [Js.trimEnd]. destruct (Js.trimEnd s) as [|d t] eqn:E.
  - destruct (Js.isWhiteSpace c) eqn:Hc; [reflexivity|].
    cbn [Js.trimEnd]. rewrite Hc. reflexivity.
  - cbn [Js.trimEnd] in *. rewrite IH. reflexivity.
Qed.

Lemma trimStart_head s :
  Js.trimStart s = "" \/
  exists c t, Js.trimStart s = String c t /\ Js.isWhiteSpace c = false.
Proof.
  induction s as [|c s IH]; [left; reflexivity|].
  cbn [Js.trimStart]. destruct (Js.isWhiteSpace c) eqn:Hc; [exact IH|eauto].
Qed.

Lemma trimEnd_head c t :
  Js.isWhiteSpace c = false -> exists t', Js.trimEnd (String c t) = String c t'.
Proof.
  intros Hc. cbn [Js.trimEnd]. destruct (Js.trimEnd t); [rewrite Hc|]; eauto.
Qed.

Lemma trim_idempotent s : Js.trim (Js.trim s) = Js.trim s.
Proof.
  unfold Js.trim. destruct (trimStart_head s) as [->|(c & t & -> & Hc)]; [reflexivity|].
  destruct (trimEnd_head c t Hc) as [t' E].
  rewrite E. cbn [Js.trimStart]. rewrite Hc, <- E. apply trimEnd_idempotent.
Qed.

Lemma truthy_is_nonempty s : Js.truthy s = true -> s <> "".
Proof. destruct s; [discriminate|]. intros _ [=]. Qed.

Lemma orDefault_nonempty a d : d <> "" -> Js.orDefault a d <> "".
Proof.
  intros Hd. unfold Js.orDefault. destruct a as [s|]; [|exact Hd].
  destruct (Js.truthy s) eqn:Hs; [apply truthy_is_nonempty, Hs|exact Hd].
Qed.

Lemma orElse_none a : Js.orDefault (Js.orElse a None) "" = Js.orDefault a "".
Proof. destruct a as [[|c s]|]; reflexivity. Qed.

(** *** The loops *)

Lemma renamedFrom_length id names : forall i rows,
  length (renamedFrom id i names rows) = length rows.
Proof.
  induction names as [|name rest IH]; intros i rows; [reflexivity|].
  cbn [renamedFrom]. rewrite IH. apply length_map.
Qed.

Lemma setSpeaker_same r label :
  Transcript.speaker r = Some label -> setSpeaker label r = r.
Proof. destruct r. cbn. intros ->. reflexivity. Qed.

Lemma named_other names : forall i label,
  (forall j, (j < length names)%nat -> label <> speakerLabel (i + j)) ->
  named i names label = label.
Proof.
  induction names as [|name rest IH]; intros i label Hl; [reflexivity|].
  cbn [named]. rewrite decide_False.
  - apply IH. intros j Hj. rewrite Nat.add_succ_l, <- Nat.add_succ_r.
    apply Hl. cbn [length]. lia.
  - specialize (Hl 0%nat). rewrite Nat.add_0_r in Hl. apply Hl. cbn [length]. lia.
Qed.

Lemma renamedFrom_reconciled id names : forall i rows,
  noLaterLabel i names ->
  renamedFrom id i names rows = map (reconciledFrom id i names) rows.
Proof.
  induction names as [|name rest IH]; intros i rows Hnames.
  - cbn [renamedFrom]. rewrite <- (map_id rows) at 1. apply map_ext.
    intros r. unfold reconciledFrom. destruct (Transcript.speaker r) as [label|] eqn:Hr;
      [|reflexivity].
    case_bool_decide; [|reflexivity]. cbn [named]. symmetry. apply setSpeaker_same, Hr.
  - cbn [renamedFrom]. rewrite IH.
    + rewrite map_map. apply map_ext. intros r. unfold rename, reconciledFrom.
      destruct r as [rid rm rtext rspeaker rts rconf].
      cbn [Transcript.meetingId Transcript.speaker].
      destruct (decide (rm = id)) as [->|Hm].
      * destruct rspeaker as [label|].
        -- destruct (decide (label = speakerLabel i)) as [->|Hl].
           ++ rewrite bool_decide_eq_true_2 by auto.
              cbn [setSpeaker Transcript.speaker Transcript.meetingId Transcript.id
                     Transcript.text Transcript.timestamp Transcript.confidence named].
              rewrite bool_decide_eq_true_2 by reflexivity.
              rewrite decide_True by reflexivity.
              rewrite named_other; [reflexivity|].
              intros j Hj. rewrite Nat.add_succ_l, <- Nat.add_succ_r.
              apply (Hnames 0%nat name (S j)); [reflexivity|cbn [length]; lia].
           ++ rewrite bool_decide_eq_false_2 by (intros [_ [=]]; auto).
              cbn [setSpeaker Transcript.speaker Transcript.meetingId Transcript.id
                     Transcript.text Transcript.timestamp Transcript.confidence named].
              rewrite bool_decide_eq_true_2 by reflexivity.
              rewrite decide_False by exact Hl. reflexivity.
        -- rewrite bool_decide_eq_false_2 by (intros [_ [=]]). reflexivity.
      * rewrite bool_decide_eq_false_2 by (intros [? _]; auto).
        cbn [Transcript.speaker Transcript.meetingId].
        rewrite bool_decide_eq_false_2 by exact Hm. reflexivity.
    + intros k name' j Hk Hj. rewrite Nat.add_succ_l, <- Nat.add_succ_r.
      apply (Hnames (S k) name' (S j)); [exact Hk|cbn [length]; lia].
Qed.

Lemma participant_lookup id name ps :
  match head (filter (fun p => Participant.meetingId p = id /\ Participant.name p = name) ps)
  with
  | Some _ => (id, name) ∈ participantKeys ps
  | None => (id, name) ∉ participantKeys ps
  end.
Proof.
  destruct (head _) as [p|] eqn:Hp.
  - pose proof (head_filter_holds _ _ _ Hp) as [Hm Hn].
    apply head_filter_elem in Hp. unfold participantKeys.
    apply list_elem_of_fmap. exists p. split; [congruence|exact Hp].
  - intros Hin. unfold participantKeys in Hin. apply list_elem_of_fmap in Hin as (p & E & Hin).
    injection E as Hm Hn.
    destruct (head_filter_exists
                (fun p => Participant.meetingId p = id /\ Participant.name p = name)
                ps p Hin) as [y Hy]; [auto|congruence].
Qed.

Lemma joined_spec id names : forall ps,
  NoDup (participantKeys ps) ->
  NoDup (participantKeys (joined id names ps)) /\
  (forall name, name ∈ names -> (id, name) ∈ participantKeys (joined id names ps)) /\
  exists added,
    joined id names ps = ps ++ added /\
    Forall (fun p => Participant.meetingId p = id /\ Participant.name p ∈ names /\
                     Participant.role p = "attendee") added.
Proof.
  induction names as [|name rest IH]; intros ps Hnd.
  - cbn [joined]. split; [exact Hnd|]. split; [intros name H; inversion H|].
    exists []. rewrite app_nil_r. auto.
  - cbn [joined]. pose proof (participant_lookup id name ps) as Hl.
    destruct (head _) as [p|].
    + destruct (IH ps Hnd) as (Hnd' & Hall & added & E & Hadded).
      split; [exact Hnd'|]. split.
      * intros name' [->|Hin]%elem_of_cons; [|auto].
        rewrite E. unfold participantKeys in *. rewrite map_app. apply elem_of_app. auto.
      * exists added. split; [exact E|].
        eapply Forall_impl; [exact Hadded|]. intros q (? & ? & ?).
        repeat split; auto. apply elem_of_cons. auto.
    + assert (Hnd1 : NoDup (participantKeys (ps ++ [Participant.mk id name "attendee"]))).
      { unfold participantKeys in *. rewrite map_app. apply NoDup_app.
        split; [exact Hnd|]. split; [|apply NoDup_singleton].
        intros k Hk [= ->]%list_elem_of_singleton. exact (Hl Hk). }
      destruct (IH _ Hnd1) as (Hnd' & Hall & added & E & Hadded).
      split; [exact Hnd'|]. split.
      * intros name' [->|Hin]%elem_of_cons; [|auto].
        rewrite E. unfold participantKeys. rewrite !map_app.
        apply elem_of_app. left. apply elem_of_app. right. apply list_elem_of_singleton.
        reflexivity.
      * exists (Participant.mk id name "attendee" :: added).
        split; [rewrite E, <- app_assoc; reflexivity|].
        constructor.
        -- repeat split. apply elem_of_cons. auto.
        -- eapply Forall_impl; [exact Hadded|]. intros q (? & ? & ?).
           repeat split; auto. apply elem_of_cons. auto.
Qed.

Lemma savedRows_converted id segments : forall n,
  savedRows id n segments =
  imap (fun k t => rowOf id (n + k) t) (getTranscript (Ok (map withoutText segments))).
Proof.
  unfold getTranscript.
  induction segments as [|segment rest IH]; intros n; [reflexivity|].
  cbn [savedRows map omap list_omap]. unfold converted at 1.
  change (spoken (withoutText segment)) with (spoken segment).
  cbn [withoutText Segment.text]. rewrite orElse_none. cbv zeta.
  destruct (Js.truthy (Js.trim (Js.orDefault (spoken segment) ""))).
  - cbn [imap]. rewrite Nat.add_0_r. f_equal.
    rewrite IH. apply imap_ext. intros k t _. cbn. rewrite Nat.add_succ_r. reflexivity.
  - apply IH.
Qed.

End TranscriptWebhookFacts.

Module MeetingBaasProperties.
Import MeetingBaas TranscriptWebhookFacts.

(** X20: the request that creates a bot asks for exactly one way of
    transcription: the provider's own when the configuration has no
    streaming URL (or an empty one), and the streaming of the audio to that
    URL, at 24 kHz, otherwise; the bot always has a name and joins at once. *)
Theorem bot_is_transcribed_on_one_side config :
  let p := createBotPayload config in
  Payload.bot_name p <> "" /\
  Payload.reserved p = false /\
  ((Js.truthyOpt (BotConfig.streaming_url config) = false /\
    Payload.speech_to_text p = Some "Default" /\ Payload.streaming p = None) \/
   (exists url, BotConfig.streaming_url config = Some url /\ url <> "" /\
                Payload.speech_to_text p = None /\
                Payload.streaming p = Some (url, "24khz"))).
Proof.
  cbv zeta. unfold createBotPayload.
  cbn [Payload.bot_name Payload.reserved Payload.speech_to_text Payload.streaming].
  split; [apply orDefault_nonempty; discriminate|]. split; [reflexivity|].
  destruct (BotConfig.streaming_url config) as [url|]; cbn [Js.truthyOpt negb]; [|auto].
  destruct (Js.truthy url) eqn:Hurl; cbn [negb]; [right|auto].
  exists url. repeat split. apply truthy_is_nonempty, Hurl.
Qed.

(** X21: every segment [getTranscript] returns has a text that is trimmed
    and not empty, a speaker that is not empty and the confidence 1: raw
    segments whose words (or, without words, whose text) are blank are left
    out, and a missing or empty speaker is replaced. *)
Theorem provider_transcript_is_trimmed response t :
  t ∈ getTranscript response ->
  Js.trim (TranscriptSegment.text t) = TranscriptSegment.text t /\
  TranscriptSegment.text t <> "" /\
  TranscriptSegment.speaker t <> "" /\
  TranscriptSegment.confidence t = Some 1%Q.
Proof.
  destruct response as [rawTranscript|e]; cbn [getTranscript]; [|intros H; inversion H].
  intros (segment & _ & Hc)%list_elem_of_omap. unfold converted in Hc. cbv zeta in Hc.
  destruct (Js.truthy (Js.trim _)) eqn:Htext; [|discriminate].
  injection Hc as <-. cbn [TranscriptSegment.text TranscriptSegment.speaker
                            TranscriptSegment.confidence].
  split; [apply trim_idempotent|]. split; [apply truthy_is_nonempty, Htext|].
  split; [apply orDefault_nonempty; discriminate|reflexivity].
Qed.

Lemma provider_transcript_is_trimmed_witness :
  let t := TranscriptSegment.mk "Hello all" "Unknown" 1 (Some 1%Q) in
  Js.trim (TranscriptSegment.text t) = TranscriptSegment.text t /\
  TranscriptSegment.text t <> "" /\
  TranscriptSegment.speaker t <> "" /\
  TranscriptSegment.confidence t = Some 1%Q.
Proof.
  apply (provider_transcript_is_trimmed
           (Ok [Segment.mk (Some [" "]) None None None None None;
                Segment.mk None (Some " Hello all ") (Some "") (Some 0%Q) (Some (3 # 2)) None])
           (TranscriptSegment.mk "Hello all" "Unknown" 1 (Some 1%Q))).
  vm_compute. constructor.
Defined.

End MeetingBaasProperties.

Module TranscriptWebhookProperties.
Import MeetingBaas TranscriptWebhook TranscriptWebhookFacts.

(** X22: on [complete] for the bot of a meeting, whatever the stop call
    to MeetingBaas answers, the handler answers 200 and the meeting is
    completed, ended at the time of the clock, with the duration the last
    segment ends at (rounded down) or, without one, the duration of the
    payload or 0, and with the audio file of the payload when it names one.
    The stop call is the only call made: no viewer is sent the status. *)
Theorem complete_marks_completed_whatever_the_stop_call env body s bot meeting :
  payloadBot body = Some bot ->
  payloadMeeting body (world s) = Some meeting ->
  event body = "complete" ->
  let id := Meeting.id meeting in
  let s' := snd (POST env body s) in
  fst (POST env body s) = Ok 200 /\
  meetingOf id (world s') = transcribedData env body <$> meetingOf id (world s) /\
  statusOf id (world s') = Some completed /\
  newEffects (world s) (world s') = [BaasStopBot bot] /\
  audioFileUrl s' !! id =
    match recordingOf body with
    | Some u => Some u
    | None => audioFileUrl s !! id
    end.
Proof.
  intros Hbot Hres Hev id s'.
  assert (Hfind : head (filter (fun m => Meeting.zoomMeetingId m = Some bot)
                          (meetings (world s))) = Some meeting).
  { unfold payloadMeeting in Hres. rewrite Hbot in Hres. exact Hres. }
  destruct (head_filter_exists (fun m => Meeting.id m = Meeting.id meeting)
              (meetings (world s)) meeting) as [m0 Hm0];
    [eapply head_filter_elem; eassumption|reflexivity|].
  unfold s'. rewrite (POST_complete env body s bot meeting Hbot Hres Hev).
  cbn [fst snd]. unfold transcribed. cbv zeta. cbn [world audioFileUrl].
  assert (Hm' : meetingOf id
                  (setMeetings (Prisma.updateWhere (Meeting.id meeting) (transcribedData env body))
                     (setNextId
                        (fun n => n + length (savedRows (Meeting.id meeting)
                                                (nextId (world s)) (segmentsOf body)))
                        (setTranscripts
                           (fun old => renamedFrom (Meeting.id meeting) 0 (speakersOf body) old
                                       ++ savedRows (Meeting.id meeting) (nextId (world s))
                                            (segmentsOf body))
                           (setTrace (fun t => t ++ [BaasStopBot bot]) (world s)))))
                = Some (transcribedData env body m0)).
  { unfold meetingOf. cbn [setMeetings setNextId setTranscripts setTrace meetings].
    apply BotServiceProperties.updateWhere_found; [reflexivity|exact Hm0]. }
  split; [reflexivity|].
  split; [rewrite Hm'; unfold meetingOf, id; rewrite Hm0; reflexivity|].
  split; [unfold statusOf; unfold meetingOf in Hm'; rewrite Hm'; reflexivity|].
  split.
  - unfold newEffects. cbn [setMeetings setNextId setTranscripts setTrace trace].
    apply drop_app_length.
  - destruct (recordingOf body) as [u|]; [apply lookup_insert_eq|reflexivity].
Qed.

Lemma complete_marks_completed_whatever_the_stop_call_witness :
  let id := Meeting.id (Scenario.meeting recording) in
  let s' := snd (POST Scenario.envDown transcriptPayload liveStore) in
  fst (POST Scenario.envDown transcriptPayload liveStore) = Ok 200 /\
  meetingOf id (world s') =
    transcribedData Scenario.envDown transcriptPayload <$> meetingOf id (world liveStore) /\
  statusOf id (world s') = Some completed /\
  newEffects (world liveStore) (world s') = [BaasStopBot "bot_1"] /\
  audioFileUrl s' !! id =
    match recordingOf transcriptPayload with
    | Some u => Some u
    | None => audioFileUrl liveStore !! id
    end.
Proof.
  apply (complete_marks_completed_whatever_the_stop_call Scenario.envDown transcriptPayload
           liveStore "bot_1" (Scenario.meeting recording)); vm_compute; reflexivity.
Defined.

(** X23: when no speaker of the payload is called like the label
    [Speaker j] of a later speaker, the handler leaves each transcript row
    that was there in its place, with the label [Speaker i] of a row of the
    meeting replaced by the name of speaker [i]; rows with another speaker,
    and the rows of other meetings, are as they were. *)
Theorem speaker_labels_become_names env body s bot meeting :
  payloadBot body = Some bot ->
  payloadMeeting body (world s) = Some meeting ->
  event body = "complete" ->
  noLaterLabel 0 (speakersOf body) ->
  let s' := snd (POST env body s) in
  take (length (transcripts (world s))) (transcripts (world s')) =
  map (reconciled (Meeting.id meeting) (speakersOf body)) (transcripts (world s)).
Proof.
  intros Hbot Hres Hev Hnames s'.
  unfold s'. rewrite (POST_complete env body s bot meeting Hbot Hres Hev).
  cbn [snd]. unfold transcribed. cbv zeta.
  cbn [world setMeetings setNextId setTranscripts setTrace transcripts].
  rewrite <- (renamedFrom_length (Meeting.id meeting) (speakersOf body) 0
                (transcripts (world s))).
  rewrite take_app_length. apply renamedFrom_reconciled, Hnames.
Qed.

Lemma speaker_labels_become_names_witness :
  let s' := snd (POST Scenario.env transcriptPayload liveStore) in
  take (length (transcripts (world liveStore))) (transcripts (world s')) =
  map (reconciled (Meeting.id (Scenario.meeting recording)) (speakersOf transcriptPayload))
    (transcripts (world liveStore)).
Proof.
  apply (speaker_labels_become_names Scenario.env transcriptPayload liveStore "bot_1"
           (Scenario.meeting recording)); [vm_compute; reflexivity..|].
  intros k name j Hk Hj. vm_compute in Hk.
  assert (Hlen : length (speakersOf transcriptPayload) = 2%nat) by reflexivity.
  rewrite Hlen in Hj. clear Hlen.
  destruct k as [|[|k]]; cbn in Hk; [| |discriminate Hk]; injection Hk as <-;
    destruct j as [|[|j]]; cbn in Hj; try lia; discriminate.
Defined.

(** A speaker called like the label of a later speaker takes that
    speaker's name: the rows of the first speaker end under the name of the
    second. *)
Example speaker_named_like_a_label_is_renamed_twice :
  let body := mkBody "complete" (Some "bot_1") None
                (Some (mkData None None (Some ["Speaker 1"; "Bob"]) None None)) in
  Transcript.speaker <$> transcripts afterFirst = [Some "Speaker 0"] /\
  Transcript.speaker <$> transcripts (world (snd (POST Scenario.env body liveStore)))
  = [Some "Bob"].
Proof. vm_compute. split; reflexivity. Qed.

(** X24: the handler saves each speaker of the payload as a participant
    of the meeting unless the meeting has one of that name: a participant
    table without two rows of the same meeting and name stays so, holds a
    row for each speaker afterwards, keeps the rows it had, and the rows
    added are attendees of the meeting named in the payload. *)
Theorem speakers_become_participants_once env body s bot meeting :
  payloadBot body = Some bot ->
  payloadMeeting body (world s) = Some meeting ->
  event body = "complete" ->
  NoDup (participantKeys (participants s)) ->
  let id := Meeting.id meeting in
  let s' := snd (POST env body s) in
  NoDup (participantKeys (participants s')) /\
  (forall name, name ∈ speakersOf body -> (id, name) ∈ participantKeys (participants s')) /\
  exists added,
    participants s' = participants s ++ added /\
    Forall (fun p => Participant.meetingId p = id /\
                     Participant.name p ∈ speakersOf body /\
                     Participant.role p = "attendee") added.
Proof.
  intros Hbot Hres Hev Hnd id s'.
  unfold s'. rewrite (POST_complete env body s bot meeting Hbot Hres Hev).
  cbn [snd]. unfold transcribed. cbv zeta. cbn [participants].
  apply joined_spec, Hnd.
Qed.

Lemma speakers_become_participants_once_witness :
  let id := Meeting.id (Scenario.meeting recording) in
  let s' := snd (POST Scenario.env transcriptPayload
                   (mkStore afterFirst [Participant.mk "m1" "Bob" "host"] ∅)) in
  NoDup (participantKeys (participants s')) /\
  (forall name, name ∈ speakersOf transcriptPayload ->
                (id, name) ∈ participantKeys (participants s')) /\
  exists added,
    participants s' =
      participants (mkStore afterFirst [Participant.mk "m1" "Bob" "host"] ∅) ++ added /\
    Forall (fun p => Participant.meetingId p = id /\
                     Participant.name p ∈ speakersOf transcriptPayload /\
                     Participant.role p = "attendee") added.
Proof.
  apply (speakers_become_participants_once Scenario.env transcriptPayload
           (mkStore afterFirst [Participant.mk "m1" "Bob" "host"] ∅) "bot_1"
           (Scenario.meeting recording)); [vm_compute; reflexivity..|].
  cbn. apply NoDup_singleton.
Defined.

(** X25: the rows the handler adds to the transcript are, in order and
    with consecutive fresh ids, the segments [getTranscript] of the
    MeetingBaas client returns for the same raw transcript read without its
    [text] fields; they come after the rows of the live transcription, which
    are all kept. *)
Theorem webhook_saves_what_the_client_converts env body s bot meeting :
  payloadBot body = Some bot ->
  payloadMeeting body (world s) = Some meeting ->
  event body = "complete" ->
  let w := world s in
  let w' := world (snd (POST env body s)) in
  drop (length (transcripts w)) (transcripts w') =
    imap (fun k t => rowOf (Meeting.id meeting) (nextId w + k) t)
      (getTranscript (Ok (map withoutText (segmentsOf body)))) /\
  length (transcripts w') =
    (length (transcripts w)
     + length (getTranscript (Ok (map withoutText (segmentsOf body)))))%nat.
Proof.
  intros Hbot Hres Hev w w'.
  unfold w'. rewrite (POST_complete env body s bot meeting Hbot Hres Hev).
  cbn [snd]. unfold transcribed. cbv zeta.
  cbn [world setMeetings setNextId setTranscripts setTrace transcripts].
  rewrite savedRows_converted. fold w. split.
  - rewrite <- (renamedFrom_length (Meeting.id meeting) (speakersOf body) 0 (transcripts w))
      at 1.
    apply drop_app_length.
  - rewrite length_app, renamedFrom_length, length_imap. reflexivity.
Qed.

Lemma webhook_saves_what_the_client_converts_witness :
  let w := world liveStore in
  let w' := world (snd (POST Scenario.env transcriptPayload liveStore)) in
  drop (length (transcripts w)) (transcripts w') =
    imap (fun k t => rowOf (Meeting.id (Scenario.meeting recording)) (nextId w + k) t)
      (getTranscript (Ok (map withoutText (segmentsOf transcriptPayload)))) /\
  length (transcripts w') =
    (length (transcripts w)
     + length (getTranscript (Ok (map withoutText (segmentsOf transcriptPayload)))))%nat.
Proof.
  apply (webhook_saves_what_the_client_converts Scenario.env transcriptPayload liveStore
           "bot_1" (Scenario.meeting recording)); vm_compute; reflexivity.
Defined.

(** X26: a payload that names no bot is answered 400, one whose bot no
    meeting has 404, and one about a meeting with an event other than
    [complete] and [failed] 200; none of them changes the database or makes
    a call. *)
Theorem other_transcript_events_change_nothing env body s :
  payloadMeeting body (world s) = None \/
  (event body <> "complete" /\ event body <> "failed") ->
  POST env body s =
  (Ok match payloadBot body, payloadMeeting body (world s) with
      | None, _ => 400
      | Some _, None => 404
      | Some _, Some _ => 200
      end, s).
Proof.
  intros Hcase. destruct s as [w ps au]. cbn [world] in *.
  unfold payloadMeeting, payloadBot in *. unfold POST.
  destruct (Js.orElse _ _) as [bot|]; [|reflexivity].
  destruct (Js.truthy bot); [|reflexivity].
  cbv [mbind option_bind] in Hcase |- *. apply attempt_ok.
  erewrite bind_run
    by (cbv [lift Prisma.meeting_findFirst world participants audioFileUrl]; reflexivity).
  destruct (head (filter _ (meetings w))) as [meeting|]; [|reflexivity].
  destruct Hcase as [|[Hc Hf]]; [discriminate|].
  cbv beta iota zeta. rewrite !decide_False by assumption. reflexivity.
Qed.

Lemma other_transcript_events_change_nothing_witness :
  let body := mkBody "bot.status_change" None None
                (Some (mkData (Some "bot_1") None None None None)) in
  POST Scenario.env body liveStore = (Ok 200, liveStore).
Proof.
  apply (other_transcript_events_change_nothing Scenario.env
           (mkBody "bot.status_change" None None
              (Some (mkData (Some "bot_1") None None None None)))
           liveStore).
  right. split; discriminate.
Defined.

End TranscriptWebhookProperties.
